(** * Calendar backend: availability and slot allocation

    A shallow embedding of the availability engine of the photography
    booking backend:

    - [services/mapsService.js]   (travel estimates and their caches),
    - [routes/msAvailability.js]  (duration policy; listings of slots, dates and
      start times),
    - [routes/bookings.js]        (creation of a booking),
    - [services/msGraphService.js] (the calendar lookups the routes use).

    JavaScript numbers that hold minutes, seconds or milliseconds are
    integers in every code path modelled here and are represented by [Z];
    [NaN] is represented by [None] where the source can produce it.
    [Date] objects are represented by their [getTime()] value, epoch
    milliseconds.  Maps used as caches are [gmap]s keyed by strings. *)

From Stdlib Require Import ZArith List Ascii String Bool Lia QArith_base.
From stdpp Require Import base option gmap strings pretty.

Close Scope Q_scope.
Local Open Scope string_scope.
Local Open Scope Z_scope.

Set Default Proof Using "Type".

(** ** JavaScript string primitives *)

Module Js.

(** [String.prototype.toUpperCase], on the ASCII range. *)
Definition upper_ascii (c : ascii) : ascii :=
  let n := nat_of_ascii c in
  if (Nat.leb 97 n && Nat.leb n 122)%bool then ascii_of_nat (n - 32) else c.

Fixpoint toUpperCase (s : string) : string :=
  match s with
  | EmptyString => EmptyString
  | String c r => String (upper_ascii c) (toUpperCase r)
  end.

(** White space as [trim] sees it (ASCII part): TAB, LF, VT, FF, CR, SP. *)
Definition is_space (c : ascii) : bool :=
  let n := nat_of_ascii c in
  (Nat.eqb n 32 || (Nat.leb 9 n && Nat.leb n 13))%bool.

Fixpoint trimStart (s : string) : string :=
  match s with
  | String c r => if is_space c then trimStart r else s
  | EmptyString => EmptyString
  end.

(** Drops trailing white space: a character is kept when something
    that is kept follows it, or when it is not white space. *)
Fixpoint trimEnd (s : string) : string :=
  match s with
  | EmptyString => EmptyString
  | String c r =>
      match trimEnd r with
      | EmptyString => if is_space c then EmptyString else String c EmptyString
      | r' => String c r'
      end
  end.

Definition trim (s : string) : string := trimEnd (trimStart s).

(** [s.includes(sub)] *)
Fixpoint includes (s sub : string) : bool :=
  (String.prefix sub s ||
   match s with
   | EmptyString => false
   | String _ r => includes r sub
   end)%bool.

(** [s.replace(/,/g, '')] *)
Fixpoint removeCommas (s : string) : string :=
  match s with
  | EmptyString => EmptyString
  | String c r =>
      if Ascii.eqb c ","%char then removeCommas r else String c (removeCommas r)
  end.

(** Truthiness of an optional string: [undefined] and [''] are falsy. *)
Definition truthy (o : option string) : bool :=
  match o with
  | Some s => negb (String.eqb s "")
  | None => false
  end.

(** [o || ''] *)
Definition orEmpty (o : option string) : string :=
  match o with
  | Some s => s
  | None => ""
  end.

(** Value of a character as a digit of the given radix. *)
Definition digit_of (radix : Z) (c : ascii) : option Z :=
  let n := Z.of_nat (nat_of_ascii c) in
  let v :=
    if (48 <=? n) && (n <=? 57) then Some (n - 48)
    else if (97 <=? n) && (n <=? 122) then Some (n - 87)
    else if (65 <=? n) && (n <=? 90) then Some (n - 55)
    else None in
  match v with
  | Some d => if d <? radix then Some d else None
  | None => None
  end.

(** Longest prefix of digits, accumulated left to right; the second
    component tells whether any digit was read. *)
Fixpoint digits (radix : Z) (s : string) (acc : Z) (seen : bool) : Z * bool :=
  match s with
  | EmptyString => (acc, seen)
  | String c r =>
      match digit_of radix c with
      | Some d => digits radix r (acc * radix + d) true
      | None => (acc, seen)
      end
  end.

Definition unsigned_parse (s : string) : option Z :=
  let '(radix, body) :=
    match s with
    | String "0" (String x r) =>
        if (Ascii.eqb x "x" || Ascii.eqb x "X")%bool then (16, r) else (10, s)
    | _ => (10, s)
    end in
  let '(v, seen) := digits radix body 0 false in
  if seen then Some v else None.

(** [parseInt(s)] without a radix argument; [None] is [NaN]. *)
Definition parseInt (s : string) : option Z :=
  match trimStart s with
  | String "-" r => Z.opp <$> unsigned_parse r
  | String "+" r => unsigned_parse r
  | r => unsigned_parse r
  end.

(** [n.toString()] for an integer. *)
Definition toString (n : Z) : string := pretty n.

(** [s.padStart(2, '0')] *)
Definition padStart2 (s : string) : string :=
  match s with
  | EmptyString => "00"
  | String c EmptyString => String "0" s
  | _ => s
  end.

(** [Math.ceil(a / b)] for integers [a] and a positive integer [b]. *)
Definition ceilDiv (a b : Z) : Z := - ((- a) / b).

End Js.

(** ** Dates and times

    A [Date] is its epoch-millisecond value.  The server's local zone and
    the business zone (America/New_York) are fixed offsets from UTC, in
    minutes east; daylight-saving transitions inside one request are not
    modelled.  A date string [YYYY-MM-DD] is a [CivilDate]. *)

Record CivilDate := mkDate { year : Z; month : Z; day : Z }.

Record TimeOfDay := mkTime { hours : Z; minutes : Z }.

Definition msPerMinute : Z := 60000.
Definition msPerHour : Z := 3600000.
Definition msPerDay : Z := 86400000.

(** Days from 1970-01-01 to a date of the proleptic Gregorian calendar. *)
Definition daysFromCivil (d : CivilDate) : Z :=
  let y := if month d <=? 2 then year d - 1 else year d in
  let era := y / 400 in
  let yoe := y - era * 400 in
  let mp := (month d + 9) mod 12 in
  let doy := (153 * mp + 2) / 5 + day d - 1 in
  let doe := yoe * 365 + yoe / 4 - yoe / 100 + doy in
  era * 146097 + doe - 719468.

Definition civil_eqb (a b : CivilDate) : bool :=
  (year a =? year b) && (month a =? month b) && (day a =? day b).

Section LocalTime.

(** Offset of the zone in minutes east of UTC. *)
Variable tz : Z.

(** [new Date(`${dateString}T00:00:00`)]: local midnight of the date. *)
Definition localMidnight (d : CivilDate) : Z :=
  daysFromCivil d * msPerDay - tz * msPerMinute.

(** [new Date(`${dateString}T${HH}:${MM}:00`)] *)
Definition localDateTime (d : CivilDate) (t : TimeOfDay) : Z :=
  localMidnight d + hours t * msPerHour + minutes t * msPerMinute.

(** Local wall-clock reading of an instant, in milliseconds. *)
Definition wallClock (t : Z) : Z := t + tz * msPerMinute.

Definition getHours (t : Z) : Z := (wallClock t / msPerHour) mod 24.
Definition getMinutes (t : Z) : Z := (wallClock t / msPerMinute) mod 60.

(** [date.getDay()]: 0 is Sunday; 1970-01-01 was a Thursday. *)
Definition getDay (t : Z) : Z := (wallClock t / msPerDay + 4) mod 7.

(** [t.setHours(h, m, s, ms)] *)
Definition setHours4 (t h m s ms : Z) : Z :=
  (wallClock t / msPerDay) * msPerDay
  + h * msPerHour + m * msPerMinute + s * 1000 + ms - tz * msPerMinute.

(** [t.setHours(h, m, s)]: the milliseconds are kept. *)
Definition setHours3 (t h m s : Z) : Z :=
  setHours4 t h m s (wallClock t mod 1000).

(** [t.setMinutes(0, 0, 0)]: start of the local hour. *)
Definition startOfHour (t : Z) : Z := t - wallClock t mod msPerHour.

(** [t.setMinutes(t.getMinutes() + k)] *)
Definition addMinutes (t k : Z) : Z := t + k * msPerMinute.

End LocalTime.

(** [new Date(`${dateString}T${time}.000Z`)]: the reading taken as UTC. *)
Definition utcDateTime (d : CivilDate) (t : TimeOfDay) : Z := localDateTime 0 d t.

(** ** The outside world

    What the process reads from its environment during one request: the
    clock, the configuration, the relational store, the calendar provider
    and the mapping provider. *)

Record LatLng := mkLatLng { latitude : Q; longitude : Q }.

(** Answer of the geocoding endpoint: a transport failure, or a body with
    a [status] and the coordinates of its [results]. *)
Inductive GeocodeResponse :=
| GeocodeFailed
| GeocodeBody (status : string) (results : list LatLng).

(** Body of the request posted to the route-matrix endpoint. *)
Record RouteRequest := mkRouteRequest {
  origin : LatLng;
  destination : LatLng;
  departureTime : option Z
}.

(** First row of a route-matrix answer; [durationSeconds] is the number of
    seconds of the ["<n>s"] string, as [parseInt] reads it. *)
Record RouteRow := mkRouteRow { distanceMeters : Z; durationSeconds : Z }.

(** A calendar event as the routes read it.  [start_dateTime] and
    [end_dateTime] are the instants of [new Date(event.start.dateTime + 'Z')]
    and [new Date(event.end.dateTime + 'Z')]. *)
Record Event := mkEvent {
  showAs : string;
  start_dateTime : Z;
  end_dateTime : Z;
  subject : string;
  location_displayName : option string
}.

Record Holiday := mkHoliday {
  holiday_date : CivilDate;
  holiday_is_active : bool
}.

Record OperatingHours := mkOperatingHours {
  day_of_week : Z;
  open_time : TimeOfDay;
  close_time : TimeOfDay;
  is_active : bool
}.

(** The two tables the routes read, and whether a query on each fails. *)
Record Db := mkDb {
  holidays : list Holiday;
  operating_hours : list OperatingHours;
  holidays_unreachable : bool;
  operating_hours_unreachable : bool
}.

(** Payload of a calendar write. *)
Record EventDetails := mkEventDetails {
  ed_subject : string;
  ed_start : Z;
  ed_end : Z;
  ed_location : string
}.

Record CreatedEvent := mkCreatedEvent { ce_id : string; ce_webLink : string }.

Record Env := mkEnv {
  now : Z;                    (* Date.now() *)
  serverZone : Z;             (* server local zone, minutes east of UTC *)
  businessZone : Z;           (* America/New_York at [now]: -300 or -240 *)
  apiKey : option string;     (* process.env.ROUTES_API_KEY *)
  geocode : string -> GeocodeResponse;
  computeRouteMatrix : RouteRequest -> option RouteRow;
  db : Db;
  photographers : list string;          (* config.photographers *)
  useMockMode : bool;
  calendarView : string -> Z -> Z -> option (list Event);
  createEvent : string -> EventDetails -> option CreatedEvent
}.

(** The same environment with other rows in the holidays table. *)
Definition withHolidays (e : Env) (rows : list Holiday) : Env :=
  mkEnv (now e) (serverZone e) (businessZone e) (apiKey e) (geocode e)
        (computeRouteMatrix e)
        (mkDb rows (operating_hours (db e)) (holidays_unreachable (db e))
              (operating_hours_unreachable (db e)))
        (photographers e) (useMockMode e) (calendarView e) (createEvent e).

Inductive Exn := Error (message : string).

(** Result of a database query. *)
Definition queryHolidays (d : Db) (date : CivilDate) : Exn + list Holiday :=
  if holidays_unreachable d then inl (Error "holidays")
  else inr (List.filter (fun h => civil_eqb (holiday_date h) date && holiday_is_active h)
                   (holidays d)).

Definition queryOperatingHours (d : Db) (dayOfWeek : Z) : Exn + list OperatingHours :=
  if operating_hours_unreachable d then inl (Error "operating_hours")
  else inr (List.filter (fun r => (day_of_week r =? dayOfWeek) && is_active r)
                   (operating_hours d)).

(** ** Process state and effects

    The state that outlives a call: the caches of the maps service, and a
    trace of the requests sent to the route-matrix endpoint and of the
    events written to the calendar (oldest first).

    [travelTimeCache] of the source holds two kinds of entries in one
    [Map]: travel data under the key of [getCacheKey], and rounded buffers
    under that key prefixed by ["buffer_"].  A key of [getCacheKey] is in
    upper case, so the two families never meet; they are kept in two maps
    here, each under the very key the source computes.  An entry is a pair
    of its [timestamp] and its [data]. *)

Record Measure := mkMeasure { text : string; value : Z }.

(** [distance] is in metres, the durations in seconds. *)
Record TravelData := mkTravelData {
  distance : Measure;
  duration : Measure;
  duration_in_traffic : option Measure
}.

Record World := mkWorld {
  travelTimeCache : gmap string (Z * TravelData);
  travelBufferCache : gmap string (Z * Z);
  geocodeCache : gmap string LatLng;
  routeLog : list RouteRequest;
  calendarLog : list (string * EventDetails)
}.

Definition M (A : Type) : Type := World -> A * World.

Definition ret {A} (a : A) : M A := fun w => (a, w).

Definition bind {A B} (m : M A) (k : A -> M B) : M B :=
  fun w => let '(a, w') := m w in k a w'.

Definition gets {A} (f : World -> A) : M A := fun w => (f w, w).

Definition modify (f : World -> World) : M unit := fun w => (tt, f w).

Notation "x <- c ;; k" := (bind c (fun x => k))
  (at level 62, c at next level, right associativity).
Notation "c ;;; k" := (bind c (fun _ => k))
  (at level 62, right associativity).

Definition set_travelTimeCache (k : string) (v : Z * TravelData) : M unit :=
  modify (fun w => mkWorld (<[k := v]> (travelTimeCache w)) (travelBufferCache w)
                           (geocodeCache w) (routeLog w) (calendarLog w)).

Definition set_travelBufferCache (k : string) (v : Z * Z) : M unit :=
  modify (fun w => mkWorld (travelTimeCache w) (<[k := v]> (travelBufferCache w))
                           (geocodeCache w) (routeLog w) (calendarLog w)).

Definition set_geocodeCache (k : string) (v : LatLng) : M unit :=
  modify (fun w => mkWorld (travelTimeCache w) (travelBufferCache w)
                           (<[k := v]> (geocodeCache w)) (routeLog w) (calendarLog w)).

Definition log_route (r : RouteRequest) : M unit :=
  modify (fun w => mkWorld (travelTimeCache w) (travelBufferCache w)
                           (geocodeCache w) (routeLog w ++ [r]) (calendarLog w)).

Definition log_calendar (user : string) (d : EventDetails) : M unit :=
  modify (fun w => mkWorld (travelTimeCache w) (travelBufferCache w)
                           (geocodeCache w) (routeLog w) (calendarLog w ++ [(user, d)])).

Definition emptyWorld : World := mkWorld ∅ ∅ ∅ [] [].

(** ** services/mapsService.js *)

Record TravelEventDetails := mkTravelEventDetails {
  startTime : Z;
  endTime : Z;
  durationMinutes : Z;
  formattedAddress : string
}.

Module MapsService.

Definition officeLatLng : LatLng :=
  mkLatLng (269342 # 10000)%Q (- 800942 # 10000)%Q.

Definition stuartLatLng : LatLng :=
  mkLatLng (271476881 # 10000000)%Q (- 8021795449999999 # 100000000000000)%Q.

Definition cacheDuration : Z := 30 * 60 * 1000.

Section WithEnv.

Variable e : Env.

(** The geocoding request of [addressToLatLng]: the first result of an
    [OK] answer; [None] when the [try] block throws. *)
Definition geocodeLookup (normalizedAddress : string) : option LatLng :=
  match geocode e normalizedAddress with
  | GeocodeBody status (location :: _) =>
      if String.eqb status "OK" then Some location else None
  | _ => None
  end.

(** [addressToLatLng(address)]: [inl] is a thrown error. *)
Definition addressToLatLng (address : string) : M (Exn + LatLng) :=
  if String.eqb address "" then ret (inl (Error "Address is required"))
  else
    let normalizedAddress := Js.trim address in
    cached <- gets (fun w => geocodeCache w !! Js.toUpperCase normalizedAddress) ;;
    match cached with
    | Some r => ret (inr r)
    | None =>
        match geocodeLookup normalizedAddress with
        | Some result =>
            set_geocodeCache (Js.toUpperCase normalizedAddress) result ;;;
            ret (inr result)
        | None =>
            (* catch (error) *)
            if Js.includes (Js.toUpperCase normalizedAddress) "STUART"
               || Js.includes (Js.toUpperCase normalizedAddress) "SE FEDERAL HWY"
            then
              set_geocodeCache (Js.toUpperCase normalizedAddress) stuartLatLng ;;;
              ret (inr stuartLatLng)
            else ret (inr officeLatLng)
        end
    end.

Definition getCacheKey (destinationAddress : string) (arrivalTime : option Z) : string :=
  let normalizedAddress := Js.trim (Js.toUpperCase destinationAddress) in
  match arrivalTime with
  | None => normalizedAddress
  | Some t =>
      normalizedAddress ++ "_" ++ Js.toString (startOfHour (serverZone e) t)
  end.

(** [isCacheValid(cachedData)], on the timestamp of the entry. *)
Definition isCacheValid (timestamp : Z) : bool :=
  if timestamp =? 0 then false else now e - timestamp <? cacheDuration.

Definition defaultResult : TravelData :=
  mkTravelData (mkMeasure "25 mi" 40234) (mkMeasure "30 mins" 1800)
               (Some (mkMeasure "35 mins" 2100)).

(** [`${Math.round(distanceMeters / 1609.34)} mi`], the quotient taken
    exactly, and [`${Math.ceil(seconds / 60)} mins`]. *)
Definition milesText (distanceMeters : Z) : string :=
  Js.toString ((100 * distanceMeters + 80467) / 160934) ++ " mi".

Definition minsText (seconds : Z) : string :=
  Js.toString (Js.ceilDiv seconds 60) ++ " mins".

(** The [catch] block of [calculateTravelTime]. *)
Definition travelTimeFallback (destinationAddress : string) (arrivalTime : option Z)
  : M TravelData :=
  set_travelTimeCache (getCacheKey destinationAddress arrivalTime)
                      (now e, defaultResult) ;;;
  ret defaultResult.

(** The part of [calculateTravelTime] after a cache miss: geocode the
    destination, post the route-matrix request, keep the answer. *)
Definition requestRoute (destinationAddress : string) (arrivalTime : option Z)
  (cacheKey : string) : M TravelData :=
  geocoded <- addressToLatLng destinationAddress ;;
  match geocoded with
  | inl _ => travelTimeFallback destinationAddress arrivalTime
  | inr destinationLatLng =>
      let requestBody := mkRouteRequest officeLatLng destinationLatLng arrivalTime in
      log_route requestBody ;;;
      match computeRouteMatrix e requestBody with
      | Some routeData =>
          let result :=
            mkTravelData
              (mkMeasure (milesText (distanceMeters routeData)) (distanceMeters routeData))
              (mkMeasure (minsText (durationSeconds routeData)) (durationSeconds routeData))
              (Some (mkMeasure (minsText (durationSeconds routeData))
                               (durationSeconds routeData))) in
          set_travelTimeCache cacheKey (now e, result) ;;;
          ret result
      | None => travelTimeFallback destinationAddress arrivalTime
      end
  end.

(** The entry of a cache under a key, when it is still valid. *)
Definition validEntry {A} (cache : gmap string (Z * A)) (key : string) : option A :=
  match cache !! key with
  | Some (timestamp, data) => if isCacheValid timestamp then Some data else None
  | None => None
  end.

Definition calculateTravelTime (destinationAddress : string) (arrivalTime : option Z)
  : M TravelData :=
  if String.eqb destinationAddress "" then travelTimeFallback destinationAddress arrivalTime
  else if negb (Js.truthy (apiKey e)) then travelTimeFallback destinationAddress arrivalTime
  else
    let cacheKey := getCacheKey destinationAddress arrivalTime in
    cached <- gets (fun w => validEntry (travelTimeCache w) cacheKey) ;;
    match cached with
    | Some data => ret data
    | None => requestRoute destinationAddress arrivalTime cacheKey
    end.

(** One-way minutes of a travel estimate, then rounded up to a multiple
    of thirty. *)
Definition oneWaySeconds (travelData : TravelData) : Z :=
  match duration_in_traffic travelData with
  | Some inTraffic => value inTraffic
  | None => value (duration travelData)
  end.

Definition travelTimeMinutes (travelData : TravelData) : Z :=
  Js.ceilDiv (oneWaySeconds travelData) 60.

Definition roundedTravelTime (travelData : TravelData) : Z :=
  Js.ceilDiv (travelTimeMinutes travelData) 30 * 30.

(** [calculateTravelTimeBuffer(destinationAddress, arrivalTime)].  Its
    [catch] block (return 30) is entered only when the argument is not a
    string; on strings nothing in the [try] block throws. *)
Definition calculateTravelTimeBuffer (destinationAddress : string)
  (arrivalTime : option Z) : M Z :=
  let normalizedAddress := Js.trim (Js.toUpperCase destinationAddress) in
  let bufferCacheKey := "buffer_" ++ getCacheKey normalizedAddress arrivalTime in
  cached <- gets (fun w => validEntry (travelBufferCache w) bufferCacheKey) ;;
  match cached with
  | Some data => ret data
  | None =>
      travelData <- calculateTravelTime normalizedAddress arrivalTime ;;
      set_travelBufferCache bufferCacheKey (now e, roundedTravelTime travelData) ;;;
      ret (roundedTravelTime travelData)
  end.

Definition getTravelEventDetails (propertyAddress : string) (appointmentTime : Z)
  (isTravelTo : bool) : M TravelEventDetails :=
  travelBuffer <- calculateTravelTimeBuffer propertyAddress (Some appointmentTime) ;;
  let travelTimeMs := travelBuffer * 60 * 1000 in
  if isTravelTo
  then ret (mkTravelEventDetails (appointmentTime - travelTimeMs) appointmentTime
                                 travelBuffer propertyAddress)
  else ret (mkTravelEventDetails appointmentTime (appointmentTime + travelTimeMs)
                                 travelBuffer propertyAddress).

End WithEnv.

End MapsService.

(** What a route sees of [require('../services/mapsService')]: each call
    either returns or throws ([inl]). *)
Record MapsServiceModule := mkMapsServiceModule {
  calculateTravelTime : string -> option Z -> M (Exn + TravelData);
  calculateTravelTimeBuffer : string -> option Z -> M (Exn + Z);
  getTravelEventDetails : string -> Z -> bool -> M (Exn + TravelEventDetails)
}.

Definition returning {A} (m : M A) : M (Exn + A) := a <- m ;; ret (inr a).

(** Every buffer held in the cache is a multiple of thirty minutes. *)
Definition buffersRounded (w : World) : Prop :=
  forall key timestamp buffer,
    travelBufferCache w !! key = Some (timestamp, buffer) -> buffer mod 30 = 0.

(** The module as it is deployed. *)
Definition mapsService (e : Env) : MapsServiceModule :=
  mkMapsServiceModule
    (fun a t => returning (MapsService.calculateTravelTime e a t))
    (fun a t => returning (MapsService.calculateTravelTimeBuffer e a t))
    (fun a t b => returning (MapsService.getTravelEventDetails e a t b)).

(** ** services/msGraphService.js *)

Record BookingData := mkBookingData {
  clientName : string;
  clientEmail : string;
  clientPhone : string;
  service : string;
  location : string;
  startDateTime : Z;
  endDateTime : Z;
  notes : string
}.

Module MsGraphService.

Section WithEnv.

Variable e : Env.

(** [getUserAvailability]: the events of one calendar in a window; [inl]
    when the provider call is rejected. *)
Definition getUserAvailability (userEmail : string) (windowStart windowEnd : Z)
  : Exn + list Event :=
  if useMockMode e then inr []
  else match calendarView e userEmail windowStart windowEnd with
       | Some events => inr events
       | None => inl (Error "calendarView")
       end.

(** [getPhotographersAvailability]: an object keyed by email.  The first
    failing calendar aborts the whole lookup. *)
Fixpoint getPhotographersAvailability (photographerEmails : list string)
  (windowStart windowEnd : Z) (availabilityMap : gmap string (list Event))
  : Exn + gmap string (list Event) :=
  match photographerEmails with
  | [] => inr availabilityMap
  | email :: rest =>
      match getUserAvailability email windowStart windowEnd with
      | inl err => inl err
      | inr events =>
          getPhotographersAvailability rest windowStart windowEnd
                                       (<[email := events]> availabilityMap)
      end
  end.

(** [createCalendarEvent]: in mock mode nothing is written. *)
Definition createCalendarEvent (userEmail : string) (eventDetails : EventDetails)
  : M (Exn + CreatedEvent) :=
  if useMockMode e
  then ret (inr (mkCreatedEvent ("mock-event-" ++ Js.toString (now e))
                                "https://outlook.office.com/mock-calendar-event"))
  else match createEvent e userEmail eventDetails with
       | Some created => log_calendar userEmail eventDetails ;;; ret (inr created)
       | None => ret (inl (Error "createCalendarEvent"))
       end.

End WithEnv.

(** Subject, time span and location of the two kinds of events; the HTML
    body and the attendee list are left out. *)
Definition formatTravelCalendarEvent (travelData : TravelEventDetails)
  (bookingData : BookingData) (isTravelTo : bool) : EventDetails :=
  let direction := if isTravelTo then "TO" else "FROM" in
  mkEventDetails
    ("TRAVEL " ++ direction ++ ": " ++ clientName bookingData
       ++ " (" ++ Js.toString (durationMinutes travelData) ++ " min)")
    (startTime travelData) (endTime travelData)
    (if isTravelTo
     then "From Office to " ++ formattedAddress travelData
     else "From " ++ formattedAddress travelData ++ " to Office").

Definition formatClientCalendarEvent (bookingData : BookingData) : EventDetails :=
  mkEventDetails (service bookingData ++ " - " ++ clientName bookingData)
                 (startDateTime bookingData) (endDateTime bookingData)
                 (location bookingData).

End MsGraphService.

(** A status that blocks a slot. *)
Definition blocks (event : Event) : bool :=
  String.eqb (showAs event) "busy" || String.eqb (showAs event) "oof"
  || String.eqb (showAs event) "tentative".

(** [Array.prototype.sort(compare)]: a stable sort; [compare a b < 0]
    puts [a] first. *)
Fixpoint insertSorted {A} (compare : A -> A -> Z) (x : A) (l : list A) : list A :=
  match l with
  | [] => [x]
  | y :: r => if compare x y <=? 0 then x :: l else y :: insertSorted compare x r
  end.

Definition sortBy {A} (compare : A -> A -> Z) (l : list A) : list A :=
  foldr (insertSorted compare) [] l.

(** ** routes/msAvailability.js *)

Module MsAvailability.

Record Query := mkQuery {
  date : option CivilDate;
  service_type : option string;
  square_footage : option string;
  property_price : option string;
  property_address : option string
}.

Record Slot := mkSlot {
  start_time : string;
  end_time : string;
  photographer : string;
  is_primary : bool
}.

Inductive Response :=
| Json (slots : list Slot)
| Status (code : Z) (error : string).

Definition officeStreet : string := "825 Parkway St".

Definition timeToMinutes (timeString : TimeOfDay) : Z :=
  hours timeString * 60 + minutes timeString.

Definition minutesToTime (minutes : Z) : string :=
  let hours := minutes / 60 in
  let mins := Z.rem minutes 60 in
  let period := if 12 <=? hours then "PM" else "AM" in
  let hours12 := if Z.rem hours 12 =? 0 then 12 else Z.rem hours 12 in
  let formattedMinutes := Js.padStart2 (Js.toString mins) in
  Js.toString hours12 ++ ":" ++ formattedMinutes ++ " " ++ period.

Definition doTimesOverlap (start1 end1 start2 end2 : Z) : bool :=
  (start1 <? end2) && (start2 <? end1).

Definition slotInterval : Z := 30.

Section WithEnv.

Variable e : Env.
Variable maps : MapsServiceModule.

Definition getCorrectDayOfWeek (dateString : CivilDate) : Z :=
  getDay (serverZone e) (localMidnight (serverZone e) dateString).

(** [today], after [today.setHours(0, 0, 0, 0)]. *)
Definition today : Z := setHours4 (serverZone e) (now e) 0 0 0 0.

Definition isDateInPast (dateString : CivilDate) : bool :=
  localMidnight (serverZone e) dateString <? today.

Definition isDateToday (dateString : CivilDate) : bool :=
  setHours4 (serverZone e) (localMidnight (serverZone e) dateString) 0 0 0 0 =? today.

Definition isDateTomorrow (dateString : CivilDate) : bool :=
  let tomorrow := today + msPerDay in
  setHours4 (serverZone e) (localMidnight (serverZone e) dateString) 0 0 0 0 =? tomorrow.

(** The formatter yields the hour (0 to 23) and the minute of the business
    zone. *)
Definition isBeforeCutoffTime : bool :=
  let hours := getHours (businessZone e) (now e) in
  let minutes := getMinutes (businessZone e) (now e) in
  (hours <? 17) || ((hours =? 17) && (minutes =? 0)).

(** Minutes since midnight on the clock of the business zone. *)
Definition businessMinutes : Z :=
  getHours (businessZone e) (now e) * 60 + getMinutes (businessZone e) (now e).

Definition calculateDurationFromSquareFootage
  (squareFootage propertyPrice propertyAddress : option string)
  (bookingDateTime : option Z) : M Z :=
  let sqft := squareFootage ≫= Js.parseInt in
  let price :=
    if Js.truthy propertyPrice
    then Js.parseInt (Js.removeCommas (Js.orEmpty propertyPrice))
    else Some 0 in
  let duration :=
    match sqft with
    | Some sqft =>
        if sqft <? 3000 then 60
        else if (3000 <=? sqft) && (sqft <? 4000) then 90
        else 120
    | None => 120
    end in
  let duration :=
    match price with
    | Some price =>
        let priceAddition :=
          if 5000000 <=? price then 60
          else if 1000000 <=? price then 30
          else 0 in
        if 0 <? priceAddition then duration + priceAddition else duration
    | None => duration
    end in
  if Js.truthy propertyAddress then
    outcome <- calculateTravelTimeBuffer maps (Js.orEmpty propertyAddress) bookingDateTime ;;
    match outcome with
    | inr travelBuffer => ret (duration + travelBuffer * 2)
    | inl _ => ret (duration + 30 * 2)
    end
  else ret duration.

(** The duration chosen by the request: lines 920 to 934 of the handler
    (and the same lines of [GET /dates]). *)
Definition requestDuration (q : Query) : M Z :=
  if Js.truthy (square_footage q) then
    calculateDurationFromSquareFootage (square_footage q) (property_price q)
                                       (property_address q) None
  else if Js.truthy (service_type q) then
    if String.eqb (Js.orEmpty (service_type q)) "standard" then ret 120
    else if String.eqb (Js.orEmpty (service_type q)) "extended" then ret 180
    else ret 60
  else ret 120.

(** The minimum travel buffer of the request: zero without an address. *)
Definition requestTravelBuffer (q : Query) : M Z :=
  if Js.truthy (property_address q) then
    outcome <- calculateTravelTimeBuffer maps (Js.orEmpty (property_address q)) None ;;
    match outcome with
    | inr travelTimeBuffer => ret travelTimeBuffer
    | inl _ => ret 30
    end
  else ret 0.

(** *** One candidate slot *)

Section Candidate.

Variable q : Query.
Variable formattedDate : CivilDate.
Variable msAvailability : gmap string (list Event).
Variables openMinutes closeMinutes durationMinutes travelTimeBuffer : Z.
Variable slotStart : Z.

Definition actualAppointmentDuration : Z := durationMinutes - travelTimeBuffer * 2.

Definition slotEnd : Z := slotStart + actualAppointmentDuration.

(** Local midnight of the date, then [setHours(floor(m / 60), m % 60, 0, 0)]. *)
Definition atMinutes (base m : Z) : Z :=
  setHours4 (serverZone e) base (m / 60) (Z.rem m 60) 0 0.

Definition slotStartDate : Z := atMinutes (localMidnight (serverZone e) formattedDate) slotStart.

Definition bookingStartTime : Z := slotStartDate.

(** The traffic-aware recalculation: [None] when the slot is skipped,
    otherwise the value of [slotEndDate] after it. *)
Definition recalculatedEnd : M (option Z) :=
  let slotEndDate := atMinutes (localMidnight (serverZone e) formattedDate) slotEnd in
  if Js.truthy (square_footage q) && Js.truthy (property_address q) then
    timeSpecificDuration <-
      calculateDurationFromSquareFootage (square_footage q) (property_price q)
                                         (property_address q) (Some bookingStartTime) ;;
    if 30 <=? Z.abs (timeSpecificDuration - durationMinutes) then
      if closeMinutes <? slotStart + timeSpecificDuration then ret None
      else ret (Some (atMinutes slotEndDate (slotStart + timeSpecificDuration)))
    else ret (Some slotEndDate)
  else ret (Some slotEndDate).

(** [new Date(`${formattedDate}T${HH}:${MM}:00`)] for a minute count. *)
Definition dateAtMinutes (m : Z) : Z :=
  localDateTime (serverZone e) formattedDate (mkTime (m / 60) (Z.rem m 60)).

Definition fullSlotStartMinutes : Z := slotStart - travelTimeBuffer.
Definition fullSlotEndMinutes : Z := slotEnd + travelTimeBuffer.

Definition eventsOf (email : string) : list Event :=
  default [] (msAvailability !! email).

(** No blocking event of the photographer overlaps the full span. *)
Definition isPhotographerAvailable (email : string) : bool :=
  negb (existsb (fun event =>
                   if blocks event then
                     (dateAtMinutes fullSlotStartMinutes <? end_dateTime event)
                     && (start_dateTime event <? dateAtMinutes fullSlotEndMinutes)
                   else false)
                (eventsOf email)).

(** A location that triggers the travel check: present, not empty, and
    not the office. *)
Definition awayFromOffice (event : Event) : bool :=
  Js.truthy (location_displayName event)
  && negb (Js.includes (Js.orEmpty (location_displayName event)) officeStreet).

(** Enough time between the end of the latest earlier event
    ([priorEvents[0]]) and the start of the slot.  [a / 60000 < b] on
    numbers is [a < b * 60000]. *)
Definition priorEvents (email : string) : list Event :=
  sortBy (fun a b => end_dateTime b - end_dateTime a)
         (List.filter (fun event => blocks event && (end_dateTime event <? slotStartDate))
                      (eventsOf email)).

Definition sufficientTravelBefore (email : string) : M bool :=
  match priorEvents email with
  | [] => ret true
  | mostRecentEvent :: _ =>
      let gap := slotStartDate - end_dateTime mostRecentEvent in
      if awayFromOffice mostRecentEvent then
        outcome <- calculateTravelTimeBuffer maps (Js.orEmpty (property_address q))
                                             (Some bookingStartTime) ;;
        match outcome with
        | inr travelBuffer => ret (negb (gap <? travelBuffer * msPerMinute))
        | inl _ => ret (negb (gap <? 30 * msPerMinute))
        end
      else ret true
  end.

(** Enough time between the end of the slot and the earliest later event. *)
Definition nextEvents (email : string) (slotEndDate : Z) : list Event :=
  sortBy (fun a b => start_dateTime a - start_dateTime b)
         (List.filter (fun event => blocks event && (slotEndDate <? start_dateTime event))
                      (eventsOf email)).

Definition sufficientTravelAfter (email : string) (slotEndDate : Z) : M bool :=
  match nextEvents email slotEndDate with
  | [] => ret true
  | nextEvent :: _ =>
      let gap := start_dateTime nextEvent - slotEndDate in
      if awayFromOffice nextEvent then
        outcome <- calculateTravelTimeBuffer maps (Js.orEmpty (property_address q))
                                             (Some slotEndDate) ;;
        match outcome with
        | inr travelBuffer => ret (negb (gap <? travelBuffer * msPerMinute))
        | inl _ => ret (negb (gap <? 30 * msPerMinute))
        end
      else ret true
  end.

(** [hasSufficientTravelTime] for a photographer who is available. *)
Definition hasSufficientTravelTime (email : string) (slotEndDate : Z) : M bool :=
  before <- sufficientTravelBefore email ;;
  if before then sufficientTravelAfter email slotEndDate else ret false.

(** Body of the loop over the photographers: whether [email] is pushed. *)
Definition photographerPasses (slotEndDate : Z) (email : string) : M bool :=
  if (fullSlotStartMinutes <? openMinutes) || (closeMinutes <? fullSlotEndMinutes)
  then ret false
  else if Js.truthy (property_address q) && isPhotographerAvailable email then
    sufficient <- hasSufficientTravelTime email slotEndDate ;;
    ret (isPhotographerAvailable email && sufficient)
  else ret (isPhotographerAvailable email).

Fixpoint availablePhotographers (slotEndDate : Z) (emails : list string)
  : M (list string) :=
  match emails with
  | [] => ret []
  | email :: rest =>
      pass <- photographerPasses slotEndDate email ;;
      others <- availablePhotographers slotEndDate rest ;;
      ret (if pass then email :: others else others)
  end.

(** One iteration of the loop over the start times: the slot pushed, if
    any. *)
Definition candidate : M (option Slot) :=
  recalculated <- recalculatedEnd ;;
  match recalculated with
  | None => ret None
  | Some slotEndDate =>
      available <- availablePhotographers slotEndDate (photographers e) ;;
      match available with
      | [] => ret None
      | first :: _ =>
          let isPrimary :=
            match photographers e with
            | primary :: _ => existsb (String.eqb primary) available
            | [] => false
            end in
          let assignedPhotographer :=
            if isPrimary then Js.orEmpty (head (photographers e)) else first in
          ret (Some (mkSlot (minutesToTime slotStart) (minutesToTime slotEnd)
                            assignedPhotographer isPrimary))
      end
  end.

End Candidate.

(** *** The loop over the start times

    [for (slotStart = adjustedOpenMinutes;
          slotStart + durationMinutes - travelTimeBuffer * 2 <= closeMinutes;
          slotStart += slotInterval)].
    The recursion is on a bound of the number of iterations;
    [iterations] is the exact number. *)

Section Slots.

Variable q : Query.
Variable formattedDate : CivilDate.
Variable msAvailability : gmap string (list Event).
Variables openMinutes closeMinutes durationMinutes travelTimeBuffer : Z.

Fixpoint slotsFrom (bound : nat) (slotStart : Z) : M (list Slot) :=
  match bound with
  | O => ret []
  | S bound' =>
      if slotStart + durationMinutes - travelTimeBuffer * 2 <=? closeMinutes then
        offered <- candidate q formattedDate msAvailability openMinutes closeMinutes
                             durationMinutes travelTimeBuffer slotStart ;;
        rest <- slotsFrom bound' (slotStart + slotInterval) ;;
        ret (match offered with
             | Some slot => slot :: rest
             | None => rest
             end)
      else ret []
  end.

Definition iterations (slotStart : Z) : nat :=
  Z.to_nat ((closeMinutes - (durationMinutes - travelTimeBuffer * 2) - slotStart)
              / slotInterval + 1).

Definition availableTimeSlots : M (list Slot) :=
  let adjustedOpenMinutes := openMinutes + travelTimeBuffer in
  slotsFrom (iterations adjustedOpenMinutes) adjustedOpenMinutes.

End Slots.

(** *** [router.get('/')]

    [slotsForDate] is the handler from the holiday check on; [availability]
    is the whole handler. *)

Definition slotsForDate (q : Query) (formattedDate : CivilDate) : M Response :=
  if match queryHolidays (db e) formattedDate with
     | inr rows => 0 <? Z.of_nat (length rows)
     | inl _ => false
     end
  then ret (Json [])
  else
    match queryOperatingHours (db e) (getCorrectDayOfWeek formattedDate) with
    | inl _ => ret (Status 500 "Error retrieving operating hours")
    | inr [] => ret (Json [])
    | inr (row :: _) =>
        duration <- requestDuration q ;;
        match photographers e with
        | [] => ret (Status 500 "No photographers configured in the system")
        | _ :: _ =>
            match MsGraphService.getPhotographersAvailability e (photographers e)
                    (localDateTime (serverZone e) formattedDate (mkTime 0 0))
                    (localDateTime (serverZone e) formattedDate (mkTime 23 59) + 59000)
                    ∅ with
            | inl _ => ret (Status 500 "An error occurred while determining availability")
            | inr msAvailability =>
                let openMinutes := timeToMinutes (open_time row) in
                let closeMinutes := timeToMinutes (close_time row) in
                travelTimeBuffer <- requestTravelBuffer q ;;
                slots <- availableTimeSlots q formattedDate msAvailability
                                            openMinutes closeMinutes duration
                                            travelTimeBuffer ;;
                ret (Json slots)
            end
        end
    end.

Definition availability (q : Query) : M Response :=
  match date q with
  | None => ret (Status 400 "Missing date parameter")
  | Some formattedDate =>
      if isDateInPast formattedDate then ret (Json [])
      else if isDateToday formattedDate then ret (Json [])
      else if isDateTomorrow formattedDate && negb isBeforeCutoffTime then ret (Json [])
      else slotsForDate q formattedDate
  end.

End WithEnv.

End MsAvailability.

(** ** routes/bookings.js *)

Module Bookings.

(** The fields of the request body the handler reads ([square_footage]
    is only logged).  A time string is [HH:MM:00]. *)
Record Body := mkBody {
  booking_date : option CivilDate;
  start_time : option TimeOfDay;
  end_time : option TimeOfDay;
  customer_name : option string;
  customer_email : option string;
  customer_phone : option string;
  property_address : option string;
  property_city : option string;
  notes : option string;
  photographer_email : option string
}.

Record EventRef := mkEventRef { id : option string; link : option string }.

(** The body of the 201 answer. *)
Record Confirmation := mkConfirmation {
  event_id : option string;
  calendar_link : option string;
  photographer : string;
  travel_to : EventRef;
  travel_from : EventRef
}.

Inductive Response :=
| Created (confirmation : Confirmation)
| Status (code : Z) (error : string).

Definition newline : string := String (ascii_of_nat 10) EmptyString.

Definition overflowNote : string :=
  newline ++ "⚠️ Note: Travel back to the office will extend beyond operating hours.".

(** The booking span after the travel estimate, with the note built on
    the way. *)
Record Span := mkSpan {
  travelInfo : string;
  travelBuffer : Z;
  spanStart : Z;
  spanEnd : Z
}.

Section WithEnv.

Variable e : Env.
Variable maps : MapsServiceModule.

Definition getCorrectDayOfWeek (dateString : CivilDate) : Z :=
  getDay (serverZone e) (localMidnight (serverZone e) dateString).

Definition present {A} (o : option A) : bool :=
  match o with Some _ => true | None => false end.

(** Lines 118 to 155: the travel estimate widens the span on both sides. *)
Definition withTravel (fullAddress : string) (startDateTime endDateTime : Z) : M Span :=
  outcome <- calculateTravelTime maps fullAddress (Some startDateTime) ;;
  match outcome with
  | inr travelData =>
      let seconds :=
        match duration_in_traffic travelData with
        | Some inTraffic =>
            if value inTraffic =? 0 then value (duration travelData) else value inTraffic
        | None => value (duration travelData)
        end in
      let travelBuffer := Js.ceilDiv seconds 1800 * 30 in
      let travelInfo :=
        newline ++ "Travel info:" ++ newline
        ++ "- Distance from office: " ++ text (distance travelData) ++ newline
        ++ "- Travel time (one-way): " ++ text (duration travelData) ++ newline
        ++ "- Drive time with traffic: "
        ++ match duration_in_traffic travelData with
           | Some inTraffic => text inTraffic
           | None => "N/A"
           end ++ newline
        ++ "- Travel buffer allowed: " ++ Js.toString travelBuffer ++ " minutes each way" in
      ret (mkSpan travelInfo travelBuffer
                  (addMinutes startDateTime (- travelBuffer))
                  (addMinutes endDateTime travelBuffer))
  | inl _ => ret (mkSpan "" 0 startDateTime endDateTime)
  end.

(** Lines 223 to 253: a span that leaves the operating hours is adjusted,
    never refused. *)
Definition minuteOfDay (t : Z) : Z :=
  getHours (serverZone e) t * 60 + getMinutes (serverZone e) t.

Definition fitToOperatingHours (open_time close_time : TimeOfDay) (span : Span) : Span :=
  let openMinutes := hours open_time * 60 + minutes open_time in
  let closeMinutes := hours close_time * 60 + minutes close_time in
  let actualStartMinutes := minuteOfDay (spanStart span) in
  let actualEndMinutes := minuteOfDay (spanEnd span) in
  if (actualStartMinutes <? openMinutes) || (closeMinutes <? actualEndMinutes) then
    let startDateTime :=
      if actualStartMinutes <? openMinutes
      then setHours3 (serverZone e) (spanStart span) (hours open_time) (minutes open_time) 0
      else spanStart span in
    let travelInfo :=
      if closeMinutes <? actualEndMinutes
      then travelInfo span ++ overflowNote
      else travelInfo span in
    mkSpan travelInfo (travelBuffer span) startDateTime (spanEnd span)
  else span.

(** The overlap test of the conflict loop. *)
Definition conflicts (bookedStart bookedEnd : Z) (event : Event) : bool :=
  ((start_dateTime event <=? bookedStart) && (bookedStart <? end_dateTime event))
  || ((start_dateTime event <? bookedEnd) && (bookedEnd <=? end_dateTime event))
  || ((bookedStart <=? start_dateTime event) && (end_dateTime event <=? bookedEnd)).

Definition hasConflict (bookedStart bookedEnd : Z) (events : list Event) : bool :=
  existsb (fun event => blocks event && conflicts bookedStart bookedEnd event) events.

(** Lines 317 to 385: the three calendar writes.  A failure leaves the
    identifiers obtained so far and skips the rest. *)
Definition createEvents (selected : string) (bookingData : BookingData)
  : M (EventRef * EventRef * EventRef) :=
  let none := mkEventRef None None in
  let created (c : CreatedEvent) := mkEventRef (Some (ce_id c)) (Some (ce_webLink c)) in
  travelToData <- getTravelEventDetails maps (location bookingData)
                                        (startDateTime bookingData) true ;;
  match travelToData with
  | inl _ => ret (none, none, none)
  | inr travelToData =>
      travelToEvent <-
        MsGraphService.createCalendarEvent e selected
          (MsGraphService.formatTravelCalendarEvent travelToData bookingData true) ;;
      match travelToEvent with
      | inl _ => ret (none, none, none)
      | inr travelToEvent =>
          appointmentEvent <-
            MsGraphService.createCalendarEvent e selected
              (MsGraphService.formatClientCalendarEvent bookingData) ;;
          match appointmentEvent with
          | inl _ => ret (created travelToEvent, none, none)
          | inr appointmentEvent =>
              travelFromData <- getTravelEventDetails maps (location bookingData)
                                                      (endDateTime bookingData) false ;;
              match travelFromData with
              | inl _ => ret (created travelToEvent, created appointmentEvent, none)
              | inr travelFromData =>
                  travelFromEvent <-
                    MsGraphService.createCalendarEvent e selected
                      (MsGraphService.formatTravelCalendarEvent travelFromData
                                                                bookingData false) ;;
                  match travelFromEvent with
                  | inl _ => ret (created travelToEvent, created appointmentEvent, none)
                  | inr travelFromEvent =>
                      ret (created travelToEvent, created appointmentEvent,
                           created travelFromEvent)
                  end
              end
          end
      end
  end.

Definition selectedPhotographer (body : Body) (primary : string) : string :=
  if Js.truthy (photographer_email body)
  then Js.orEmpty (photographer_email body) else primary.

Definition fullAddress (body : Body) : string :=
  Js.orEmpty (property_address body) ++ ", " ++ Js.orEmpty (property_city body).

Definition bookingData (body : Body) (span : Span) : BookingData :=
  mkBookingData (Js.orEmpty (customer_name body))
                (Js.orEmpty (customer_email body))
                (Js.orEmpty (customer_phone body))
                "Session" (fullAddress body)
                (spanStart span) (spanEnd span)
                (Js.orEmpty (notes body)).

(** The 201 answer built from the identifiers of the three events. *)
Definition confirm (selected : string) (refs : EventRef * EventRef * EventRef)
  : Response :=
  let '(travelTo, appointment, travelFrom) := refs in
  Created (mkConfirmation (id appointment) (link appointment) selected
                          travelTo travelFrom).

(** *** [router.post('/')] *)

Definition createBooking (body : Body) : M Response :=
  match booking_date body, start_time body, end_time body with
  | Some date, Some startT, Some endT =>
      if negb (Js.truthy (customer_name body)) || negb (Js.truthy (customer_email body))
         || negb (Js.truthy (property_address body))
      then ret (Status 400 "Missing required fields")
      else
        match photographers e with
        | [] => ret (Status 500 "No photographers configured in the system")
        | primary :: _ =>
            if Js.truthy (photographer_email body)
               && negb (existsb (String.eqb (Js.orEmpty (photographer_email body)))
                                (photographers e))
            then ret (Status 400 "Invalid photographer email")
            else
              let selectedPhotographer := selectedPhotographer body primary in
              span <- withTravel (fullAddress body)
                                 (localDateTime (serverZone e) date startT)
                                 (localDateTime (serverZone e) date endT) ;;
              match MsGraphService.getPhotographersAvailability e [selectedPhotographer]
                      (spanStart span) (spanEnd span) ∅ with
              | inl _ => ret (Status 500 "Server error")
              | inr msAvailability =>
                  match queryOperatingHours (db e) (getCorrectDayOfWeek date) with
                  | inl _ => ret (Status 500 "Server error")
                  | inr [] => ret (Status 400 "Booking is outside of operating hours")
                  | inr (row :: _) =>
                      let bookingStartMinutes := hours startT * 60 + minutes startT in
                      let bookingEndMinutes := hours endT * 60 + minutes endT in
                      let openMinutes := hours (open_time row) * 60 + minutes (open_time row) in
                      let closeMinutes :=
                        hours (close_time row) * 60 + minutes (close_time row) in
                      if (bookingStartMinutes <? openMinutes)
                         || (closeMinutes <? bookingEndMinutes)
                      then ret (Status 400 "Booking is outside of operating hours")
                      else
                        let span := fitToOperatingHours (open_time row) (close_time row) span in
                        let events := default [] (msAvailability !! selectedPhotographer) in
                        if hasConflict (utcDateTime date startT) (utcDateTime date endT) events
                        then ret (Status 409 "This time slot is no longer available")
                        else
                          refs <- createEvents selectedPhotographer (bookingData body span) ;;
                          ret (confirm selectedPhotographer refs)
                  end
              end
        end
  | _, _, _ => ret (Status 400 "Missing required fields")
  end.

End WithEnv.

End Bookings.

(** ** The duration rules as the specification words them

    Base: under 3000 sq ft is 60 minutes, 3000 to 3999 is 90, 4000 and
    more, or no usable figure, is 120.  Surcharge: a price of 5,000,000
    or more adds 60, a price from 1,000,000 up to 5,000,000 adds 30,
    anything else adds nothing. *)

Module Spec.

Definition baseMinutes (sqft : option Z) : Z :=
  match sqft with
  | Some n => if n <? 3000 then 60 else if n <=? 3999 then 90 else 120
  | None => 120
  end.

Definition priceSurchargeMinutes (price : option Z) : Z :=
  match price with
  | Some p =>
      if 5000000 <=? p then 60
      else if (1000000 <=? p) && (p <? 5000000) then 30
      else 0
  | None => 0
  end.

(** The figure the code reads out of the [property_price] parameter. *)
Definition priceOf (propertyPrice : option string) : option Z :=
  if Js.truthy propertyPrice
  then Js.parseInt (Js.removeCommas (Js.orEmpty propertyPrice))
  else None.

(** The coarse table of the [service_type] fallback. *)
Definition serviceTypeMinutes (service_type : string) : Z :=
  if String.eqb service_type "standard" then 120
  else if String.eqb service_type "extended" then 180
  else 60.

(** The buffer a travel lookup contributes: its value, or the thirty
    minutes of the [catch] block when it throws. *)
Definition travelBufferMinutes (outcome : Exn + Z) : Z :=
  match outcome with
  | inr travelBuffer => travelBuffer
  | inl _ => 30
  end.

(** [n] start times, thirty minutes apart, from [first] on. *)
Fixpoint startTimes (first : Z) (n : nat) : list Z :=
  match n with
  | O => []
  | S n' => first :: startTimes (first + 30) n'
  end.

(** The slot of [duration] minutes that starts at minute [start] of the
    day and goes to the primary photographer [email]. *)
Definition slotOf (email : string) (duration start : Z) : MsAvailability.Slot :=
  MsAvailability.mkSlot (MsAvailability.minutesToTime start)
                        (MsAvailability.minutesToTime (start + duration))
                        email true.

(** An event with no location, an empty one, or one at the office. *)
Definition atOfficeOrNowhere (event : Event) : Prop :=
  match location_displayName event with
  | None => True
  | Some l => l = "" \/ Js.includes l MsAvailability.officeStreet = true
  end.

(** [b] is [m] rounded up to a multiple of thirty. *)
Definition roundsUpTo30 (m b : Z) : Prop :=
  b mod 30 = 0 /\ m <= b < m + 30.

End Spec.

(** ** Scenarios

    A deployment with one photographer, open on Mondays from 09:00 to
    17:00, the server running in the business zone (UTC-4 in May).  The
    geocoder knows one address; a route to it takes twenty minutes, a
    route from the office to the office takes no time. *)

Module Scenario.

Definition cory : string := "cory@wfpcc.com".

Definition monday : CivilDate := mkDate 2025 5 5.

Definition mondayHours : OperatingHours :=
  mkOperatingHours 1 (mkTime 9 0) (mkTime 17 0) true.

Definition jupiterHome : string := "123 Main St, Jupiter FL".

Definition jupiterHomeLatLng : LatLng := mkLatLng (2692 # 100)%Q (- 8010 # 100)%Q.

Definition geocoder (address : string) : GeocodeResponse :=
  if String.eqb (Js.toUpperCase address) (Js.toUpperCase jupiterHome)
  then GeocodeBody "OK" [jupiterHomeLatLng]
  else GeocodeBody "ZERO_RESULTS" [].

Definition sameLatLng (a b : LatLng) : bool :=
  Qeq_bool (latitude a) (latitude b) && Qeq_bool (longitude a) (longitude b).

Definition routes (request : RouteRequest) : option RouteRow :=
  if sameLatLng (origin request) (destination request)
  then Some (mkRouteRow 0 0)
  else Some (mkRouteRow 16000 1200).

Definition calendarWrites (user : string) (details : EventDetails) : option CreatedEvent :=
  Some (mkCreatedEvent ("event:" ++ ed_subject details) "https://outlook.office.com/calendar/item").

(** Wall-clock reading [t] of day [d] in the business zone. *)
Definition at_ (d : CivilDate) (t : TimeOfDay) : Z := localDateTime (-240) d t.

(** The calendar view of a window: the events that overlap it. *)
Definition inWindow (events : list Event) (windowStart windowEnd : Z) : list Event :=
  List.filter (fun event => (start_dateTime event <? windowEnd)
                            && (windowStart <? end_dateTime event))
              events.

(** A deployment whose server runs [zone] minutes east of UTC. *)
Definition deploymentIn (zone clock : Z) (holidayRows : list Holiday)
  (events : list Event) : Env :=
  mkEnv clock zone (-240) (Some "routes-api-key") geocoder routes
        (mkDb holidayRows [mondayHours] false false)
        [cory] false (fun _ a b => Some (inWindow events a b)) calendarWrites.

Definition deployment : Z -> list Holiday -> list Event -> Env := deploymentIn (-240).

(** Thursday 1 May 2025, 10:00. *)
Definition thursdayMorning : Z := at_ (mkDate 2025 5 1) (mkTime 10 0).

(** Sunday 4 May 2025, 17:00 sharp: the day before [monday]. *)
Definition sundayFivePm : Z := at_ (mkDate 2025 5 4) (mkTime 17 0).

(** No holidays, a free calendar, on Thursday morning. *)
Definition thursday : Env := deployment thursdayMorning [] [].

(** The same on Sunday at 17:00 sharp, and one minute later. *)
Definition sundayAtFive : Env := deployment sundayFivePm [] [].

Definition sundayPastFive : Env :=
  deployment (at_ (mkDate 2025 5 4) (mkTime 17 1)) [] [].

(** Monday is a holiday. *)
Definition mondayOff : Env := deployment thursdayMorning [mkHoliday monday true] [].

(** [GET /?date=2025-05-05&square_footage=2500] *)
Definition sqft2500 : MsAvailability.Query :=
  MsAvailability.mkQuery (Some monday) None (Some "2500") None None.

(** [GET /?date=2025-05-05&service_type=standard&property_address=...] *)
Definition standardWithAddress : MsAvailability.Query :=
  MsAvailability.mkQuery (Some monday) (Some "standard") None None (Some jupiterHome).




(** [GET /?date=2025-05-05&service_type=portrait&property_address=...] *)
Definition portraitWithAddress : MsAvailability.Query :=
  MsAvailability.mkQuery (Some monday) (Some "portrait") None None (Some jupiterHome).

(** Monday with one appointment from 12:00 to 13:00. *)
Definition lunchShoot : Event :=
  mkEvent "busy" (at_ monday (mkTime 12 0)) (at_ monday (mkTime 13 0)) "Shoot" None.

Definition mondayWithLunchShoot : Env := deployment thursdayMorning [] [lunchShoot].

(** [POST /] for Monday 10:00 to 11:00. *)
Definition mondayTen : Bookings.Body :=
  Bookings.mkBody (Some monday) (Some (mkTime 10 0)) (Some (mkTime 11 0))
                  (Some "Ada Client") (Some "ada@example.com") None
                  (Some "123 Main St") (Some "Jupiter FL") None None.

(** [POST /] for Monday 07:00 to 08:00, before the opening time. *)
Definition mondaySeven : Bookings.Body :=
  Bookings.mkBody (Some monday) (Some (mkTime 7 0)) (Some (mkTime 8 0))
                  (Some "Ada Client") (Some "ada@example.com") None
                  (Some "123 Main St") (Some "Jupiter FL") None None.

(** A server that runs on UTC; the calendar holds an appointment from
    10:30 to 11:30 UTC on Monday. *)
Definition lateMorning : Event :=
  mkEvent "busy" (utcDateTime monday (mkTime 10 30)) (utcDateTime monday (mkTime 11 30))
          "Shoot" None.

Definition mondayTaken : Env := deploymentIn 0 thursdayMorning [] [lateMorning].

(** The calendar holds an appointment from 10:30 to 11:30 on Monday by the
    clock of the business zone (14:30 to 15:30 UTC). *)
Definition lateMorningLocal : Event :=
  mkEvent "busy" (at_ monday (mkTime 10 30)) (at_ monday (mkTime 11 30)) "Shoot" None.

Definition mondayTakenLocal : Env := deployment thursdayMorning [] [lateMorningLocal].

(** [POST /] for Monday 09:00 to 17:00: with thirty minutes of travel
    the span leaves the operating hours on both sides. *)
Definition mondayAllDay : Bookings.Body :=
  Bookings.mkBody (Some monday) (Some (mkTime 9 0)) (Some (mkTime 17 0))
                  (Some "Ada Client") (Some "ada@example.com") None
                  (Some "123 Main St") (Some "Jupiter FL") None None.

End Scenario.

(** ** What a listing promises *)

Module Facts.

(** The span of a slot widened by the travel buffer lies inside the
    operating hours. *)
Definition fullSpanFits (openMinutes closeMinutes durationMinutes travelTimeBuffer
                         slotStart : Z) : Prop :=
  openMinutes <= MsAvailability.fullSlotStartMinutes travelTimeBuffer slotStart
  /\ MsAvailability.fullSlotEndMinutes durationMinutes travelTimeBuffer slotStart
     <= closeMinutes.

(** [slot] is the slot that starts at minute [slotStart]: its two times
    are those of the start and of the end of the appointment, its
    photographer is a configured one whose blocking events leave the full
    span free, the full span fits the hours, and it is flagged primary
    exactly when it goes to the first configured photographer. *)
Definition offeredAt (e : Env) (formattedDate : CivilDate)
  (msAvailability : gmap string (list Event))
  (openMinutes closeMinutes durationMinutes travelTimeBuffer slotStart : Z)
  (slot : MsAvailability.Slot) : Prop :=
  MsAvailability.start_time slot = MsAvailability.minutesToTime slotStart
  /\ MsAvailability.end_time slot
     = MsAvailability.minutesToTime
         (MsAvailability.slotEnd durationMinutes travelTimeBuffer slotStart)
  /\ In (MsAvailability.photographer slot) (photographers e)
  /\ fullSpanFits openMinutes closeMinutes durationMinutes travelTimeBuffer slotStart
  /\ MsAvailability.isPhotographerAvailable e formattedDate msAvailability durationMinutes
                                            travelTimeBuffer slotStart
                                            (MsAvailability.photographer slot) = true
  /\ (MsAvailability.is_primary slot = true
      <-> head (photographers e) = Some (MsAvailability.photographer slot)).

(** A computation that leaves the trace of calendar writes as it is. *)
Definition keepsCalendar {A} (m : M A) : Prop :=
  forall w, calendarLog (snd (m w)) = calendarLog w.

(** A maps module none of whose calls writes to the calendar. *)
Definition quiet (maps : MapsServiceModule) : Prop :=
  (forall address t, keepsCalendar (calculateTravelTime maps address t))
  /\ (forall address t, keepsCalendar (calculateTravelTimeBuffer maps address t))
  /\ (forall address t to, keepsCalendar (getTravelEventDetails maps address t to)).

End Facts.

(** ** More cases *)

Module Cases.

(** The cache holds a buffer of ninety minutes for the known address,
    written exactly thirty minutes before Thursday morning. *)
Definition staleBuffer : World :=
  mkWorld ∅
          (<["buffer_123 MAIN ST, JUPITER FL"
             := (Scenario.thursdayMorning - 30 * 60 * 1000, 90)]> ∅)
          ∅ [] [].

(** The route service does not answer. *)
Definition unreachableRoutes : Env :=
  mkEnv Scenario.thursdayMorning (-240) (-240) (Some "routes-api-key")
        Scenario.geocoder (fun _ => None)
        (mkDb [] [Scenario.mondayHours] false false)
        [Scenario.cory] false (fun _ _ _ => Some []) Scenario.calendarWrites.

(** The geocoder is down; later it is back and knows every address. *)
Definition geocoderDown : Env :=
  mkEnv Scenario.thursdayMorning (-240) (-240) (Some "routes-api-key")
        (fun _ => GeocodeFailed) Scenario.routes
        (mkDb [] [Scenario.mondayHours] false false)
        [Scenario.cory] false (fun _ _ _ => Some []) Scenario.calendarWrites.

Definition geocoderBack : Env :=
  mkEnv Scenario.thursdayMorning (-240) (-240) (Some "routes-api-key")
        (fun _ => GeocodeBody "OK" [Scenario.jupiterHomeLatLng]) Scenario.routes
        (mkDb [] [Scenario.mondayHours] false false)
        [Scenario.cory] false (fun _ _ _ => Some []) Scenario.calendarWrites.


(** Monday is a holiday, and the query on the holidays table fails. *)
Definition holidaysDown : Env :=
  mkEnv Scenario.thursdayMorning (-240) (-240) (Some "routes-api-key")
        Scenario.geocoder Scenario.routes
        (mkDb [mkHoliday Scenario.monday true] [Scenario.mondayHours] true false)
        [Scenario.cory] false (fun _ _ _ => Some []) Scenario.calendarWrites.

End Cases.

(** * routes/msAvailability.js: the dates of a range

    [GET /dates] lists the dates of a range on which at least one start
    is free. *)

(** The date of the proleptic Gregorian calendar that lies [z] days after
    1970-01-01. *)
Definition yearOfEra (doe : Z) : Z :=
  (doe - doe / 1460 + doe / 36524 - doe / 146096) / 365.

Definition dayOfYear (doe : Z) : Z :=
  let yoe := yearOfEra doe in
  doe - (365 * yoe + yoe / 4 - yoe / 100).

Definition civilFromDays (z : Z) : CivilDate :=
  let z := z + 719468 in
  let era := z / 146097 in
  let doe := z - era * 146097 in
  let yoe := yearOfEra doe in
  let y := yoe + era * 400 in
  let doy := dayOfYear doe in
  let mp := (5 * doy + 2) / 153 in
  let d := doy - (153 * mp + 2) / 5 + 1 in
  let m := if mp <? 10 then mp + 3 else mp - 9 in
  mkDate (if m <=? 2 then y + 1 else y) m d.

(** [date.toISOString().split('T')[0]]: the date of an instant in UTC. *)
Definition isoDate (t : Z) : CivilDate := civilFromDays (t / msPerDay).

Module MsAvailabilityDates.

Record Query := mkQuery {
  start_date : option CivilDate;
  end_date : option CivilDate;
  service_type : option string;
  square_footage : option string;
  property_price : option string;
  property_address : option string
}.

Inductive Response :=
| Json (availableDates : list CivilDate)
| Status (code : Z) (error : string).

(** [getDatesInRange]: [new Date('YYYY-MM-DD')] is midnight UTC of the
    date; [currentDate.setDate(currentDate.getDate() + 1)] keeps the
    reading of the wall clock, which in a zone with a fixed offset moves
    the instant by a day.  The recursion is on the number of turns of the
    [while] loop. *)
Fixpoint datesFrom (bound : nat) (currentDate lastDate : Z) : list Z :=
  match bound with
  | O => []
  | S bound' =>
      if currentDate <=? lastDate
      then currentDate :: datesFrom bound' (currentDate + msPerDay) lastDate
      else []
  end.

Definition getDatesInRange (startDate endDate : CivilDate) : list Z :=
  let currentDate := utcDateTime startDate (mkTime 0 0) in
  let lastDate := utcDateTime endDate (mkTime 0 0) in
  datesFrom (Z.to_nat ((lastDate - currentDate) / msPerDay + 1)) currentDate lastDate.

Section WithEnv.

Variable e : Env.
Variable maps : MapsServiceModule.

(** The duration chosen by the request: lines 191 to 205. *)
Definition requestDuration (q : Query) : M Z :=
  if Js.truthy (square_footage q) then
    MsAvailability.calculateDurationFromSquareFootage
      maps (square_footage q) (property_price q) (property_address q) None
  else if Js.truthy (service_type q) then
    if String.eqb (Js.orEmpty (service_type q)) "standard" then ret 120
    else if String.eqb (Js.orEmpty (service_type q)) "extended" then ret 180
    else ret 60
  else ret 120.

Section Day.

Variable formattedDate : CivilDate.
Variable msAvailability : gmap string (list Event).
Variables closeMinutes durationMinutes : Z.

(** No blocking event of the photographer overlaps the slot. *)
Definition isPhotographerAvailable (slotStart : Z) (email : string) : bool :=
  let slotEnd := slotStart + durationMinutes in
  negb (existsb (fun event =>
                   if blocks event then
                     let slotStartUTC :=
                       MsAvailability.dateAtMinutes e formattedDate slotStart in
                     let slotEndUTC :=
                       MsAvailability.dateAtMinutes e formattedDate slotEnd in
                     (slotStartUTC <? end_dateTime event)
                     && (slotEndUTC >? start_dateTime event)
                   else false)
                (default [] (msAvailability !! email))).

(** [for (slotStart = openMinutes; slotStart + durationMinutes <= closeMinutes;
          slotStart += slotInterval)], left at the first start with an
    available photographer.  The recursion is on a bound of the number of
    iterations; [iterations] is the exact number. *)
Fixpoint hasAvailableSlotFrom (bound : nat) (slotStart : Z) : bool :=
  match bound with
  | O => false
  | S bound' =>
      if slotStart + durationMinutes <=? closeMinutes then
        let availablePhotographers :=
          List.filter (isPhotographerAvailable slotStart) (photographers e) in
        if 0 <? Z.of_nat (length availablePhotographers) then true
        else hasAvailableSlotFrom bound' (slotStart + MsAvailability.slotInterval)
      else false
  end.

Definition iterations (openMinutes : Z) : nat :=
  Z.to_nat ((closeMinutes - durationMinutes - openMinutes) / MsAvailability.slotInterval
            + 1).

Definition hasAvailableSlot (openMinutes : Z) : bool :=
  hasAvailableSlotFrom (iterations openMinutes) openMinutes.

End Day.

(** One turn of the loop over the dates: whether the date is pushed;
    [inl] when the calendar lookup throws. *)
Definition dateIsAvailable (duration : Z) (formattedDate : CivilDate) : Exn + bool :=
  if MsAvailability.isDateInPast e formattedDate then inr false
  else if MsAvailability.isDateToday e formattedDate then inr false
  else if MsAvailability.isDateTomorrow e formattedDate
          && negb (MsAvailability.isBeforeCutoffTime e) then inr false
  else if match queryHolidays (db e) formattedDate with
          | inr rows => 0 <? Z.of_nat (length rows)
          | inl _ => false
          end
  then inr false
  else
    match queryOperatingHours (db e)
                              (MsAvailability.getCorrectDayOfWeek e formattedDate) with
    | inl _ => inr false
    | inr [] => inr false
    | inr (row :: _) =>
        match MsGraphService.getPhotographersAvailability e (photographers e)
                (localDateTime (serverZone e) formattedDate (mkTime 0 0))
                (localDateTime (serverZone e) formattedDate (mkTime 23 59) + 59000)
                ∅ with
        | inl err => inl err
        | inr msAvailability =>
            let durationMinutes := duration in
            let openMinutes := MsAvailability.timeToMinutes (open_time row) in
            let closeMinutes := MsAvailability.timeToMinutes (close_time row) in
            inr (hasAvailableSlot formattedDate msAvailability closeMinutes
                                  durationMinutes openMinutes)
        end
    end.

(** The loop over the dates. *)
Fixpoint availableDatesOf (duration : Z) (dates : list Z) : Exn + list CivilDate :=
  match dates with
  | [] => inr []
  | date :: rest =>
      let formattedDate := isoDate date in
      match dateIsAvailable duration formattedDate with
      | inl err => inl err
      | inr pushed =>
          match availableDatesOf duration rest with
          | inl err => inl err
          | inr availableDates =>
              inr (if pushed then formattedDate :: availableDates else availableDates)
          end
      end
  end.

(** *** [router.get('/dates')] *)
Definition availableDates (q : Query) : M Response :=
  match start_date q, end_date q with
  | Some startDate, Some endDate =>
      duration <- requestDuration q ;;
      let dates := getDatesInRange startDate endDate in
      match photographers e with
      | [] => ret (Status 500 "No photographers configured in the system")
      | _ :: _ =>
          match availableDatesOf duration dates with
          | inl _ => ret (Status 500 "Error determining available dates")
          | inr availableDates => ret (Json availableDates)
          end
      end
  | _, _ => ret (Status 400 "Missing date range parameters")
  end.

(** The request for the slots of one date with the same service
    parameters. *)
Definition forDate (q : Query) (formattedDate : CivilDate) : MsAvailability.Query :=
  MsAvailability.mkQuery (Some formattedDate) (service_type q) (square_footage q)
                         (property_price q) (property_address q).

End WithEnv.

End MsAvailabilityDates.

(** * routes/msAvailability.js: the start times of a range

    [GET /all-times] lists, for every start time, the dates of a range on
    which a slot with that start is offered.  It takes the parameters of
    [GET /dates]. *)

Module MsAvailabilityAllTimes.

Definition weekdayNames : list string :=
  ["Sunday"; "Monday"; "Tuesday"; "Wednesday"; "Thursday"; "Friday"; "Saturday"].

Definition monthNames : list string :=
  ["January"; "February"; "March"; "April"; "May"; "June"; "July"; "August";
   "September"; "October"; "November"; "December"].

Section Readings.

Variable e : Env.

(** The date an instant falls on in the zone of the server. *)
Definition localDate (t : Z) : CivilDate :=
  civilFromDays (wallClock (serverZone e) t / msPerDay).

(** [new Date(formattedDate)] is midnight UTC of the date; the weekday,
    the month and the day of the month are read in the zone of the server. *)
Definition dayName (formattedDate : CivilDate) : string :=
  nth (Z.to_nat (getDay (serverZone e) (utcDateTime formattedDate (mkTime 0 0))))
      weekdayNames "".

Definition monthName (formattedDate : CivilDate) : string :=
  nth (Z.to_nat (month (localDate (utcDateTime formattedDate (mkTime 0 0))) - 1))
      monthNames "".

Definition getDate (formattedDate : CivilDate) : Z :=
  day (localDate (utcDateTime formattedDate (mkTime 0 0))).

End Readings.

(** An element of the [dates] of a start time. *)
Record DateEntry := mkDateEntry {
  date : CivilDate;
  day_name : string;
  month_name : string;
  day : Z;
  end_time : string;
  photographer : string;
  is_primary : bool
}.

(** The answer is the array of the [{time, dates}] of [availableTimesBySlot],
    an object whose keys are kept in the order of their first insertion. *)
Inductive Response :=
| Json (result : list (string * list DateEntry))
| Status (code : Z) (error : string).

(** [if (!availableTimesBySlot[time]) availableTimesBySlot[time] = [];
     availableTimesBySlot[time].push(entry)] *)
Fixpoint pushAt (time : string) (entry : DateEntry)
  (availableTimesBySlot : list (string * list DateEntry))
  : list (string * list DateEntry) :=
  match availableTimesBySlot with
  | [] => [(time, [entry])]
  | (key, dates) :: rest =>
      if String.eqb key time then (key, (dates ++ [entry])%list) :: rest
      else (key, dates) :: pushAt time entry rest
  end.

Section WithEnv.

Variable e : Env.
Variable maps : MapsServiceModule.

(** The minimum travel buffer, computed for every date: lines 586 to 596. *)
Definition travelTimeBufferOf (q : MsAvailabilityDates.Query) : M Z :=
  if Js.truthy (MsAvailabilityDates.property_address q) then
    outcome <- calculateTravelTimeBuffer
                 maps (Js.orEmpty (MsAvailabilityDates.property_address q)) None ;;
    match outcome with
    | inr travelTimeBuffer => ret travelTimeBuffer
    | inl _ => ret 30
    end
  else ret 0.

Section Day.

Variable q : MsAvailabilityDates.Query.
Variable formattedDate : CivilDate.
Variable msAvailability : gmap string (list Event).
Variables openMinutes closeMinutes durationMinutes travelTimeBuffer : Z.

(** One iteration of the loop over the start times.  The loop over the
    photographers is the one of [GET /], with the end of the slot as it is
    first computed. *)
Definition offerSlot (slotStart : Z)
  (availableTimesBySlot : list (string * list DateEntry))
  : M (list (string * list DateEntry)) :=
  let slotEnd := MsAvailability.slotEnd durationMinutes travelTimeBuffer slotStart in
  let slotEndDate :=
    MsAvailability.atMinutes e (localMidnight (serverZone e) formattedDate) slotEnd in
  availablePhotographers <-
    MsAvailability.availablePhotographers
      e maps (MsAvailabilityDates.forDate q formattedDate) formattedDate msAvailability
      openMinutes closeMinutes durationMinutes travelTimeBuffer slotStart slotEndDate
      (photographers e) ;;
  match availablePhotographers with
  | [] => ret availableTimesBySlot
  | first :: _ =>
      let isPrimary :=
        match photographers e with
        | primary :: _ => existsb (String.eqb primary) availablePhotographers
        | [] => false
        end in
      let assignedPhotographer :=
        if isPrimary then Js.orEmpty (head (photographers e)) else first in
      ret (pushAt (MsAvailability.minutesToTime slotStart)
                  (mkDateEntry formattedDate (dayName e formattedDate)
                               (monthName e formattedDate) (getDate e formattedDate)
                               (MsAvailability.minutesToTime slotEnd)
                               assignedPhotographer isPrimary)
                  availableTimesBySlot)
  end.

(** The loop over the start times, as in [GET /]. *)
Fixpoint slotsFrom (bound : nat) (slotStart : Z)
  (availableTimesBySlot : list (string * list DateEntry))
  : M (list (string * list DateEntry)) :=
  match bound with
  | O => ret availableTimesBySlot
  | S bound' =>
      if slotStart + durationMinutes - travelTimeBuffer * 2 <=? closeMinutes then
        availableTimesBySlot <- offerSlot slotStart availableTimesBySlot ;;
        slotsFrom bound' (slotStart + MsAvailability.slotInterval) availableTimesBySlot
      else ret availableTimesBySlot
  end.

End Day.

(** One turn of the loop over the dates; [inl] when the calendar lookup
    throws. *)
Definition addDate (q : MsAvailabilityDates.Query) (duration : Z)
  (formattedDate : CivilDate) (availableTimesBySlot : list (string * list DateEntry))
  : M (Exn + list (string * list DateEntry)) :=
  if MsAvailability.isDateInPast e formattedDate then ret (inr availableTimesBySlot)
  else if MsAvailability.isDateToday e formattedDate then ret (inr availableTimesBySlot)
  else if MsAvailability.isDateTomorrow e formattedDate
          && negb (MsAvailability.isBeforeCutoffTime e)
  then ret (inr availableTimesBySlot)
  else if match queryHolidays (db e) formattedDate with
          | inr rows => 0 <? Z.of_nat (length rows)
          | inl _ => false
          end
  then ret (inr availableTimesBySlot)
  else
    match queryOperatingHours (db e)
                              (MsAvailability.getCorrectDayOfWeek e formattedDate) with
    | inl _ => ret (inr availableTimesBySlot)
    | inr [] => ret (inr availableTimesBySlot)
    | inr (row :: _) =>
        match MsGraphService.getPhotographersAvailability e (photographers e)
                (localDateTime (serverZone e) formattedDate (mkTime 0 0))
                (localDateTime (serverZone e) formattedDate (mkTime 23 59) + 59000)
                ∅ with
        | inl err => ret (inl err)
        | inr msAvailability =>
            let durationMinutes := duration in
            let openMinutes := MsAvailability.timeToMinutes (open_time row) in
            let closeMinutes := MsAvailability.timeToMinutes (close_time row) in
            travelTimeBuffer <- travelTimeBufferOf q ;;
            let adjustedOpenMinutes := openMinutes + travelTimeBuffer in
            availableTimesBySlot <-
              slotsFrom q formattedDate msAvailability openMinutes closeMinutes
                        durationMinutes travelTimeBuffer
                        (MsAvailability.iterations closeMinutes durationMinutes
                                                   travelTimeBuffer adjustedOpenMinutes)
                        adjustedOpenMinutes availableTimesBySlot ;;
            ret (inr availableTimesBySlot)
        end
    end.

(** The loop over the dates. *)
Fixpoint addDates (q : MsAvailabilityDates.Query) (duration : Z) (dates : list Z)
  (availableTimesBySlot : list (string * list DateEntry))
  : M (Exn + list (string * list DateEntry)) :=
  match dates with
  | [] => ret (inr availableTimesBySlot)
  | date :: rest =>
      outcome <- addDate q duration (isoDate date) availableTimesBySlot ;;
      match outcome with
      | inl err => ret (inl err)
      | inr availableTimesBySlot => addDates q duration rest availableTimesBySlot
      end
  end.

(** The range of the request: from today to thirty days later where the
    request leaves it open. *)
Definition startDate (q : MsAvailabilityDates.Query) : CivilDate :=
  let defaultStartDate := isoDate (now e) in
  default defaultStartDate (MsAvailabilityDates.start_date q).

Definition endDate (q : MsAvailabilityDates.Query) : CivilDate :=
  let defaultEndDateStr := isoDate (now e + 30 * msPerDay) in
  default defaultEndDateStr (MsAvailabilityDates.end_date q).

(** *** [router.get('/all-times')]

    The duration is chosen by the lines of [GET /dates]. *)
Definition allTimes (q : MsAvailabilityDates.Query) : M Response :=
  duration <- MsAvailabilityDates.requestDuration maps q ;;
  match photographers e with
  | [] => ret (Status 500 "No photographers configured in the system")
  | _ :: _ =>
      let dates := MsAvailabilityDates.getDatesInRange (startDate q) (endDate q) in
      outcome <- addDates q duration dates [] ;;
      match outcome with
      | inl _ => ret (Status 500 "An error occurred while determining availability")
      | inr availableTimesBySlot => ret (Json availableTimesBySlot)
      end
  end.

End WithEnv.

End MsAvailabilityAllTimes.

(** ** What the start times of a range are made of *)

Module AllTimesFacts.

(** The entry that [GET /all-times] makes of a slot of a date. *)
Definition entryOf (e : Env) (formattedDate : CivilDate) (slot : MsAvailability.Slot)
  : MsAvailabilityAllTimes.DateEntry :=
  MsAvailabilityAllTimes.mkDateEntry
    formattedDate
    (MsAvailabilityAllTimes.dayName e formattedDate)
    (MsAvailabilityAllTimes.monthName e formattedDate)
    (MsAvailabilityAllTimes.getDate e formattedDate)
    (MsAvailability.end_time slot) (MsAvailability.photographer slot)
    (MsAvailability.is_primary slot).

(** The slots of a date, added one after the other. *)
Definition pushAll (e : Env) (formattedDate : CivilDate)
  (slots : list MsAvailability.Slot)
  (availableTimesBySlot : list (string * list MsAvailabilityAllTimes.DateEntry))
  : list (string * list MsAvailabilityAllTimes.DateEntry) :=
  fold_left (fun bySlot slot =>
               MsAvailabilityAllTimes.pushAt (MsAvailability.start_time slot)
                                             (entryOf e formattedDate slot) bySlot)
            slots availableTimesBySlot.

(** The slots of an answer of [GET /]; none when it is an error. *)
Definition slotsOf (response : MsAvailability.Response) : list MsAvailability.Slot :=
  match response with
  | MsAvailability.Json slots => slots
  | MsAvailability.Status _ _ => []
  end.

(** The entry is among the dates of the start time. *)
Definition listedAt (result : list (string * list MsAvailabilityAllTimes.DateEntry))
  (time : string) (entry : MsAvailabilityAllTimes.DateEntry) : Prop :=
  exists dates, In (time, dates) result /\ In entry dates.

(** A computation that leaves the state as it is. *)
Definition keepsState {A} (m : M A) : Prop := forall w, snd (m w) = w.

End AllTimesFacts.

(** ** What a listed date guarantees *)

Module DateFacts.

(** The [k]-th start of the half-hour grid that begins at the opening
    time ends by the closing time, and a configured photographer has no
    blocking event that overlaps it. *)
Definition freeStart (e : Env) (formattedDate : CivilDate)
  (msAvailability : gmap string (list Event))
  (openMinutes closeMinutes durationMinutes k : Z) (photographer : string) : Prop :=
  0 <= k
  /\ openMinutes + 30 * k + durationMinutes <= closeMinutes
  /\ In photographer (photographers e)
  /\ MsAvailabilityDates.isPhotographerAvailable
       e formattedDate msAvailability durationMinutes (openMinutes + 30 * k) photographer
     = true.

(** The table of holidays holds no active row for the date. *)
Definition noActiveHoliday (e : Env) (formattedDate : CivilDate) : Prop :=
  forall h, In h (holidays (db e)) -> holiday_is_active h = true ->
            holiday_date h <> formattedDate.

(** The date starts after the current day of the server, is the next day
    only while the cut-off has not passed, has no active holiday row (the
    query on the holidays answers with no row), has operating hours, and
    has a free start in the calendars of its day. *)
Definition bookableDay (e : Env) (durationMinutes : Z) (formattedDate : CivilDate)
  : Prop :=
  MsAvailability.today e < localMidnight (serverZone e) formattedDate
  /\ (MsAvailability.isDateTomorrow e formattedDate = true ->
      MsAvailability.isBeforeCutoffTime e = true)
  /\ queryHolidays (db e) formattedDate = inr []
  /\ noActiveHoliday e formattedDate
  /\ exists row rest msAvailability k photographer,
       queryOperatingHours (db e) (MsAvailability.getCorrectDayOfWeek e formattedDate)
       = inr (row :: rest)
       /\ MsGraphService.getPhotographersAvailability e (photographers e)
            (localDateTime (serverZone e) formattedDate (mkTime 0 0))
            (localDateTime (serverZone e) formattedDate (mkTime 23 59) + 59000) ∅
          = inr msAvailability
       /\ freeStart e formattedDate msAvailability
                    (MsAvailability.timeToMinutes (open_time row))
                    (MsAvailability.timeToMinutes (close_time row))
                    durationMinutes k photographer.

End DateFacts.

Module DateCases.

(** [GET /dates?start_date=2025-05-01&end_date=2025-05-07&square_footage=2500] *)
Definition firstWeekOfMay : MsAvailabilityDates.Query :=
  MsAvailabilityDates.mkQuery (Some (mkDate 2025 5 1)) (Some (mkDate 2025 5 7))
                              None (Some "2500") None None.

End DateCases.

(** ** The entries of the start times, one by one *)

Module AllTimesTrace.

(** Entries added one after the other. *)
Definition pushedAll (pushes : list (string * MsAvailabilityAllTimes.DateEntry))
  (availableTimesBySlot : list (string * list MsAvailabilityAllTimes.DateEntry))
  : list (string * list MsAvailabilityAllTimes.DateEntry) :=
  fold_left (fun bySlot push =>
               MsAvailabilityAllTimes.pushAt (fst push) (snd push) bySlot)
            pushes availableTimesBySlot.

(** The entry is the one of a slot offered at a start of the grid. *)
Definition entryAt (e : Env) (formattedDate : CivilDate)
  (msAvailability : gmap string (list Event))
  (openMinutes closeMinutes durationMinutes travelTimeBuffer slotStart : Z)
  (push : string * MsAvailabilityAllTimes.DateEntry) : Prop :=
  exists slot,
    Facts.offeredAt e formattedDate msAvailability openMinutes closeMinutes
                    durationMinutes travelTimeBuffer slotStart slot
    /\ push = (MsAvailability.start_time slot,
               AllTimesFacts.entryOf e formattedDate slot).

(** With the operating hours and the calendars of the date, and some
    travel buffer, the entry is the one of a slot offered at a start of the
    half-hour grid that begins at the opening time plus the buffer. *)
Definition slotEntryOn (e : Env) (durationMinutes : Z) (formattedDate : CivilDate)
  (push : string * MsAvailabilityAllTimes.DateEntry) : Prop :=
  exists row rest msAvailability travelTimeBuffer k,
    queryOperatingHours (db e) (MsAvailability.getCorrectDayOfWeek e formattedDate)
    = inr (row :: rest)
    /\ MsGraphService.getPhotographersAvailability e (photographers e)
         (localDateTime (serverZone e) formattedDate (mkTime 0 0))
         (localDateTime (serverZone e) formattedDate (mkTime 23 59) + 59000) ∅
       = inr msAvailability
    /\ 0 <= k
    /\ entryAt e formattedDate msAvailability
               (MsAvailability.timeToMinutes (open_time row))
               (MsAvailability.timeToMinutes (close_time row))
               durationMinutes travelTimeBuffer
               (MsAvailability.timeToMinutes (open_time row) + travelTimeBuffer
                + 30 * k)
               push.

(** What a turn of the loop over the dates has checked when it adds an
    entry.  The holiday check passes in two ways: the query answers with
    no row, or the query fails. *)
Definition addedOn (e : Env) (durationMinutes : Z) (formattedDate : CivilDate)
  (push : string * MsAvailabilityAllTimes.DateEntry) : Prop :=
  MsAvailability.today e < localMidnight (serverZone e) formattedDate
  /\ (MsAvailability.isDateTomorrow e formattedDate = true ->
      MsAvailability.isBeforeCutoffTime e = true)
  /\ (queryHolidays (db e) formattedDate = inr []
      \/ exists err, queryHolidays (db e) formattedDate = inl err)
  /\ slotEntryOn e durationMinutes formattedDate push.

(** The date passes the rules on dates and has no active holiday row, and
    the entry is the one of a slot offered on it. *)
Definition offeredOn (e : Env) (durationMinutes : Z) (formattedDate : CivilDate)
  (push : string * MsAvailabilityAllTimes.DateEntry) : Prop :=
  MsAvailability.today e < localMidnight (serverZone e) formattedDate
  /\ (MsAvailability.isDateTomorrow e formattedDate = true ->
      MsAvailability.isBeforeCutoffTime e = true)
  /\ queryHolidays (db e) formattedDate = inr []
  /\ DateFacts.noActiveHoliday e formattedDate
  /\ slotEntryOn e durationMinutes formattedDate push.

(** The day before a date, and the name of the weekday of a day number. *)
Definition dayBefore (d : CivilDate) : CivilDate := civilFromDays (daysFromCivil d - 1).

Definition weekdayOf (days : Z) : string :=
  nth (Z.to_nat ((days + 4) mod 7)) MsAvailabilityAllTimes.weekdayNames "".

Definition monthOf (d : CivilDate) : string :=
  nth (Z.to_nat (month d - 1)) MsAvailabilityAllTimes.monthNames "".

End AllTimesTrace.

Module TimeCases.

(** The answer to [DateCases.firstWeekOfMay] on a Thursday morning with a
    free calendar. *)
Definition mayTimes : list (string * list MsAvailabilityAllTimes.DateEntry) :=
  Eval vm_compute in
    match fst (MsAvailabilityAllTimes.allTimes
                 Scenario.thursday (mapsService Scenario.thursday)
                 DateCases.firstWeekOfMay emptyWorld) with
    | MsAvailabilityAllTimes.Json result => result
    | MsAvailabilityAllTimes.Status _ _ => []
    end.

Definition mondayAtNine : MsAvailabilityAllTimes.DateEntry :=
  AllTimesFacts.entryOf Scenario.thursday Scenario.monday
                        (MsAvailability.mkSlot "9:00 AM" "10:00 AM" Scenario.cory true).

End TimeCases.

(** * Properties *)

(** ** Arithmetic of the rounding *)

Lemma ceilDiv_bounds (a b : Z) :
  0 < b -> a <= Js.ceilDiv a b * b < a + b.
Proof.
  intros Hb. unfold Js.ceilDiv.
  pose proof (Z.div_mod (- a) b ltac:(lia)) as Hdm.
  pose proof (Z.mod_pos_bound (- a) b Hb) as Hm.
  nia.
Qed.

Lemma ceilDiv_positive (a b : Z) :
  0 < b -> (0 < Js.ceilDiv a b <-> 0 < a).
Proof.
  intros Hb. pose proof (ceilDiv_bounds a b Hb). split; intros; nia.
Qed.

Lemma roundedTravelTime_rounds_up (travelData : TravelData) :
  Spec.roundsUpTo30 (MapsService.travelTimeMinutes travelData)
                    (MapsService.roundedTravelTime travelData).
Proof.
  unfold Spec.roundsUpTo30, MapsService.roundedTravelTime. split.
  - apply Z.mod_mul. lia.
  - apply ceilDiv_bounds. lia.
Qed.

(** ** Readings of the primitives *)

Example parseInt_2500 : Js.parseInt "2500" = Some 2500.
Proof. reflexivity. Qed.

Example parseInt_price : Js.parseInt (Js.removeCommas "1,200,000") = Some 1200000.
Proof. reflexivity. Qed.

Example parseInt_not_a_number : Js.parseInt "large" = None.
Proof. reflexivity. Qed.

Example normalized_address :
  Js.toUpperCase (Js.trim "  12 Main St, Stuart ") = "12 MAIN ST, STUART".
Proof. reflexivity. Qed.

Example minutesToTime_noon : MsAvailability.minutesToTime 750 = "12:30 PM".
Proof. reflexivity. Qed.

Example monday_is_day_1 :
  MsAvailability.getCorrectDayOfWeek (Scenario.deployment 0 [] []) Scenario.monday = 1.
Proof. reflexivity. Qed.

(** ** Duration policy *)

Lemma base_duration_refines (sqft : option Z) :
  match sqft with
  | Some sqft =>
      if sqft <? 3000 then 60
      else if (3000 <=? sqft) && (sqft <? 4000) then 90
      else 120
  | None => 120
  end = Spec.baseMinutes sqft.
Proof.
  destruct sqft as [n|]; [|reflexivity]. unfold Spec.baseMinutes.
  destruct (n <? 3000) eqn:H1; [reflexivity|].
  destruct (3000 <=? n) eqn:H2, (n <? 4000) eqn:H3, (n <=? 3999) eqn:H4;
    simpl; try reflexivity; lia.
Qed.

Lemma price_addition_refines (duration : Z) (propertyPrice : option string) :
  match (if Js.truthy propertyPrice
         then Js.parseInt (Js.removeCommas (Js.orEmpty propertyPrice))
         else Some 0) with
  | Some price =>
      let priceAddition :=
        if 5000000 <=? price then 60
        else if 1000000 <=? price then 30
        else 0 in
      if 0 <? priceAddition then duration + priceAddition else duration
  | None => duration
  end = duration + Spec.priceSurchargeMinutes (Spec.priceOf propertyPrice).
Proof.
  unfold Spec.priceOf, Spec.priceSurchargeMinutes.
  destruct (Js.truthy propertyPrice); [|simpl; lia].
  destruct (Js.parseInt _) as [p|]; [|lia].
  cbv zeta.
  destruct (5000000 <=? p) eqn:H1; [simpl; lia|].
  destruct (1000000 <=? p) eqn:H2, (p <? 5000000) eqn:H3; simpl; lia.
Qed.

(** C4.  A duration computed from a square footage is the base minutes
    plus the price surcharge, plus twice the travel buffer when an address
    is supplied (thirty minutes each way when the travel lookup throws);
    without an address the travel terms are zero. *)
Theorem duration_quote_total
  (maps : MapsServiceModule) (squareFootage propertyPrice propertyAddress : option string)
  (bookingDateTime : option Z) (w : World) :
  fst (MsAvailability.calculateDurationFromSquareFootage
         maps squareFootage propertyPrice propertyAddress bookingDateTime w)
  = Spec.baseMinutes (squareFootage ≫= Js.parseInt)
    + Spec.priceSurchargeMinutes (Spec.priceOf propertyPrice)
    + (if Js.truthy propertyAddress
       then 2 * Spec.travelBufferMinutes
                  (fst (calculateTravelTimeBuffer maps (Js.orEmpty propertyAddress)
                                                  bookingDateTime w))
       else 0).
Proof.
  unfold MsAvailability.calculateDurationFromSquareFootage.
  cbv zeta. rewrite base_duration_refines, price_addition_refines.
  destruct (Js.truthy propertyAddress).
  - unfold bind, ret.
    destruct (calculateTravelTimeBuffer maps _ bookingDateTime w) as [[err|b] w'];
      simpl; lia.
  - unfold ret. simpl. lia.
Qed.

(** ** Travel estimates *)

(** A buffer computed afresh is the rounded one-way time of the travel
    data, and the entry it leaves in the cache holds that value. *)
Lemma calculateTravelTimeBuffer_miss (e : Env) (address : string)
  (arrivalTime : option Z) (w : World) :
  let normalizedAddress := Js.trim (Js.toUpperCase address) in
  let key := "buffer_" ++ MapsService.getCacheKey e normalizedAddress arrivalTime in
  MapsService.validEntry e (travelBufferCache w) key = None ->
  fst (MapsService.calculateTravelTimeBuffer e address arrivalTime w)
  = MapsService.roundedTravelTime
      (fst (MapsService.calculateTravelTime e normalizedAddress arrivalTime w)).
Proof.
  intros normalizedAddress key Hmiss.
  unfold MapsService.calculateTravelTimeBuffer, bind, gets.
  fold normalizedAddress. fold key. rewrite Hmiss.
  destruct (MapsService.calculateTravelTime e normalizedAddress arrivalTime w).
  reflexivity.
Qed.

(** C7 (amended).  A travel buffer that is still valid in the cache is
    returned as it is.  Otherwise the buffer is the one-way driving
    minutes rounded up to a multiple of thirty; it is at least thirty
    exactly when the drive takes more than zero seconds, and it is zero
    for a drive of zero seconds. *)
Theorem travel_buffer_rounds_up (e : Env) (address : string)
  (arrivalTime : option Z) (w : World) :
  let normalizedAddress := Js.trim (Js.toUpperCase address) in
  let key := "buffer_" ++ MapsService.getCacheKey e normalizedAddress arrivalTime in
  let buffer := fst (MapsService.calculateTravelTimeBuffer e address arrivalTime w) in
  match MapsService.validEntry e (travelBufferCache w) key with
  | Some cached => buffer = cached
  | None =>
      let travelData :=
        fst (MapsService.calculateTravelTime e normalizedAddress arrivalTime w) in
      Spec.roundsUpTo30 (MapsService.travelTimeMinutes travelData) buffer
      /\ (30 <= buffer <-> 0 < MapsService.oneWaySeconds travelData)
      /\ (MapsService.oneWaySeconds travelData = 0 -> buffer = 0)
  end.
Proof.
  intros normalizedAddress key buffer.
  destruct (MapsService.validEntry e (travelBufferCache w) key) as [cached|] eqn:Hentry.
  - subst buffer.
    unfold MapsService.calculateTravelTimeBuffer, bind, gets, ret.
    fold normalizedAddress. fold key. now rewrite Hentry.
  - intros travelData.
    assert (Hb : buffer = MapsService.roundedTravelTime travelData)
      by (apply calculateTravelTimeBuffer_miss; exact Hentry).
    rewrite Hb.
    pose proof (roundedTravelTime_rounds_up travelData) as Hround.
    split; [exact Hround|].
    destruct Hround as [Hmod Hbounds].
    pose proof (ceilDiv_positive (MapsService.oneWaySeconds travelData) 60 ltac:(lia)) as Hpos.
    fold (MapsService.travelTimeMinutes travelData) in Hpos.
    pose proof (ceilDiv_positive (MapsService.travelTimeMinutes travelData) 30 ltac:(lia))
      as Hpos30.
    unfold MapsService.roundedTravelTime in *.
    split.
    + split; intros; nia.
    + intros Hzero.
      assert (MapsService.travelTimeMinutes travelData = 0) as ->
          by (unfold MapsService.travelTimeMinutes; now rewrite Hzero).
      reflexivity.
Qed.

(** C7, as first stated, fails: the address is unknown to the geocoder,
    the route is looked up from the office to the office, it takes zero
    seconds, and the buffer is zero. *)
Lemma travel_buffer_below_thirty :
  ~ 30 <= fst (MapsService.calculateTravelTimeBuffer
                 Scenario.thursday
                 "999 Nowhere Rd" None emptyWorld).
Proof. vm_compute. intros H. apply H. reflexivity. Qed.

(** A route of twenty minutes gives a buffer of thirty. *)
Example travel_buffer_twenty_minutes :
  fst (MapsService.calculateTravelTimeBuffer
         Scenario.thursday
         Scenario.jupiterHome None emptyWorld) = 30.
Proof. vm_compute. reflexivity. Qed.

(** Without an API key the fallback estimate (35 minutes in traffic)
    gives a buffer of sixty. *)
Example travel_buffer_fallback (e : Env) (w : World) :
  apiKey e = None ->
  fst (MapsService.calculateTravelTime e "ANYWHERE" None w) = MapsService.defaultResult.
Proof.
  intros H. unfold MapsService.calculateTravelTime. rewrite H. reflexivity.
Qed.

(** C10.  When geocoding fails for an address that holds neither STUART
    nor SE FEDERAL HWY, [addressToLatLng] does not throw: it returns the
    coordinates of the office and leaves the caches alone.  The route
    request that follows goes from the office to the office. *)
Theorem geocode_failure_gives_office (e : Env) (address : string)
  (arrivalTime : option Z) (w : World) :
  address <> "" ->
  geocodeCache w !! Js.toUpperCase (Js.trim address) = None ->
  MapsService.geocodeLookup e (Js.trim address) = None ->
  Js.includes (Js.toUpperCase (Js.trim address)) "STUART" = false ->
  Js.includes (Js.toUpperCase (Js.trim address)) "SE FEDERAL HWY" = false ->
  MapsService.addressToLatLng e address w = (inr MapsService.officeLatLng, w)
  /\ (Js.truthy (apiKey e) = true ->
      MapsService.validEntry e (travelTimeCache w)
        (MapsService.getCacheKey e address arrivalTime) = None ->
      routeLog (snd (MapsService.calculateTravelTime e address arrivalTime w))
      = (routeLog w ++ [mkRouteRequest MapsService.officeLatLng MapsService.officeLatLng
                                       arrivalTime])%list).
Proof.
  intros Hne Hcache Hgeo Hstuart Hfederal.
  apply String.eqb_neq in Hne.
  assert (Haddr : MapsService.addressToLatLng e address w
                  = (inr MapsService.officeLatLng, w)).
  { unfold MapsService.addressToLatLng, bind, gets, ret.
    rewrite Hne, Hcache, Hgeo, Hstuart, Hfederal. reflexivity. }
  split; [exact Haddr|].
  intros Hkey Hmiss.
  unfold MapsService.calculateTravelTime, bind, gets.
  rewrite Hne, Hkey. cbn beta iota delta [negb]. rewrite Hmiss.
  unfold MapsService.requestRoute, bind. rewrite Haddr.
  unfold log_route, modify.
  destruct (computeRouteMatrix e _); reflexivity.
Qed.

Lemma geocode_failure_gives_office_witness :
  MapsService.addressToLatLng Scenario.thursday "999 Nowhere Rd" emptyWorld
  = (inr MapsService.officeLatLng, emptyWorld)
  /\ routeLog (snd (MapsService.calculateTravelTime Scenario.thursday "999 Nowhere Rd"
                                                    None emptyWorld))
     = [mkRouteRequest MapsService.officeLatLng MapsService.officeLatLng None].
Proof.
  destruct (geocode_failure_gives_office Scenario.thursday "999 Nowhere Rd" None emptyWorld)
    as [Hoffice Hroute]; try reflexivity.
  - discriminate.
  - split; [exact Hoffice|]. apply Hroute; reflexivity.
Defined.

(** ** Calendar policy: dates that list nothing *)

Lemma localMidnight_is_start_of_day (tz : Z) (d : CivilDate) :
  setHours4 tz (localMidnight tz d) 0 0 0 0 = localMidnight tz d.
Proof.
  unfold setHours4, wallClock, localMidnight.
  replace (daysFromCivil d * msPerDay - tz * msPerMinute + tz * msPerMinute)
    with (daysFromCivil d * msPerDay) by ring.
  rewrite Z.div_mul by (unfold msPerDay; lia). lia.
Qed.

(** Tomorrow is neither in the past nor today. *)
Lemma tomorrow_is_ahead (e : Env) (d : CivilDate) :
  MsAvailability.isDateTomorrow e d = true ->
  MsAvailability.isDateInPast e d = false /\ MsAvailability.isDateToday e d = false.
Proof.
  unfold MsAvailability.isDateTomorrow, MsAvailability.isDateInPast,
    MsAvailability.isDateToday.
  rewrite localMidnight_is_start_of_day. intros H%Z.eqb_eq.
  rewrite H. unfold msPerDay. split; [apply Z.ltb_ge | apply Z.eqb_neq]; lia.
Qed.

(** The cutoff test lets through every reading of the business clock up
    to 17:00 included. *)
Lemma isBeforeCutoffTime_upto_5pm (e : Env) :
  MsAvailability.isBeforeCutoffTime e = (MsAvailability.businessMinutes e <=? 17 * 60).
Proof.
  unfold MsAvailability.isBeforeCutoffTime, MsAvailability.businessMinutes.
  pose proof (Z.mod_pos_bound (wallClock (businessZone e) (now e) / msPerMinute) 60
                              ltac:(lia)) as Hm.
  fold (getMinutes (businessZone e) (now e)) in Hm.
  destruct (Z.ltb_spec (getHours (businessZone e) (now e)) 17),
           (Z.eqb_spec (getHours (businessZone e) (now e)) 17),
           (Z.eqb_spec (getMinutes (businessZone e) (now e)) 0),
           (Z.leb_spec (getHours (businessZone e) (now e) * 60
                        + getMinutes (businessZone e) (now e)) (17 * 60));
    simpl; try reflexivity; lia.
Qed.

Lemma filter_keeps {A} (f : A -> bool) (x : A) (l : list A) :
  In x l -> f x = true -> exists y r, List.filter f l = y :: r.
Proof.
  induction l as [|a l IH]; simpl; [tauto|].
  intros [->|Hin] Hx.
  - rewrite Hx. eauto.
  - destruct (f a); eauto.
Qed.

Lemma civil_eqb_refl (d : CivilDate) : civil_eqb d d = true.
Proof. unfold civil_eqb. now rewrite !Z.eqb_refl. Qed.

(** The part of the handler that follows the date policy answers with an
    empty list on a holiday. *)
Lemma slotsForDate_holiday (e : Env) (maps : MapsServiceModule)
  (q : MsAvailability.Query) (d : CivilDate) (h : Holiday) (w : World) :
  holidays_unreachable (db e) = false ->
  In h (holidays (db e)) -> holiday_date h = d -> holiday_is_active h = true ->
  MsAvailability.slotsForDate e maps q d w = (MsAvailability.Json [], w).
Proof.
  intros Hup Hin Hdate Hactive.
  unfold MsAvailability.slotsForDate, queryHolidays. rewrite Hup.
  destruct (filter_keeps
              (fun h => civil_eqb (holiday_date h) d && holiday_is_active h)
              h (holidays (db e)) Hin) as (y & r & ->).
  { now rewrite Hdate, civil_eqb_refl, Hactive. }
  reflexivity.
Qed.

(** C2 (amended).  On a date with an active holiday row the slot listing
    is empty whenever the query on the holidays table succeeds, whatever
    the operating hours of the weekday and whatever the calendars of the
    photographers hold. *)
Theorem holiday_lists_nothing (e : Env) (maps : MapsServiceModule)
  (q : MsAvailability.Query) (d : CivilDate) (h : Holiday) (w : World) :
  MsAvailability.date q = Some d ->
  holidays_unreachable (db e) = false ->
  In h (holidays (db e)) -> holiday_date h = d -> holiday_is_active h = true ->
  fst (MsAvailability.availability e maps q w) = MsAvailability.Json [].
Proof.
  intros Hq Hup Hin Hdate Hactive.
  unfold MsAvailability.availability. rewrite Hq.
  destruct (MsAvailability.isDateInPast e d); [reflexivity|].
  destruct (MsAvailability.isDateToday e d); [reflexivity|].
  destruct (MsAvailability.isDateTomorrow e d && negb (MsAvailability.isBeforeCutoffTime e));
    [reflexivity|].
  now rewrite (slotsForDate_holiday e maps q d h w).
Qed.

Lemma holiday_lists_nothing_witness :
  fst (MsAvailability.availability Scenario.mondayOff (mapsService Scenario.mondayOff)
                                   Scenario.sqft2500 emptyWorld)
  = MsAvailability.Json [].
Proof.
  apply (holiday_lists_nothing _ _ _ Scenario.monday (mkHoliday Scenario.monday true));
    try reflexivity.
  simpl. left. reflexivity.
Defined.

(** The handler catches a failing holidays query and goes on ("Continue
    even if there's an error checking holidays"): Monday 5 May 2025 has an
    active holiday row, the query fails, and the listing offers the slots
    of an ordinary Monday. *)
Lemma holiday_is_listed_when_the_query_fails :
  In (mkHoliday Scenario.monday true) (holidays (db Cases.holidaysDown))
  /\ MsAvailability.date Scenario.sqft2500 = Some Scenario.monday
  /\ fst (MsAvailability.availability Cases.holidaysDown
                                      (mapsService Cases.holidaysDown)
                                      Scenario.sqft2500 emptyWorld)
     = MsAvailability.Json
         (map (Spec.slotOf Scenario.cory 60) (Spec.startTimes (9 * 60) 15))
  /\ fst (MsAvailability.availability Cases.holidaysDown
                                      (mapsService Cases.holidaysDown)
                                      Scenario.sqft2500 emptyWorld)
     <> MsAvailability.Json [].
Proof.
  split; [left; reflexivity|]. split; [reflexivity|].
  split; [vm_compute; reflexivity|vm_compute; discriminate].
Qed.

(** C3 (amended).  For tomorrow's date the listing is empty exactly when
    the business clock reads later than 17:00, or when the rest of the
    handler (holiday, operating hours, calendars) gives an empty list
    anyway.  At 17:00 sharp the cutoff has not yet fallen. *)
Theorem tomorrow_cutoff (e : Env) (maps : MapsServiceModule)
  (q : MsAvailability.Query) (d : CivilDate) (w : World) :
  MsAvailability.date q = Some d ->
  MsAvailability.isDateTomorrow e d = true ->
  (fst (MsAvailability.availability e maps q w) = MsAvailability.Json []
   <-> (17 * 60 < MsAvailability.businessMinutes e
        \/ fst (MsAvailability.slotsForDate e maps q d w) = MsAvailability.Json [])).
Proof.
  intros Hq Htomorrow.
  destruct (tomorrow_is_ahead e d Htomorrow) as [Hpast Htoday].
  unfold MsAvailability.availability.
  rewrite Hq, Hpast, Htoday, Htomorrow, isBeforeCutoffTime_upto_5pm.
  destruct (Z.leb_spec (MsAvailability.businessMinutes e) (17 * 60)); simpl.
  - split; [auto|]. intros [Hlate|Hempty]; [lia|exact Hempty].
  - split; [auto|reflexivity].
Qed.

Lemma tomorrow_cutoff_witness :
  fst (MsAvailability.availability Scenario.sundayPastFive
                                   (mapsService Scenario.sundayPastFive)
                                   Scenario.sqft2500 emptyWorld)
  = MsAvailability.Json [].
Proof.
  apply (tomorrow_cutoff _ _ _ Scenario.monday); try reflexivity.
  left. vm_compute. reflexivity.
Defined.

(** C3, as first stated, fails at the boundary: on Sunday at 17:00 sharp
    the date of Monday is tomorrow, the business clock reads 17:00, and
    the listing for Monday is not empty. *)
Lemma five_pm_sharp_is_before_cutoff :
  MsAvailability.isDateTomorrow Scenario.sundayAtFive Scenario.monday = true
  /\ 17 * 60 <= MsAvailability.businessMinutes Scenario.sundayAtFive
  /\ fst (MsAvailability.availability Scenario.sundayAtFive
                                      (mapsService Scenario.sundayAtFive)
                                      Scenario.sqft2500 emptyWorld)
     <> MsAvailability.Json [].
Proof.
  split; [reflexivity|]. split; [vm_compute; discriminate|].
  vm_compute. discriminate.
Qed.

(** ** The loop over the start times *)

Section SlotLoop.

Variable e : Env.
Variable maps : MapsServiceModule.
Variable q : MsAvailability.Query.
Variable formattedDate : CivilDate.
Variable msAvailability : gmap string (list Event).
Variables openMinutes closeMinutes durationMinutes travelTimeBuffer : Z.

Let slotsFrom :=
  MsAvailability.slotsFrom e maps q formattedDate msAvailability
                           openMinutes closeMinutes durationMinutes travelTimeBuffer.
Let iterations := MsAvailability.iterations closeMinutes durationMinutes travelTimeBuffer.

Lemma iterations_step (slotStart : Z) :
  slotStart + durationMinutes - travelTimeBuffer * 2 <= closeMinutes ->
  iterations slotStart = S (iterations (slotStart + MsAvailability.slotInterval)).
Proof.
  intros Hle. unfold iterations, MsAvailability.iterations, MsAvailability.slotInterval.
  replace (closeMinutes - (durationMinutes - travelTimeBuffer * 2) - (slotStart + 30))
    with (closeMinutes - (durationMinutes - travelTimeBuffer * 2) - slotStart + (-1) * 30)
    by ring.
  rewrite Z.div_add by lia.
  pose proof (Z.div_pos (closeMinutes - (durationMinutes - travelTimeBuffer * 2) - slotStart)
                        30 ltac:(lia) ltac:(lia)).
  lia.
Qed.

Lemma iterations_done (slotStart : Z) :
  closeMinutes < slotStart + durationMinutes - travelTimeBuffer * 2 ->
  iterations slotStart = O.
Proof.
  intros Hgt. unfold iterations, MsAvailability.iterations, MsAvailability.slotInterval.
  assert ((closeMinutes - (durationMinutes - travelTimeBuffer * 2) - slotStart) / 30 < 0)
    by (apply Z.div_lt_upper_bound; lia).
  lia.
Qed.

(** The loop ends by its own guard: [iterations] rounds suffice, and any
    larger bound gives the same list and the same state. *)
Lemma slotsFrom_enough (bound : nat) (slotStart : Z) (w : World) :
  (iterations slotStart <= bound)%nat ->
  slotsFrom bound slotStart w = slotsFrom (iterations slotStart) slotStart w.
Proof.
  revert slotStart w.
  induction bound as [|bound IH]; intros slotStart w Hle.
  - now replace (iterations slotStart) with O by lia.
  - destruct (Z.leb_spec (slotStart + durationMinutes - travelTimeBuffer * 2) closeMinutes)
      as [Hin|Hout].
    + rewrite (iterations_step slotStart Hin) in *.
      unfold slotsFrom. simpl. fold slotsFrom.
      apply Z.leb_le in Hin. rewrite Hin. unfold bind.
      destruct (MsAvailability.candidate _ _ _ _ _ _ _ _ _ _ w) as [offered w1].
      rewrite IH by lia. reflexivity.
    + rewrite (iterations_done slotStart Hout).
      unfold slotsFrom. simpl. apply Z.leb_gt in Hout. now rewrite Hout.
Qed.

End SlotLoop.

(** ** A free calendar: every half hour from the opening time *)

Lemma existsb_blocks_none {f : Event -> bool} (events : list Event) :
  existsb blocks events = false ->
  existsb (fun event => if blocks event then f event else false) events = false.
Proof.
  induction events as [|ev events IH]; simpl; [reflexivity|].
  intros [Hev Hrest]%orb_false_elim. rewrite Hev. auto.
Qed.

Section FreeCalendar.

Variable e : Env.
Variable maps : MapsServiceModule.
Variable q : MsAvailability.Query.
Variable formattedDate : CivilDate.
Variable msAvailability : gmap string (list Event).
Variables openMinutes closeMinutes durationMinutes : Z.
Variable p : string.

Hypothesis no_address : Js.truthy (MsAvailability.property_address q) = false.
Hypothesis one_photographer : photographers e = [p].
Hypothesis free : existsb blocks (default [] (msAvailability !! p)) = false.

Lemma candidate_free (slotStart : Z) (w : World) :
  openMinutes <= slotStart -> slotStart + durationMinutes <= closeMinutes ->
  MsAvailability.candidate e maps q formattedDate msAvailability
                           openMinutes closeMinutes durationMinutes 0 slotStart w
  = (Some (Spec.slotOf p durationMinutes slotStart), w).
Proof using no_address one_photographer free.
  intros Hopen Hclose.
  unfold MsAvailability.candidate, MsAvailability.recalculatedEnd.
  rewrite no_address, andb_false_r. unfold bind, ret.
  rewrite one_photographer. simpl MsAvailability.availablePhotographers.
  unfold bind, ret, MsAvailability.photographerPasses.
  unfold MsAvailability.fullSlotStartMinutes, MsAvailability.fullSlotEndMinutes,
    MsAvailability.slotEnd, MsAvailability.actualAppointmentDuration.
  replace (slotStart - 0 <? openMinutes) with false by (symmetry; apply Z.ltb_ge; lia).
  replace (closeMinutes <? slotStart + (durationMinutes - 0 * 2) + 0) with false
    by (symmetry; apply Z.ltb_ge; lia).
  rewrite no_address. simpl orb. simpl andb. cbv iota.
  assert (Havailable : MsAvailability.isPhotographerAvailable
                         e formattedDate msAvailability durationMinutes 0 slotStart p = true).
  { unfold MsAvailability.isPhotographerAvailable, MsAvailability.eventsOf.
    now rewrite (existsb_blocks_none _ free). }
  rewrite Havailable. simpl. rewrite String.eqb_refl. simpl.
  unfold Spec.slotOf. repeat f_equal. lia.
Qed.

Lemma slotsFrom_free (n : nat) (slotStart : Z) (w : World) :
  openMinutes <= slotStart ->
  slotStart + 30 * (Z.of_nat n - 1) + durationMinutes <= closeMinutes ->
  MsAvailability.slotsFrom e maps q formattedDate msAvailability
                           openMinutes closeMinutes durationMinutes 0 n slotStart w
  = (map (Spec.slotOf p durationMinutes) (Spec.startTimes slotStart n), w).
Proof using no_address one_photographer free.
  revert slotStart. induction n as [|n IH]; intros slotStart Hopen Hclose.
  - reflexivity.
  - cbn [MsAvailability.slotsFrom Spec.startTimes map].
    replace (slotStart + durationMinutes - 0 * 2 <=? closeMinutes) with true
      by (symmetry; apply Z.leb_le; lia).
    unfold bind, ret. rewrite candidate_free by lia.
    unfold MsAvailability.slotInterval. rewrite IH by lia. reflexivity.
Qed.

End FreeCalendar.

Lemma single_calendar (e : Env) (p : string) (events : list Event) (a b : Z) :
  MsGraphService.getUserAvailability e p a b = inr events ->
  MsGraphService.getPhotographersAvailability e [p] a b ∅ = inr (<[p := events]> ∅).
Proof. intros H. simpl. now rewrite H. Qed.

(** C1 (amended).  Monday open from 09:00 to 17:00, no holiday, one
    photographer whose calendar holds nothing that blocks, 2500 sq ft
    (sixty minutes) and no address: the listing holds one slot every
    thirty minutes from 09:00, the first is 9:00 to 10:00, the last is
    4:00 to 5:00, and there are fifteen of them. *)
Theorem free_monday_lists_fifteen_slots (e : Env) (maps : MapsServiceModule)
  (q : MsAvailability.Query) (d : CivilDate) (p : string)
  (row : OperatingHours) (rest : list OperatingHours) (events : list Event) (w : World) :
  MsAvailability.date q = Some d ->
  MsAvailability.square_footage q = Some "2500" ->
  MsAvailability.property_price q = None ->
  MsAvailability.property_address q = None ->
  MsAvailability.isDateInPast e d = false ->
  MsAvailability.isDateToday e d = false ->
  MsAvailability.isDateTomorrow e d && negb (MsAvailability.isBeforeCutoffTime e) = false ->
  queryHolidays (db e) d = inr [] ->
  queryOperatingHours (db e) (MsAvailability.getCorrectDayOfWeek e d) = inr (row :: rest) ->
  open_time row = mkTime 9 0 ->
  close_time row = mkTime 17 0 ->
  photographers e = [p] ->
  (forall a b, MsGraphService.getUserAvailability e p a b = inr events) ->
  existsb blocks events = false ->
  exists slots,
    fst (MsAvailability.availability e maps q w) = MsAvailability.Json slots
    /\ slots = map (Spec.slotOf p 60) (Spec.startTimes (9 * 60) 15)
    /\ In (MsAvailability.mkSlot "9:00 AM" "10:00 AM" p true) slots
    /\ last slots = Some (MsAvailability.mkSlot "4:00 PM" "5:00 PM" p true)
    /\ length slots = 15%nat.
Proof.
  intros Hdate Hsqft Hprice Haddr Hpast Htoday Htomorrow Hholiday Hhours Hopen Hclose
         Hphot Hcal Hfree.
  exists (map (Spec.slotOf p 60) (Spec.startTimes (9 * 60) 15)).
  split; [|split; [reflexivity|split; [|split]]].
  - assert (Hduration : MsAvailability.requestDuration maps q w = (60, w)).
    { unfold MsAvailability.requestDuration,
        MsAvailability.calculateDurationFromSquareFootage.
      rewrite Hsqft, Hprice, Haddr. reflexivity. }
    assert (Hbuffer : MsAvailability.requestTravelBuffer maps q w = (0, w)).
    { unfold MsAvailability.requestTravelBuffer. rewrite Haddr. reflexivity. }
    unfold MsAvailability.availability.
    rewrite Hdate, Hpast, Htoday, Htomorrow.
    unfold MsAvailability.slotsForDate.
    rewrite Hholiday, Hhours.
    change (0 <? Z.of_nat (length [])) with false. cbv iota.
    unfold bind. rewrite Hduration, Hphot.
    rewrite (single_calendar e p events _ _ (Hcal _ _)).
    rewrite Hbuffer.
    unfold MsAvailability.availableTimeSlots. rewrite Hopen, Hclose.
    change (MsAvailability.iterations _ _ _ _) with 15%nat.
    change (MsAvailability.timeToMinutes (mkTime 9 0) + 0) with (9 * 60).
    rewrite (slotsFrom_free e maps q d (<[p := events]> ∅)
               (MsAvailability.timeToMinutes (mkTime 9 0))
               (MsAvailability.timeToMinutes (mkTime 17 0)) 60 p).
    + reflexivity.
    + now rewrite Haddr.
    + exact Hphot.
    + now rewrite lookup_insert_eq.
    + vm_compute. discriminate.
    + vm_compute. discriminate.
  - vm_compute. left. reflexivity.
  - vm_compute. reflexivity.
  - reflexivity.
Qed.

Lemma free_monday_lists_fifteen_slots_witness :
  exists slots,
    fst (MsAvailability.availability Scenario.thursday (mapsService Scenario.thursday)
                                     Scenario.sqft2500 emptyWorld)
    = MsAvailability.Json slots
    /\ slots = map (Spec.slotOf Scenario.cory 60) (Spec.startTimes (9 * 60) 15)
    /\ In (MsAvailability.mkSlot "9:00 AM" "10:00 AM" Scenario.cory true) slots
    /\ last slots = Some (MsAvailability.mkSlot "4:00 PM" "5:00 PM" Scenario.cory true)
    /\ length slots = 15%nat.
Proof.
  apply (free_monday_lists_fifteen_slots
           Scenario.thursday (mapsService Scenario.thursday) Scenario.sqft2500
           Scenario.monday Scenario.cory Scenario.mondayHours [] []);
    try reflexivity.
Defined.

(** C1, as first stated, fails on the count: the listing of the scenario
    does not hold seventeen slots. *)
Lemma free_monday_not_seventeen_slots :
  ~ exists slots,
      fst (MsAvailability.availability Scenario.thursday (mapsService Scenario.thursday)
                                       Scenario.sqft2500 emptyWorld)
      = MsAvailability.Json slots
      /\ In (MsAvailability.mkSlot "9:00 AM" "10:00 AM" Scenario.cory true) slots
      /\ last slots = Some (MsAvailability.mkSlot "4:00 PM" "5:00 PM" Scenario.cory true)
      /\ length slots = 17%nat.
Proof.
  intros (slots & Hslots & _ & _ & Hlen).
  vm_compute in Hslots. injection Hslots as <-. discriminate Hlen.
Qed.

(** ** The service-type fallback *)

Lemma requestDuration_service_type (maps : MapsServiceModule)
  (q : MsAvailability.Query) (w : World) :
  Js.truthy (MsAvailability.square_footage q) = false ->
  Js.truthy (MsAvailability.service_type q) = true ->
  MsAvailability.requestDuration maps q w
  = (Spec.serviceTypeMinutes (Js.orEmpty (MsAvailability.service_type q)), w).
Proof.
  intros Hsqft Htype. unfold MsAvailability.requestDuration, Spec.serviceTypeMinutes.
  rewrite Hsqft, Htype.
  destruct (String.eqb _ "standard"); [reflexivity|].
  destruct (String.eqb _ "extended"); reflexivity.
Qed.

(** C5.  A request with [service_type=standard], no square footage and an
    address thirty minutes away: the duration is the 120 of the table,
    the round trip of sixty minutes is not added to it, and the
    appointments offered last sixty minutes. *)
Theorem service_type_duration_without_travel :
  fst (MsAvailability.requestDuration (mapsService Scenario.thursday)
                                      Scenario.standardWithAddress emptyWorld) = 120
  /\ fst (MsAvailability.requestTravelBuffer (mapsService Scenario.thursday)
                                             Scenario.standardWithAddress emptyWorld) = 30
  /\ exists rest,
       fst (MsAvailability.availability Scenario.thursday (mapsService Scenario.thursday)
                                        Scenario.standardWithAddress emptyWorld)
       = MsAvailability.Json
           (MsAvailability.mkSlot "9:30 AM" "10:30 AM" Scenario.cory true :: rest).
Proof.
  split; [reflexivity|]. split; [vm_compute; reflexivity|].
  eexists. vm_compute. reflexivity.
Qed.

(** ** The travel gap to the adjacent events *)

Lemma awayFromOffice_false (event : Event) :
  MsAvailability.awayFromOffice event = false <-> Spec.atOfficeOrNowhere event.
Proof.
  unfold MsAvailability.awayFromOffice, Spec.atOfficeOrNowhere.
  destruct (location_displayName event) as [l|]; simpl; [|tauto].
  destruct (String.eqb_spec l ""); simpl.
  - tauto.
  - destruct (Js.includes l MsAvailability.officeStreet); simpl; split;
      try tauto; try discriminate; intros [?|?]; congruence.
Qed.

Section TravelGap.

Variable e : Env.
Variable maps : MapsServiceModule.
Variable q : MsAvailability.Query.
Variable formattedDate : CivilDate.
Variable msAvailability : gmap string (list Event).
Variable slotStart : Z.
Variable email : string.
Variable slotEndDate : Z.

Let priorEvents :=
  MsAvailability.priorEvents e formattedDate msAvailability slotStart email.
Let nextEvents := MsAvailability.nextEvents msAvailability email slotEndDate.
Let hasSufficientTravelTime :=
  MsAvailability.hasSufficientTravelTime e maps q formattedDate msAvailability
                                         slotStart email slotEndDate.

Lemma neighbours_at_office_pass (w : World) :
  (forall event, head priorEvents = Some event -> Spec.atOfficeOrNowhere event) ->
  (forall event, head nextEvents = Some event -> Spec.atOfficeOrNowhere event) ->
  hasSufficientTravelTime w = (true, w).
Proof.
  unfold hasSufficientTravelTime, MsAvailability.hasSufficientTravelTime,
    MsAvailability.sufficientTravelBefore, MsAvailability.sufficientTravelAfter, bind, ret.
  fold priorEvents. fold nextEvents.
  intros Hprior Hnext.
  assert (Hbefore :
            match priorEvents with
            | [] => True
            | event :: _ => MsAvailability.awayFromOffice event = false
            end).
  { destruct priorEvents as [|event ?]; [exact I|].
    apply awayFromOffice_false, Hprior. reflexivity. }
  assert (Hafter :
            match nextEvents with
            | [] => True
            | event :: _ => MsAvailability.awayFromOffice event = false
            end).
  { destruct nextEvents as [|event ?]; [exact I|].
    apply awayFromOffice_false, Hnext. reflexivity. }
  destruct priorEvents as [|before ?]; [|rewrite Hbefore];
    (destruct nextEvents as [|after ?]; [|rewrite Hafter]); reflexivity.
Qed.



End TravelGap.


(** With both neighbours at the office or without a location, a
    photographer is pushed exactly when the full span is inside the
    operating hours and overlaps none of the blocking events. *)
Lemma photographerPasses_without_gap_check (e : Env) (maps : MapsServiceModule)
  (q : MsAvailability.Query) (d : CivilDate) (m : gmap string (list Event))
  (openMinutes closeMinutes durationMinutes travelTimeBuffer slotStart slotEndDate : Z)
  (email : string) (w : World) :
  (forall event,
      head (MsAvailability.priorEvents e d m slotStart email) = Some event ->
      Spec.atOfficeOrNowhere event) ->
  (forall event,
      head (MsAvailability.nextEvents m email slotEndDate) = Some event ->
      Spec.atOfficeOrNowhere event) ->
  MsAvailability.photographerPasses e maps q d m openMinutes closeMinutes durationMinutes
                                    travelTimeBuffer slotStart slotEndDate email w
  = (negb ((MsAvailability.fullSlotStartMinutes travelTimeBuffer slotStart <? openMinutes)
           || (closeMinutes
               <? MsAvailability.fullSlotEndMinutes durationMinutes travelTimeBuffer slotStart))
     && MsAvailability.isPhotographerAvailable e d m durationMinutes travelTimeBuffer
                                               slotStart email, w).
Proof.
  intros Hprior Hnext. unfold MsAvailability.photographerPasses.
  destruct (_ || _); [reflexivity|]. simpl negb. rewrite andb_true_l.
  destruct (Js.truthy _ && _) eqn:Hcheck; [|reflexivity].
  apply andb_prop in Hcheck as [_ Havailable].
  unfold bind.
  rewrite (neighbours_at_office_pass e maps q d m slotStart email slotEndDate w
                                     Hprior Hnext), Havailable.
  reflexivity.
Qed.

(** ** Creating a booking *)

Lemma setHours3_reads_back (tz t h m : Z) :
  0 <= h < 24 -> 0 <= m < 60 ->
  getHours tz (setHours3 tz t h m 0) = h /\ getMinutes tz (setHours3 tz t h m 0) = m.
Proof.
  intros Hh Hm.
  unfold getHours, getMinutes, setHours3, setHours4, wallClock.
  set (D := (t + tz * msPerMinute) / msPerDay).
  pose proof (Z.mod_pos_bound (t + tz * msPerMinute) 1000 ltac:(lia)) as Hms.
  set (ms := (t + tz * msPerMinute) mod 1000) in *.
  unfold msPerDay, msPerHour, msPerMinute in *.
  split.
  - replace (D * 86400000 + h * 3600000 + m * 60000 + 0 * 1000 + ms - tz * 60000 + tz * 60000)
      with ((D * 24 + h) * 3600000 + (m * 60000 + ms)) by ring.
    rewrite Z.div_add_l by lia. rewrite (Z.div_small (m * 60000 + ms)) by lia.
    replace (D * 24 + h + 0) with (h + D * 24) by ring.
    rewrite Z.mod_add by lia. apply Z.mod_small. lia.
  - replace (D * 86400000 + h * 3600000 + m * 60000 + 0 * 1000 + ms - tz * 60000 + tz * 60000)
      with (((D * 24 + h) * 60 + m) * 60000 + ms) by ring.
    rewrite Z.div_add_l by lia. rewrite (Z.div_small ms) by lia.
    replace ((D * 24 + h) * 60 + m + 0) with (m + (D * 24 + h) * 60) by ring.
    rewrite Z.mod_add by lia. apply Z.mod_small. lia.
Qed.

(** What [fitToOperatingHours] does to a span that leaves the hours. *)
Lemma fitToOperatingHours_start (e : Env) (open_time close_time : TimeOfDay)
  (span : Bookings.Span) :
  0 <= hours open_time < 24 -> 0 <= minutes open_time < 60 ->
  Bookings.minuteOfDay e (Bookings.spanStart span)
  < hours open_time * 60 + minutes open_time ->
  Bookings.minuteOfDay e
    (Bookings.spanStart (Bookings.fitToOperatingHours e open_time close_time span))
  = hours open_time * 60 + minutes open_time.
Proof.
  intros Hh Hm Hearly. unfold Bookings.fitToOperatingHours. cbv zeta.
  apply Z.ltb_lt in Hearly. rewrite Hearly. simpl.
  unfold Bookings.minuteOfDay.
  destruct (setHours3_reads_back (serverZone e) (Bookings.spanStart span)
                                 (hours open_time) (minutes open_time) Hh Hm) as [-> ->].
  reflexivity.
Qed.

Lemma fitToOperatingHours_end (e : Env) (open_time close_time : TimeOfDay)
  (span : Bookings.Span) :
  Bookings.spanEnd (Bookings.fitToOperatingHours e open_time close_time span)
  = Bookings.spanEnd span
  /\ (hours close_time * 60 + minutes close_time
      < Bookings.minuteOfDay e (Bookings.spanEnd span) ->
      Bookings.travelInfo (Bookings.fitToOperatingHours e open_time close_time span)
      = Bookings.travelInfo span ++ Bookings.overflowNote).
Proof.
  unfold Bookings.fitToOperatingHours. cbv zeta. split.
  - destruct (_ || _); reflexivity.
  - intros Hlate%Z.ltb_lt. rewrite Hlate, orb_true_r. reflexivity.
Qed.

Section CreateBooking.

Variable e : Env.
Variable maps : MapsServiceModule.
Variable body : Bookings.Body.
Variable w : World.

Variable date : CivilDate.
Variables startT endT : TimeOfDay.
Variable primary : string.
Variable others : list string.
Variable row : OperatingHours.
Variable rest : list OperatingHours.
Variable msAvailability : gmap string (list Event).

Let selected := Bookings.selectedPhotographer body primary.
Let travelled :=
  Bookings.withTravel maps (Bookings.fullAddress body)
                      (localDateTime (serverZone e) date startT)
                      (localDateTime (serverZone e) date endT) w.
Let span := fst travelled.
Let fitted := Bookings.fitToOperatingHours e (open_time row) (close_time row) span.
Let openMinutes := hours (open_time row) * 60 + minutes (open_time row).
Let closeMinutes := hours (close_time row) * 60 + minutes (close_time row).

Hypothesis has_date : Bookings.booking_date body = Some date.
Hypothesis has_start : Bookings.start_time body = Some startT.
Hypothesis has_end : Bookings.end_time body = Some endT.
Hypothesis has_name : Js.truthy (Bookings.customer_name body) = true.
Hypothesis has_email : Js.truthy (Bookings.customer_email body) = true.
Hypothesis has_address : Js.truthy (Bookings.property_address body) = true.
Hypothesis configured : photographers e = primary :: others.
Hypothesis known_photographer :
  Js.truthy (Bookings.photographer_email body)
  && negb (existsb (String.eqb (Js.orEmpty (Bookings.photographer_email body)))
                   (photographers e)) = false.
Hypothesis calendar_read :
  MsGraphService.getPhotographersAvailability e [selected] (Bookings.spanStart span)
                                              (Bookings.spanEnd span) ∅
  = inr msAvailability.
Hypothesis hours_read :
  queryOperatingHours (db e) (Bookings.getCorrectDayOfWeek e date) = inr (row :: rest).
Hypothesis requested_inside :
  openMinutes <= hours startT * 60 + minutes startT
  /\ hours endT * 60 + minutes endT <= closeMinutes.
Hypothesis no_conflict :
  Bookings.hasConflict (utcDateTime date startT) (utcDateTime date endT)
                       (default [] (msAvailability !! selected)) = false.

(** A request that passes the checks on the requested span goes on to the
    calendar writes with the fitted span. *)
Lemma createBooking_proceeds :
  Bookings.createBooking e maps body w
  = (let '(refs, w') :=
       Bookings.createEvents e maps selected (Bookings.bookingData body fitted)
                             (snd travelled) in
     (Bookings.confirm selected refs, w')).
Proof using All.
  unfold Bookings.createBooking.
  rewrite has_date, has_start, has_end, has_name, has_email, has_address.
  change (negb true || negb true || negb true) with false. cbv iota.
  rewrite configured. rewrite configured in known_photographer.
  rewrite known_photographer.
  unfold bind. cbv beta. fold selected. fold travelled.
  unfold fitted, span in *. destruct travelled as [sp w1]. simpl fst in *. simpl snd.
  rewrite calendar_read, hours_read.
  destruct requested_inside as [Hopen Hclose].
  fold openMinutes. fold closeMinutes.
  replace (hours startT * 60 + minutes startT <? openMinutes) with false
    by (symmetry; apply Z.ltb_ge; lia).
  replace (closeMinutes <? hours endT * 60 + minutes endT) with false
    by (symmetry; apply Z.ltb_ge; lia).
  change (false || false) with false. cbv iota.
  rewrite no_conflict.
  destruct (Bookings.createEvents e maps selected _ w1) as [refs w2]. reflexivity.
Qed.

End CreateBooking.

(** The test of the adjustment reads times of day only: a widened start
    that falls on the evening before is later in the day than the opening
    time and stays where it is. *)
Example clamp_misses_the_evening_before :
  let widened :=
    Bookings.mkSpan "" 30 (Scenario.at_ (mkDate 2025 5 4) (mkTime 23 45))
                    (Scenario.at_ Scenario.monday (mkTime 1 45)) in
  Bookings.fitToOperatingHours Scenario.thursday (mkTime 0 0) (mkTime 23 59) widened
  = widened.
Proof. vm_compute. reflexivity. Qed.

(** C8.  A booking for Monday 09:00 to 17:00, the whole of the operating
    hours, thirty minutes of travel away: the widened span 08:30 to 17:30
    leaves the hours on both sides.  The booking is created; the
    appointment written to the calendar starts at the opening time and
    ends at 17:30, between a travel event before and one after.  The
    warning about the travel back is appended to the travel note of the
    handler, and that is the end of it: the booking data handed to the
    calendar writes carries the notes of the request alone, here none, and
    the answer carries the identifiers and links of the events alone. *)
Theorem overflow_warning_is_built_and_dropped :
  let e := Scenario.thursday in
  let body := Scenario.mondayAllDay in
  let at_ := Scenario.at_ Scenario.monday in
  let span :=
    fst (Bookings.withTravel (mapsService e) (Bookings.fullAddress body)
                             (at_ (mkTime 9 0)) (at_ (mkTime 17 0)) emptyWorld) in
  let fitted := Bookings.fitToOperatingHours e (mkTime 9 0) (mkTime 17 0) span in
  let outcome := Bookings.createBooking e (mapsService e) body emptyWorld in
  (Bookings.spanStart span, Bookings.spanEnd span)
  = (at_ (mkTime 8 30), at_ (mkTime 17 30))
  /\ fst outcome
     = Bookings.Created
         (Bookings.mkConfirmation
            (Some "event:Session - Ada Client")
            (Some "https://outlook.office.com/calendar/item") Scenario.cory
            (Bookings.mkEventRef (Some "event:TRAVEL TO: Ada Client (30 min)")
                                 (Some "https://outlook.office.com/calendar/item"))
            (Bookings.mkEventRef (Some "event:TRAVEL FROM: Ada Client (30 min)")
                                 (Some "https://outlook.office.com/calendar/item")))
  /\ map (fun write => (fst write, ed_subject (snd write),
                        ed_start (snd write), ed_end (snd write)))
         (calendarLog (snd outcome))
     = [(Scenario.cory, "TRAVEL TO: Ada Client (30 min)",
         at_ (mkTime 8 30), at_ (mkTime 9 0));
        (Scenario.cory, "Session - Ada Client", at_ (mkTime 9 0), at_ (mkTime 17 30));
        (Scenario.cory, "TRAVEL FROM: Ada Client (30 min)",
         at_ (mkTime 17 30), at_ (mkTime 18 0))]
  /\ Bookings.travelInfo fitted = Bookings.travelInfo span ++ Bookings.overflowNote
  /\ notes (Bookings.bookingData body fitted) = ""
  /\ Bookings.bookingData body fitted
     = Bookings.bookingData body
         (Bookings.mkSpan "" (Bookings.travelBuffer fitted) (Bookings.spanStart fitted)
                          (Bookings.spanEnd fitted)).
Proof. cbv zeta. repeat split; vm_compute; reflexivity. Qed.

(** The handler reads nothing of the holidays table. *)
Lemma createBooking_ignores_holidays (e : Env) (maps : MapsServiceModule)
  (rows : list Holiday) (body : Bookings.Body) (w : World) :
  Bookings.createBooking (withHolidays e rows) maps body w
  = Bookings.createBooking e maps body w.
Proof. reflexivity. Qed.

(** C6.  A complete request for Monday 10:00 to 11:00, inside the
    operating hours and free of conflicts, on a Monday that has an active
    holiday row: the slot listing for the date is empty, yet the booking
    is created. *)
Theorem booking_on_holiday_is_created :
  queryHolidays (db Scenario.mondayOff) Scenario.monday
  = inr [mkHoliday Scenario.monday true]
  /\ fst (MsAvailability.availability Scenario.mondayOff (mapsService Scenario.mondayOff)
                                      Scenario.sqft2500 emptyWorld)
     = MsAvailability.Json []
  /\ exists confirmation,
       fst (Bookings.createBooking Scenario.mondayOff (mapsService Scenario.mondayOff)
                                   Scenario.mondayTen emptyWorld)
       = Bookings.Created confirmation.
Proof.
  split; [reflexivity|]. split; [vm_compute; reflexivity|].
  eexists. vm_compute. reflexivity.
Qed.

(** The other three refusals.  A request that lacks a required field is
    answered 400. *)
Lemma createBooking_missing_fields (e : Env) (maps : MapsServiceModule)
  (body : Bookings.Body) (w : World) :
  Bookings.booking_date body = None \/ Bookings.start_time body = None
  \/ Bookings.end_time body = None
  \/ Js.truthy (Bookings.customer_name body) = false
  \/ Js.truthy (Bookings.customer_email body) = false
  \/ Js.truthy (Bookings.property_address body) = false ->
  Bookings.createBooking e maps body w = (Bookings.Status 400 "Missing required fields", w).
Proof.
  unfold Bookings.createBooking.
  intros [H|[H|[H|[H|[H|H]]]]]; rewrite H;
    repeat match goal with
           | |- context [match ?o with Some _ => _ | None => _ end] => destruct o
           end;
    try reflexivity;
    destruct (Js.truthy (Bookings.customer_name body)),
             (Js.truthy (Bookings.customer_email body));
    reflexivity.
Qed.

(** Two half-open spans that overlap are a conflict for the handler. *)
Lemma overlap_is_conflict (bookedStart bookedEnd : Z) (event : Event) :
  MsAvailability.doTimesOverlap bookedStart bookedEnd
                                (start_dateTime event) (end_dateTime event) = true ->
  Bookings.conflicts bookedStart bookedEnd event = true.
Proof.
  unfold MsAvailability.doTimesOverlap, Bookings.conflicts.
  intros [H1%Z.ltb_lt H2%Z.ltb_lt]%andb_prop.
  destruct (Z.leb_spec (start_dateTime event) bookedStart),
           (Z.ltb_spec bookedStart (end_dateTime event)),
           (Z.ltb_spec (start_dateTime event) bookedEnd),
           (Z.leb_spec bookedEnd (end_dateTime event)),
           (Z.leb_spec bookedStart (start_dateTime event)),
           (Z.leb_spec (end_dateTime event) bookedEnd);
    simpl; try reflexivity; lia.
Qed.


Example booking_outside_hours :
  fst (Bookings.createBooking Scenario.thursday (mapsService Scenario.thursday)
                              Scenario.mondaySeven emptyWorld)
  = Bookings.Status 400 "Booking is outside of operating hours".
Proof. vm_compute. reflexivity. Qed.

Example booking_conflict :
  fst (Bookings.createBooking Scenario.mondayTaken (mapsService Scenario.mondayTaken)
                              Scenario.mondayTen emptyWorld)
  = Bookings.Status 409 "This time slot is no longer available".
Proof. vm_compute. reflexivity. Qed.

(** The conflict loop reads the requested times as UTC
    ([`${booking_date}T${start_time}.000Z`]): on a server four hours west
    of UTC, a 10:00 to 11:00 request does not meet an appointment that runs
    from 10:30 to 11:30 by the local clock. *)
Example booking_conflict_is_read_in_utc :
  exists confirmation,
    fst (Bookings.createBooking Scenario.mondayTakenLocal
                                (mapsService Scenario.mondayTakenLocal)
                                Scenario.mondayTen emptyWorld)
    = Bookings.Created confirmation.
Proof. eexists. vm_compute. reflexivity. Qed.

(** The travel note never reaches the calendar: the booking data handed
    to the three writes holds the notes of the request only. *)
Lemma bookingData_without_travelInfo (body : Bookings.Body)
  (info info' : string) (buffer spanStart spanEnd : Z) :
  Bookings.bookingData body (Bookings.mkSpan info buffer spanStart spanEnd)
  = Bookings.bookingData body (Bookings.mkSpan info' buffer spanStart spanEnd).
Proof. reflexivity. Qed.

(** ** More on the listing *)

(** An appointment from 12:00 to 13:00 removes the starts 11:30, 12:00
    and 12:30; 11:00 to 12:00 and 1:00 to 2:00 stay. *)
Example lunch_shoot_blocks_three_starts :
  fst (MsAvailability.availability Scenario.mondayWithLunchShoot
                                   (mapsService Scenario.mondayWithLunchShoot)
                                   Scenario.sqft2500 emptyWorld)
  = MsAvailability.Json
      (map (Spec.slotOf Scenario.cory 60)
           (Spec.startTimes (9 * 60) 5 ++ Spec.startTimes (13 * 60) 7)).
Proof. vm_compute. reflexivity. Qed.

(** With a service type outside the table (sixty minutes) and an address
    thirty minutes away, the appointments offered have no length. *)
Example portrait_with_address_has_empty_appointments :
  exists rest,
    fst (MsAvailability.availability Scenario.thursday (mapsService Scenario.thursday)
                                     Scenario.portraitWithAddress emptyWorld)
    = MsAvailability.Json
        (MsAvailability.mkSlot "9:30 AM" "9:30 AM" Scenario.cory true :: rest).
Proof. eexists. vm_compute. reflexivity. Qed.

(** ** The buffers kept in the cache *)

Lemma calculateTravelTime_keeps_buffers (e : Env) (address : string)
  (arrivalTime : option Z) (w : World) :
  travelBufferCache (snd (MapsService.calculateTravelTime e address arrivalTime w))
  = travelBufferCache w.
Proof.
  unfold MapsService.calculateTravelTime, MapsService.travelTimeFallback,
    MapsService.requestRoute, MapsService.addressToLatLng,
    bind, gets, ret, set_travelTimeCache, set_geocodeCache, log_route, modify.
  repeat match goal with
         | |- context [if ?b then _ else _] => destruct b
         | |- context [match ?o with Some _ => _ | None => _ end] => destruct o
         end;
    reflexivity.
Qed.

Lemma buffersRounded_empty : buffersRounded emptyWorld.
Proof.
  intros key timestamp buffer H.
  change (travelBufferCache emptyWorld) with (∅ : gmap string (Z * Z)) in H.
  rewrite lookup_empty in H. discriminate.
Qed.

(** In a state whose cached buffers are multiples of thirty, the buffer
    returned is one, and the state stays so. *)
Lemma calculateTravelTimeBuffer_rounded (e : Env) (address : string)
  (arrivalTime : option Z) (w : World) :
  buffersRounded w ->
  fst (MapsService.calculateTravelTimeBuffer e address arrivalTime w) mod 30 = 0
  /\ buffersRounded (snd (MapsService.calculateTravelTimeBuffer e address arrivalTime w)).
Proof.
  intros Hw.
  unfold MapsService.calculateTravelTimeBuffer, bind, gets, ret.
  set (key := "buffer_" ++ _).
  destruct (MapsService.validEntry e (travelBufferCache w) key) as [cached|] eqn:Hentry.
  - split; [|exact Hw]. simpl.
    unfold MapsService.validEntry in Hentry.
    destruct (travelBufferCache w !! key) as [[timestamp data]|] eqn:Hlookup;
      [|discriminate].
    destruct (MapsService.isCacheValid e timestamp); [|discriminate].
    injection Hentry as <-. exact (Hw _ _ _ Hlookup).
  - pose proof (calculateTravelTime_keeps_buffers
                  e (Js.trim (Js.toUpperCase address)) arrivalTime w) as Hkeep.
    destruct (MapsService.calculateTravelTime e _ arrivalTime w) as [travelData w1].
    simpl in Hkeep. simpl.
    destruct (roundedTravelTime_rounds_up travelData) as [Hmod _].
    split; [exact Hmod|].
    intros k timestamp buffer. simpl. rewrite Hkeep.
    destruct (decide (key = k)) as [->|Hne].
    + rewrite lookup_insert_eq. intros [= _ <-]. exact Hmod.
    + rewrite lookup_insert_ne by exact Hne. apply Hw.
Qed.

(** * Further properties of the travel service *)

(** ** What the caches give back *)

Lemma isCacheValid_now (e : Env) :
  now e <> 0 -> MapsService.isCacheValid e (now e) = true.
Proof.
  intros Hnow. unfold MapsService.isCacheValid, MapsService.cacheDuration.
  apply Z.eqb_neq in Hnow. rewrite Hnow. apply Z.ltb_lt. lia.
Qed.

Lemma validEntry_insert_now {A} (e : Env) (cache : gmap string (Z * A))
  (key : string) (data : A) :
  now e <> 0 ->
  MapsService.validEntry e (<[key := (now e, data)]> cache) key = Some data.
Proof.
  intros Hnow. unfold MapsService.validEntry.
  now rewrite lookup_insert_eq, isCacheValid_now.
Qed.

(** After a buffer lookup the cache answers for its key. *)
Lemma calculateTravelTimeBuffer_leaves_entry (e : Env) (address : string)
  (arrivalTime : option Z) (w : World) :
  now e <> 0 ->
  MapsService.validEntry e
    (travelBufferCache (snd (MapsService.calculateTravelTimeBuffer e address arrivalTime w)))
    ("buffer_" ++ MapsService.getCacheKey e (Js.trim (Js.toUpperCase address)) arrivalTime)
  = Some (fst (MapsService.calculateTravelTimeBuffer e address arrivalTime w)).
Proof.
  intros Hnow.
  unfold MapsService.calculateTravelTimeBuffer, bind, gets, ret.
  set (key := "buffer_" ++ _).
  destruct (MapsService.validEntry e (travelBufferCache w) key) as [cached|] eqn:Hentry.
  - exact Hentry.
  - destruct (MapsService.calculateTravelTime e _ arrivalTime w) as [travelData w1].
    simpl. now apply validEntry_insert_now.
Qed.

(** The travel buffer is served from the cache: a lookup whose cache key
    is that of an earlier lookup (the same address up to case, an arrival
    time in the same hour), made while the clock has not moved, returns the
    buffer of the earlier one and changes nothing; no route request is
    posted for it. *)
Theorem travel_buffer_is_cached (e : Env) (address address' : string)
  (arrivalTime arrivalTime' : option Z) (w : World) :
  now e <> 0 ->
  MapsService.getCacheKey e (Js.trim (Js.toUpperCase address')) arrivalTime'
  = MapsService.getCacheKey e (Js.trim (Js.toUpperCase address)) arrivalTime ->
  let first := MapsService.calculateTravelTimeBuffer e address arrivalTime w in
  MapsService.calculateTravelTimeBuffer e address' arrivalTime' (snd first)
  = (fst first, snd first).
Proof.
  intros Hnow Hkey first.
  pose proof (calculateTravelTimeBuffer_leaves_entry e address arrivalTime w Hnow) as Hentry.
  fold first in Hentry.
  unfold MapsService.calculateTravelTimeBuffer at 1. unfold bind, gets, ret.
  rewrite Hkey, Hentry. reflexivity.
Qed.

Lemma travel_buffer_is_cached_witness :
  MapsService.calculateTravelTimeBuffer
    Scenario.thursday "123 main st, jupiter fl" None
    (snd (MapsService.calculateTravelTimeBuffer Scenario.thursday Scenario.jupiterHome
                                                None emptyWorld))
  = (30, snd (MapsService.calculateTravelTimeBuffer Scenario.thursday Scenario.jupiterHome
                                                    None emptyWorld)).
Proof.
  apply (travel_buffer_is_cached Scenario.thursday Scenario.jupiterHome
                                 "123 main st, jupiter fl" None None emptyWorld).
  - vm_compute. discriminate.
  - reflexivity.
Defined.

(** A buffer older than thirty minutes is not served: the buffer returned
    is computed from a new travel estimate. *)
Theorem expired_buffer_is_recomputed (e : Env) (address : string)
  (arrivalTime : option Z) (w : World) (timestamp stale : Z) :
  travelBufferCache w
    !! ("buffer_" ++ MapsService.getCacheKey e (Js.trim (Js.toUpperCase address)) arrivalTime)
  = Some (timestamp, stale) ->
  30 * 60 * 1000 <= now e - timestamp ->
  fst (MapsService.calculateTravelTimeBuffer e address arrivalTime w)
  = MapsService.roundedTravelTime
      (fst (MapsService.calculateTravelTime e (Js.trim (Js.toUpperCase address))
                                            arrivalTime w)).
Proof.
  intros Hlookup Hold.
  apply calculateTravelTimeBuffer_miss.
  unfold MapsService.validEntry. rewrite Hlookup.
  unfold MapsService.isCacheValid, MapsService.cacheDuration.
  destruct (timestamp =? 0); [reflexivity|].
  replace (now e - timestamp <? 30 * 60 * 1000) with false; [reflexivity|].
  symmetry. apply Z.ltb_ge. exact Hold.
Qed.

Lemma expired_buffer_is_recomputed_witness :
  fst (MapsService.calculateTravelTimeBuffer Scenario.thursday Scenario.jupiterHome None
                                             Cases.staleBuffer) = 30.
Proof.
  rewrite (expired_buffer_is_recomputed
             Scenario.thursday Scenario.jupiterHome None Cases.staleBuffer
             (Scenario.thursdayMorning - 30 * 60 * 1000) 90).
  - vm_compute. reflexivity.
  - reflexivity.
  - vm_compute. discriminate.
Defined.

(** After a travel estimate the cache answers for its key, whether the
    estimate came from the cache, from the route service or from the
    fallback. *)
Lemma calculateTravelTime_leaves_entry (e : Env) (address : string)
  (arrivalTime : option Z) (w : World) :
  now e <> 0 ->
  MapsService.validEntry e
    (travelTimeCache (snd (MapsService.calculateTravelTime e address arrivalTime w)))
    (MapsService.getCacheKey e address arrivalTime)
  = Some (fst (MapsService.calculateTravelTime e address arrivalTime w)).
Proof.
  intros Hnow.
  assert (Hfallback : forall w0,
             MapsService.validEntry e
               (travelTimeCache (snd (MapsService.travelTimeFallback e address arrivalTime w0)))
               (MapsService.getCacheKey e address arrivalTime)
             = Some (fst (MapsService.travelTimeFallback e address arrivalTime w0))).
  { intros w0. unfold MapsService.travelTimeFallback, bind, ret, set_travelTimeCache, modify.
    simpl. now apply validEntry_insert_now. }
  unfold MapsService.calculateTravelTime.
  destruct (String.eqb address ""); [apply Hfallback|].
  destruct (negb (Js.truthy (apiKey e))); [apply Hfallback|].
  unfold bind, gets.
  destruct (MapsService.validEntry e (travelTimeCache w) _) as [data|] eqn:Hentry.
  - exact Hentry.
  - unfold MapsService.requestRoute, bind.
    destruct (MapsService.addressToLatLng e address w) as [[err|latlng] w1];
      [apply Hfallback|].
    unfold log_route, modify.
    destruct (computeRouteMatrix e _); [|apply Hfallback].
    unfold set_travelTimeCache, modify, ret. simpl. now apply validEntry_insert_now.
Qed.

(** With no API key, or with an empty address, every call gives the
    fallback estimate and writes it over itself. *)
Lemma travelTimeFallback_twice (e : Env) (address : string)
  (arrivalTime : option Z) (w : World) :
  let first := MapsService.travelTimeFallback e address arrivalTime w in
  MapsService.travelTimeFallback e address arrivalTime (snd first) = first.
Proof.
  unfold MapsService.travelTimeFallback, bind, ret, set_travelTimeCache, modify.
  simpl. now rewrite insert_insert_eq.
Qed.

(** A travel estimate is served from the cache while the clock has not
    moved: the second call for the same destination and arrival time
    returns the data of the first and changes nothing, also when the first
    one ended in the fallback estimate.  A failed route lookup is thus not
    tried again. *)
Theorem travel_estimate_is_cached (e : Env) (address : string)
  (arrivalTime : option Z) (w : World) :
  now e <> 0 ->
  let first := MapsService.calculateTravelTime e address arrivalTime w in
  MapsService.calculateTravelTime e address arrivalTime (snd first) = first.
Proof.
  intros Hnow first.
  pose proof (calculateTravelTime_leaves_entry e address arrivalTime w Hnow) as Hentry.
  fold first in Hentry.
  unfold first, MapsService.calculateTravelTime in *.
  destruct (String.eqb address ""); [apply travelTimeFallback_twice|].
  destruct (negb (Js.truthy (apiKey e))); [apply travelTimeFallback_twice|].
  unfold bind at 1. unfold gets at 1.
  rewrite Hentry. unfold ret. now destruct (bind _ _ w).
Qed.

Lemma travel_estimate_is_cached_witness :
  routeLog (snd (MapsService.calculateTravelTime
                   Cases.unreachableRoutes Scenario.jupiterHome None
                   (snd (MapsService.calculateTravelTime
                           Cases.unreachableRoutes Scenario.jupiterHome None emptyWorld))))
  = [mkRouteRequest MapsService.officeLatLng Scenario.jupiterHomeLatLng None].
Proof.
  rewrite (travel_estimate_is_cached Cases.unreachableRoutes Scenario.jupiterHome
                                     None emptyWorld).
  - reflexivity.
  - vm_compute. discriminate.
Defined.

(** Coordinates that enter the geocode cache stay: once an address was
    geocoded, or fell back to the Stuart coordinates, every later call for
    it returns the same coordinates and changes nothing, whatever the
    geocoder would answer by then. *)
Theorem geocode_answer_sticks (e e' : Env) (address : string) (w : World) (c : LatLng) :
  address <> "" ->
  geocodeCache w !! Js.toUpperCase (Js.trim address) = None ->
  MapsService.geocodeLookup e (Js.trim address) = Some c
  \/ (MapsService.geocodeLookup e (Js.trim address) = None
      /\ Js.includes (Js.toUpperCase (Js.trim address)) "STUART"
         || Js.includes (Js.toUpperCase (Js.trim address)) "SE FEDERAL HWY" = true
      /\ c = MapsService.stuartLatLng) ->
  let first := MapsService.addressToLatLng e address w in
  fst first = inr c
  /\ MapsService.addressToLatLng e' address (snd first) = (inr c, snd first).
Proof.
  intros Hne%String.eqb_neq Hmiss Hsource first.
  assert (Hfirst : first
                   = (inr c, mkWorld (travelTimeCache w) (travelBufferCache w)
                                     (<[Js.toUpperCase (Js.trim address) := c]>
                                        (geocodeCache w))
                                     (routeLog w) (calendarLog w))).
  { unfold first, MapsService.addressToLatLng, bind, gets, ret, set_geocodeCache, modify.
    rewrite Hne, Hmiss.
    destruct Hsource as [->|(-> & -> & ->)]; reflexivity. }
  rewrite Hfirst. split; [reflexivity|].
  unfold MapsService.addressToLatLng, bind, gets, ret. rewrite Hne. simpl.
  now rewrite lookup_insert_eq.
Qed.

Lemma geocode_answer_sticks_witness :
  MapsService.addressToLatLng
    Cases.geocoderBack "4570 SE Federal Hwy"
    (snd (MapsService.addressToLatLng Cases.geocoderDown "4570 SE Federal Hwy" emptyWorld))
  = (inr MapsService.stuartLatLng,
     snd (MapsService.addressToLatLng Cases.geocoderDown "4570 SE Federal Hwy" emptyWorld)).
Proof.
  apply (geocode_answer_sticks Cases.geocoderDown Cases.geocoderBack
                               "4570 SE Federal Hwy" emptyWorld MapsService.stuartLatLng).
  - discriminate.
  - reflexivity.
  - right. repeat split; reflexivity.
Defined.

(** ** Cache keys *)

Lemma upper_ascii_idempotent (c : ascii) :
  Js.upper_ascii (Js.upper_ascii c) = Js.upper_ascii c.
Proof. destruct c as [[] [] [] [] [] [] [] []]; reflexivity. Qed.

Lemma toUpperCase_idempotent (s : string) :
  Js.toUpperCase (Js.toUpperCase s) = Js.toUpperCase s.
Proof.
  induction s as [|c s IH]; simpl; [reflexivity|].
  now rewrite upper_ascii_idempotent, IH.
Qed.

Lemma startOfHour_hour (tz t : Z) :
  startOfHour tz t = wallClock tz t / msPerHour * msPerHour - tz * msPerMinute.
Proof.
  unfold startOfHour.
  pose proof (Z.div_mod (wallClock tz t) msPerHour ltac:(unfold msPerHour; lia)) as Hdm.
  unfold wallClock in *. lia.
Qed.

(** The cache key does not tell apart two spellings of an address that
    differ in case, nor two arrival times in the same hour of the server's
    clock. *)
Theorem cache_key_shares_case_and_hour (e : Env) (address : string) (t t' : Z) :
  wallClock (serverZone e) t / msPerHour = wallClock (serverZone e) t' / msPerHour ->
  MapsService.getCacheKey e (Js.toUpperCase address) (Some t')
  = MapsService.getCacheKey e address (Some t)
  /\ MapsService.getCacheKey e (Js.toUpperCase address) None
     = MapsService.getCacheKey e address None.
Proof.
  intros Hhour. unfold MapsService.getCacheKey.
  rewrite toUpperCase_idempotent, !startOfHour_hour, Hhour. split; reflexivity.
Qed.

Lemma cache_key_shares_case_and_hour_witness :
  MapsService.getCacheKey Scenario.thursday "123 MAIN ST"
                          (Some (Scenario.at_ Scenario.monday (mkTime 9 30)))
  = MapsService.getCacheKey Scenario.thursday "123 Main St"
                            (Some (Scenario.at_ Scenario.monday (mkTime 9 0)))
  /\ MapsService.getCacheKey Scenario.thursday "123 MAIN ST" None
     = MapsService.getCacheKey Scenario.thursday "123 Main St" None.
Proof.
  apply (cache_key_shares_case_and_hour Scenario.thursday "123 Main St").
  reflexivity.
Defined.

Lemma upper_ascii_not_b (c : ascii) : Js.upper_ascii c <> "b"%char.
Proof. destruct c as [[] [] [] [] [] [] [] []]; discriminate. Qed.

Lemma trimStart_head (s : string) (c : ascii) (r : string) :
  Forall (fun x => x <> "b"%char) (list_ascii_of_string s) ->
  Js.trimStart s = String c r -> c <> "b"%char.
Proof.
  induction s as [|x s IH]; simpl; [discriminate|].
  intros Hall Htrim. inversion Hall as [|? ? Hx Hs]; subst.
  destruct (Js.is_space x); [now apply IH|].
  now injection Htrim as <- _.
Qed.

Lemma trimEnd_head (s : string) (c : ascii) (r : string) :
  Js.trimEnd s = String c r -> exists r', s = String c r'.
Proof.
  destruct s as [|x s]; simpl; [discriminate|].
  destruct (Js.trimEnd s); [destruct (Js.is_space x)|];
    intros H; try discriminate; injection H as <- _; eauto.
Qed.

Lemma toUpperCase_no_b (s : string) :
  Forall (fun x => x <> "b"%char) (list_ascii_of_string (Js.toUpperCase s)).
Proof.
  induction s as [|c s IH]; simpl; constructor; [apply upper_ascii_not_b|exact IH].
Qed.

Lemma trimStart_keeps {P : ascii -> Prop} (s : string) :
  Forall P (list_ascii_of_string s) -> Forall P (list_ascii_of_string (Js.trimStart s)).
Proof.
  induction s as [|x s IH]; simpl; [auto|].
  intros Hall. destruct (Js.is_space x); [|exact Hall].
  inversion Hall; auto.
Qed.

Lemma normalized_head (address : string) (c : ascii) (r : string) :
  Js.trim (Js.toUpperCase address) = String c r -> c <> "b"%char.
Proof.
  unfold Js.trim. intros [r' Hstart]%trimEnd_head.
  pose proof (trimStart_keeps (P := fun x => x <> "b"%char) _
                              (toUpperCase_no_b address)) as Hall.
  rewrite Hstart in Hall. now inversion Hall.
Qed.

(** The two families of keys kept in [travelTimeCache] never meet: the
    key of a rounded buffer, which starts with ["buffer_"], is never the
    key of a travel estimate, which starts with an upper-cased address or
    with ["_"]. *)
Theorem buffer_key_is_no_travel_key (e : Env) (address address' : string)
  (arrivalTime arrivalTime' : option Z) :
  "buffer_" ++ MapsService.getCacheKey e address' arrivalTime'
  <> MapsService.getCacheKey e address arrivalTime.
Proof.
  unfold MapsService.getCacheKey.
  destruct (Js.trim (Js.toUpperCase address)) as [|c r] eqn:Hnorm.
  - destruct arrivalTime; discriminate.
  - apply normalized_head in Hnorm.
    destruct arrivalTime; simpl; intros H; injection H as H _; congruence.
Qed.

(** ** The buffer of the booking handler *)

Lemma ceilDiv_nested (seconds : Z) :
  Js.ceilDiv (Js.ceilDiv seconds 60) 30 = Js.ceilDiv seconds 1800.
Proof.
  unfold Js.ceilDiv. rewrite Z.opp_involutive.
  rewrite Z.div_div by lia. reflexivity.
Qed.

(** The booking handler rounds the travel estimate with its own formula,
    [Math.ceil(seconds / 1800) * 30], reading the in-traffic seconds unless
    they are zero.  It agrees with the buffer of the travel service, except
    for an estimate with zero in-traffic seconds and a duration that is not
    zero; the span is widened by the buffer on both sides. *)
Theorem booking_buffer_agrees_with_service (maps : MapsServiceModule)
  (fullAddress : string) (startDateTime endDateTime : Z) (w w1 : World)
  (travelData : TravelData) :
  calculateTravelTime maps fullAddress (Some startDateTime) w = (inr travelData, w1) ->
  MapsService.oneWaySeconds travelData <> 0 \/ value (duration travelData) = 0 ->
  let span := fst (Bookings.withTravel maps fullAddress startDateTime endDateTime w) in
  Bookings.travelBuffer span = MapsService.roundedTravelTime travelData
  /\ Bookings.spanStart span = startDateTime - Bookings.travelBuffer span * msPerMinute
  /\ Bookings.spanEnd span = endDateTime + Bookings.travelBuffer span * msPerMinute.
Proof.
  intros Hcall Hseconds.
  unfold Bookings.withTravel, bind, ret. rewrite Hcall. cbn [fst].
  unfold Bookings.travelBuffer, Bookings.spanStart, Bookings.spanEnd, addMinutes.
  split; [|split; lia].
  unfold MapsService.roundedTravelTime, MapsService.travelTimeMinutes.
  rewrite ceilDiv_nested. f_equal. f_equal.
  unfold MapsService.oneWaySeconds in *.
  destruct (duration_in_traffic travelData) as [inTraffic|]; [|reflexivity].
  destruct (Z.eqb_spec (value inTraffic) 0) as [Hzero|]; [|reflexivity].
  destruct Hseconds as [Hne|Hdur]; congruence.
Qed.

Lemma booking_buffer_agrees_with_service_witness :
  Bookings.travelBuffer
    (fst (Bookings.withTravel (mapsService Scenario.thursday) Scenario.jupiterHome
            (Scenario.at_ Scenario.monday (mkTime 10 0))
            (Scenario.at_ Scenario.monday (mkTime 11 0)) emptyWorld))
  = 30.
Proof.
  destruct (booking_buffer_agrees_with_service
              (mapsService Scenario.thursday) Scenario.jupiterHome
              (Scenario.at_ Scenario.monday (mkTime 10 0))
              (Scenario.at_ Scenario.monday (mkTime 11 0)) emptyWorld
              (snd (MapsService.calculateTravelTime
                      Scenario.thursday Scenario.jupiterHome
                      (Some (Scenario.at_ Scenario.monday (mkTime 10 0))) emptyWorld))
              (fst (MapsService.calculateTravelTime
                      Scenario.thursday Scenario.jupiterHome
                      (Some (Scenario.at_ Scenario.monday (mkTime 10 0))) emptyWorld)))
    as (Hbuffer & _ & _).
  - vm_compute. reflexivity.
  - left. vm_compute. discriminate.
  - rewrite Hbuffer. vm_compute. reflexivity.
Defined.

(** * Further properties of the calendar lookups *)

Lemma getPhotographersAvailability_lookup (e : Env) (emails : list string)
  (windowStart windowEnd : Z) (acc : gmap string (list Event)) :
  match MsGraphService.getPhotographersAvailability e emails windowStart windowEnd acc with
  | inr availabilityMap =>
      forall email,
        (In email emails ->
         exists events,
           MsGraphService.getUserAvailability e email windowStart windowEnd = inr events
           /\ availabilityMap !! email = Some events)
        /\ (~ In email emails -> availabilityMap !! email = acc !! email)
  | inl _ =>
      exists email err,
        In email emails
        /\ MsGraphService.getUserAvailability e email windowStart windowEnd = inl err
  end.
Proof.
  revert acc. induction emails as [|first rest IH]; intros acc; simpl.
  - intros email. split; [tauto|reflexivity].
  - destruct (MsGraphService.getUserAvailability e first windowStart windowEnd)
      as [err|events] eqn:Hfirst.
    + exists first, err. auto.
    + specialize (IH (<[first := events]> acc)).
      destruct (MsGraphService.getPhotographersAvailability _ _ _ _ _) as [err|m].
      * destruct IH as (email & err' & Hin & Hfail). exists email, err'. auto.
      * intros email. destruct (IH email) as [Hin Hout]. split.
        -- intros [<-|Hrest].
           ++ exists events. split; [exact Hfirst|].
              destruct (in_dec string_dec first rest) as [Hdup|Hfresh].
              ** destruct (Hin Hdup) as (events' & Hsame & Hlookup). congruence.
              ** rewrite (Hout Hfresh). apply lookup_insert_eq.
           ++ auto.
        -- intros Hnot. rewrite Hout by tauto.
           apply lookup_insert_ne. intros <-. tauto.
Qed.

(** The availability map holds, for every photographer asked for, the
    events of that photographer's calendar, and nothing for anybody else.
    The lookup as a whole fails when one of the calendars cannot be read:
    no partial map is returned. *)
Theorem availability_map_is_all_or_nothing (e : Env) (emails : list string)
  (windowStart windowEnd : Z) :
  match MsGraphService.getPhotographersAvailability e emails windowStart windowEnd ∅ with
  | inr availabilityMap =>
      forall email,
        (In email emails ->
         exists events,
           MsGraphService.getUserAvailability e email windowStart windowEnd = inr events
           /\ availabilityMap !! email = Some events)
        /\ (~ In email emails -> availabilityMap !! email = None)
  | inl _ =>
      exists email err,
        In email emails
        /\ MsGraphService.getUserAvailability e email windowStart windowEnd = inl err
  end.
Proof.
  pose proof (getPhotographersAvailability_lookup e emails windowStart windowEnd ∅) as H.
  destruct (MsGraphService.getPhotographersAvailability _ _ _ _ _); [exact H|].
  intros email. destruct (H email) as [Hin Hout]. split; [exact Hin|].
  intros Hnot. rewrite (Hout Hnot). apply lookup_empty.
Qed.

(** In mock mode every calendar is empty and no lookup fails. *)
Lemma mock_calendars_are_empty (e : Env) (email : string) (windowStart windowEnd : Z) :
  useMockMode e = true ->
  MsGraphService.getUserAvailability e email windowStart windowEnd = inr [].
Proof. intros H. unfold MsGraphService.getUserAvailability. now rewrite H. Qed.

(** * Further properties of the slot listing *)

(** ** Dates up to today *)

Lemma today_is_start_of_day (e : Env) :
  MsAvailability.today e
  = wallClock (serverZone e) (now e) / msPerDay * msPerDay - serverZone e * msPerMinute.
Proof. unfold MsAvailability.today, setHours4. lia. Qed.

Lemma past_or_today (e : Env) (d : CivilDate) :
  MsAvailability.isDateInPast e d || MsAvailability.isDateToday e d
  = (daysFromCivil d <=? wallClock (serverZone e) (now e) / msPerDay).
Proof.
  unfold MsAvailability.isDateInPast, MsAvailability.isDateToday.
  rewrite localMidnight_is_start_of_day, today_is_start_of_day.
  unfold localMidnight, msPerDay.
  destruct (Z.ltb_spec (daysFromCivil d * 86400000 - serverZone e * msPerMinute)
                       (wallClock (serverZone e) (now e) / 86400000 * 86400000
                        - serverZone e * msPerMinute)),
           (Z.eqb_spec (daysFromCivil d * 86400000 - serverZone e * msPerMinute)
                       (wallClock (serverZone e) (now e) / 86400000 * 86400000
                        - serverZone e * msPerMinute)),
           (Z.leb_spec (daysFromCivil d)
                       (wallClock (serverZone e) (now e) / 86400000));
    simpl; try reflexivity; lia.
Qed.

(** No slot is ever listed for a date up to and including the current
    date of the server's clock, at any time of day; the handler answers
    with the empty list before any lookup. *)
Theorem no_listing_up_to_today (e : Env) (maps : MapsServiceModule)
  (q : MsAvailability.Query) (d : CivilDate) (w : World) :
  MsAvailability.date q = Some d ->
  daysFromCivil d <= wallClock (serverZone e) (now e) / msPerDay ->
  MsAvailability.availability e maps q w = (MsAvailability.Json [], w).
Proof.
  intros Hq Hday%Z.leb_le. rewrite <- past_or_today in Hday.
  unfold MsAvailability.availability. rewrite Hq.
  destruct (MsAvailability.isDateInPast e d); [reflexivity|].
  simpl in Hday. now rewrite Hday.
Qed.

Lemma no_listing_up_to_today_witness :
  MsAvailability.availability
    Scenario.thursday (mapsService Scenario.thursday)
    (MsAvailability.mkQuery (Some (mkDate 2025 5 1)) None (Some "2500") None None)
    emptyWorld
  = (MsAvailability.Json [], emptyWorld).
Proof.
  apply (no_listing_up_to_today _ _ _ (mkDate 2025 5 1)).
  - reflexivity.
  - vm_compute. discriminate.
Defined.

(** ** What an offered slot guarantees *)

Lemma startTimes_in (first : Z) (n : nat) (s : Z) :
  In s (Spec.startTimes first n) ->
  exists k, 0 <= k < Z.of_nat n /\ s = first + 30 * k.
Proof.
  revert first. induction n as [|n IH]; intros first; simpl; [tauto|].
  intros [<-|Hin].
  - exists 0. lia.
  - destruct (IH _ Hin) as (k & Hk & ->). exists (k + 1). lia.
Qed.

Lemma Forall2_in_right {A B} (P : A -> B -> Prop) (l : list A) (k : list B) (y : B) :
  Forall2 P l k -> In y k -> exists x, In x l /\ P x y.
Proof.
  induction 1 as [|x y' l k Hxy _ IH]; simpl; [tauto|].
  intros [<-|Hin]; [eauto|].
  destruct (IH Hin) as (x' & ? & ?). eauto.
Qed.

Lemma sublist_in {A} (l k : list A) (x : A) : sublist l k -> In x l -> In x k.
Proof.
  induction 1 as [|y l k _ IH|y l k _ IH]; simpl; [tauto| |]; intuition.
Qed.

Section OfferedSlots.

Variable e : Env.
Variable maps : MapsServiceModule.
Variable q : MsAvailability.Query.
Variable formattedDate : CivilDate.
Variable msAvailability : gmap string (list Event).
Variables openMinutes closeMinutes durationMinutes travelTimeBuffer : Z.

Let fits := Facts.fullSpanFits openMinutes closeMinutes durationMinutes travelTimeBuffer.
Let free :=
  MsAvailability.isPhotographerAvailable e formattedDate msAvailability
                                         durationMinutes travelTimeBuffer.
Let passes :=
  MsAvailability.photographerPasses e maps q formattedDate msAvailability
                                    openMinutes closeMinutes durationMinutes
                                    travelTimeBuffer.
Let available :=
  MsAvailability.availablePhotographers e maps q formattedDate msAvailability
                                        openMinutes closeMinutes durationMinutes
                                        travelTimeBuffer.
Let candidate :=
  MsAvailability.candidate e maps q formattedDate msAvailability
                           openMinutes closeMinutes durationMinutes travelTimeBuffer.
Let slotsFrom :=
  MsAvailability.slotsFrom e maps q formattedDate msAvailability
                           openMinutes closeMinutes durationMinutes travelTimeBuffer.
Let offeredAt :=
  Facts.offeredAt e formattedDate msAvailability
                  openMinutes closeMinutes durationMinutes travelTimeBuffer.

Lemma photographerPasses_true (slotStart slotEndDate : Z) (email : string) (w : World) :
  fst (passes slotStart slotEndDate email w) = true ->
  fits slotStart /\ free slotStart email = true.
Proof.
  unfold passes, MsAvailability.photographerPasses, fits, Facts.fullSpanFits, free.
  destruct (Z.ltb_spec (MsAvailability.fullSlotStartMinutes travelTimeBuffer slotStart)
                       openMinutes); [discriminate|].
  destruct (Z.ltb_spec closeMinutes
                       (MsAvailability.fullSlotEndMinutes durationMinutes travelTimeBuffer
                                                          slotStart)); [discriminate|].
  cbn [orb].
  destruct (MsAvailability.isPhotographerAvailable _ _ _ _ _ _ _);
    [auto|].
  rewrite andb_false_r. discriminate.
Qed.

Lemma availablePhotographers_sound (slotStart slotEndDate : Z) (emails : list string)
  (w : World) (email : string) :
  In email (fst (available slotStart slotEndDate emails w)) ->
  In email emails /\ fits slotStart /\ free slotStart email = true.
Proof.
  revert w. induction emails as [|first rest IH]; intros w; simpl; [tauto|].
  unfold available in *. simpl. unfold bind, ret.
  destruct (MsAvailability.photographerPasses _ _ _ _ _ _ _ _ _ _ slotEndDate first w)
    as [pass w1] eqn:Hpass.
  specialize (IH w1).
  destruct (MsAvailability.availablePhotographers _ _ _ _ _ _ _ _ _ _ slotEndDate rest w1)
    as [others w2].
  simpl in *. intros Hin.
  assert (Hrest : In email others -> In email (first :: rest) /\ fits slotStart
                                     /\ free slotStart email = true)
    by (intros H; destruct (IH H) as (? & ? & ?); split; [right; assumption|auto]).
  destruct pass; [|auto].
  destruct Hin as [<-|Hin]; [|auto].
  split; [left; reflexivity|].
  apply (photographerPasses_true slotStart slotEndDate first w).
  unfold passes. now rewrite Hpass.
Qed.

Lemma candidate_sound (slotStart : Z) (w : World) (slot : MsAvailability.Slot) :
  fst (candidate slotStart w) = Some slot -> offeredAt slotStart slot.
Proof.
  unfold candidate, MsAvailability.candidate, bind, ret.
  destruct (MsAvailability.recalculatedEnd _ _ _ _ _ _ _ _ w) as [[slotEndDate|] w1];
    [|discriminate].
  pose proof (availablePhotographers_sound slotStart slotEndDate (photographers e) w1)
    as Hsound.
  unfold available in Hsound.
  destruct (MsAvailability.availablePhotographers _ _ _ _ _ _ _ _ _ _ _ _ w1)
    as [[|first others] w2]; [discriminate|].
  cbn [fst] in Hsound. cbn [fst].
  destruct (photographers e) as [|primary configured] eqn:Hconfigured.
  { destruct (Hsound first (or_introl eq_refl)) as [[] _]. }
  cbv zeta.
  destruct (existsb (String.eqb primary) (first :: others)) eqn:Hprimary;
    intros [= <-];
    unfold offeredAt, Facts.offeredAt;
    cbn [MsAvailability.start_time MsAvailability.end_time
         MsAvailability.photographer MsAvailability.is_primary head Js.orEmpty];
    (split; [reflexivity|]); (split; [reflexivity|]);
    rewrite Hconfigured; unfold fits, free in Hsound.
  - apply existsb_exists in Hprimary as (x & Hx & ->%String.eqb_eq).
    destruct (Hsound x Hx) as (Hin & Hfits & Hfree).
    repeat split; auto; apply Hfits.
  - destruct (Hsound first (or_introl eq_refl)) as (Hin & Hfits & Hfree).
    repeat split; auto; try apply Hfits; try discriminate.
    intros [= ->]. simpl in Hprimary. rewrite String.eqb_refl in Hprimary. discriminate.
Qed.

(** The slots of a run of the loop, in order, with the start times they
    were offered at: a sub-sequence of the grid of candidate starts. *)
Lemma slotsFrom_trace (bound : nat) (slotStart : Z) (w : World) :
  exists starts,
    sublist starts (Spec.startTimes slotStart bound)
    /\ Forall2 offeredAt starts (fst (slotsFrom bound slotStart w)).
Proof.
  revert slotStart w. induction bound as [|bound IH]; intros slotStart w.
  - exists []. split; constructor.
  - unfold slotsFrom. cbn [MsAvailability.slotsFrom Spec.startTimes]. fold slotsFrom.
    destruct (_ <=? closeMinutes).
    + unfold bind, ret.
      pose proof (candidate_sound slotStart w) as Hcandidate.
      unfold candidate in Hcandidate.
      destruct (MsAvailability.candidate _ _ _ _ _ _ _ _ _ slotStart w) as [offered w1].
      destruct (IH (slotStart + MsAvailability.slotInterval) w1) as (starts & Hsub & Hall).
      destruct (slotsFrom bound (slotStart + MsAvailability.slotInterval) w1)
        as [rest w2].
      unfold MsAvailability.slotInterval in *. simpl in *.
      destruct offered as [slot|].
      * exists (slotStart :: starts). split; [now constructor|].
        constructor; [now apply Hcandidate|exact Hall].
      * exists starts. split; [now constructor|exact Hall].
    + exists []. split; [apply sublist_nil_l|constructor].
Qed.

(** Every slot of the listing is offered at a start on the half-hour
    grid that begins at the opening time plus the travel buffer; its span
    widened by the travel buffer lies inside the operating hours; it goes
    to a configured photographer none of whose blocking events overlaps
    that widened span; and it is flagged primary exactly when that
    photographer is the first configured one. *)
Theorem offered_slots_fit_hours_and_calendars (w : World) (slot : MsAvailability.Slot) :
  In slot (fst (MsAvailability.availableTimeSlots
                  e maps q formattedDate msAvailability
                  openMinutes closeMinutes durationMinutes travelTimeBuffer w)) ->
  exists k, 0 <= k /\ offeredAt (openMinutes + travelTimeBuffer + 30 * k) slot.
Proof.
  unfold MsAvailability.availableTimeSlots. fold slotsFrom.
  set (first := openMinutes + travelTimeBuffer).
  set (bound := MsAvailability.iterations _ _ _ _).
  destruct (slotsFrom_trace bound first w) as (starts & Hsub & Hall).
  intros Hin.
  destruct (Forall2_in_right _ _ _ _ Hall Hin) as (s & Hs & Hoffered).
  pose proof (sublist_in _ _ _ Hsub Hs) as Hgrid.
  apply startTimes_in in Hgrid as (k & Hk & ->).
  exists k. split; [lia|exact Hoffered].
Qed.

(** The listing is in ascending order of start time and never offers a
    start twice: the start times of its slots, in order, are the times of
    a sub-sequence of the grid of candidate starts. *)
Theorem offered_slots_follow_the_grid (w : World) :
  exists starts,
    sublist starts
            (Spec.startTimes (openMinutes + travelTimeBuffer)
                             (MsAvailability.iterations closeMinutes durationMinutes
                                travelTimeBuffer (openMinutes + travelTimeBuffer)))
    /\ map MsAvailability.start_time
           (fst (MsAvailability.availableTimeSlots
                   e maps q formattedDate msAvailability
                   openMinutes closeMinutes durationMinutes travelTimeBuffer w))
       = map MsAvailability.minutesToTime starts.
Proof.
  unfold MsAvailability.availableTimeSlots. fold slotsFrom.
  set (first := openMinutes + travelTimeBuffer).
  set (bound := MsAvailability.iterations _ _ _ _).
  destruct (slotsFrom_trace bound first w) as (starts & Hsub & Hall).
  exists starts. split; [exact Hsub|].
  clear Hsub. induction Hall as [|s slot starts' slots' Hoffered _ IH']; [reflexivity|].
  simpl. destruct Hoffered as (-> & _). now f_equal.
Qed.

End OfferedSlots.

Lemma offered_slots_fit_hours_and_calendars_witness :
  exists k,
    0 <= k
    /\ Facts.offeredAt Scenario.mondayWithLunchShoot Scenario.monday
                       (<[Scenario.cory := [Scenario.lunchShoot]]> ∅)
                       (9 * 60) (17 * 60) 60 0 (9 * 60 + 0 + 30 * k)
                       (MsAvailability.mkSlot "11:00 AM" "12:00 PM" Scenario.cory true).
Proof.
  apply (offered_slots_fit_hours_and_calendars
           Scenario.mondayWithLunchShoot (mapsService Scenario.mondayWithLunchShoot)
           Scenario.sqft2500 Scenario.monday
           (<[Scenario.cory := [Scenario.lunchShoot]]> ∅)
           (9 * 60) (17 * 60) 60 0 emptyWorld).
  vm_compute. do 4 right. left. reflexivity.
Defined.

(** ** The primary photographer *)

(** When the first configured photographer passes the checks of a
    candidate start, the slot is offered, goes to that photographer and is
    flagged primary, whoever else is available. *)
Theorem primary_photographer_is_preferred (e : Env) (maps : MapsServiceModule)
  (q : MsAvailability.Query) (d : CivilDate) (m : gmap string (list Event))
  (openMinutes closeMinutes durationMinutes travelTimeBuffer slotStart slotEndDate : Z)
  (primary : string) (others : list string) (w w1 : World) :
  photographers e = primary :: others ->
  MsAvailability.recalculatedEnd e maps q d closeMinutes durationMinutes travelTimeBuffer
                                 slotStart w = (Some slotEndDate, w1) ->
  fst (MsAvailability.photographerPasses e maps q d m openMinutes closeMinutes
                                         durationMinutes travelTimeBuffer slotStart
                                         slotEndDate primary w1) = true ->
  fst (MsAvailability.candidate e maps q d m openMinutes closeMinutes durationMinutes
                                travelTimeBuffer slotStart w)
  = Some (MsAvailability.mkSlot
            (MsAvailability.minutesToTime slotStart)
            (MsAvailability.minutesToTime
               (MsAvailability.slotEnd durationMinutes travelTimeBuffer slotStart))
            primary true).
Proof.
  intros Hconfigured Hend Hpass.
  unfold MsAvailability.candidate, bind, ret. rewrite Hend, Hconfigured.
  cbn [MsAvailability.availablePhotographers]. unfold bind, ret.
  destruct (MsAvailability.photographerPasses _ _ _ _ _ _ _ _ _ _ slotEndDate primary w1)
    as [pass w2].
  simpl in Hpass. subst pass.
  destruct (MsAvailability.availablePhotographers _ _ _ _ _ _ _ _ _ _ slotEndDate others w2)
    as [rest w3].
  cbn [fst existsb head Js.orEmpty]. now rewrite String.eqb_refl.
Qed.

Lemma primary_photographer_is_preferred_witness :
  fst (MsAvailability.candidate
         Scenario.thursday (mapsService Scenario.thursday) Scenario.sqft2500
         Scenario.monday ∅ (9 * 60) (17 * 60) 60 0 (9 * 60) emptyWorld)
  = Some (MsAvailability.mkSlot "9:00 AM" "10:00 AM" Scenario.cory true).
Proof.
  apply (primary_photographer_is_preferred
           Scenario.thursday (mapsService Scenario.thursday) Scenario.sqft2500
           Scenario.monday ∅ (9 * 60) (17 * 60) 60 0 (9 * 60)
           (Scenario.at_ Scenario.monday (mkTime 10 0)) Scenario.cory [] emptyWorld
           emptyWorld); reflexivity.
Defined.

(** * What never touches the calendar *)

Lemma keeps_ret {A} (a : A) : Facts.keepsCalendar (ret a).
Proof. intros w. reflexivity. Qed.

Lemma keeps_gets {A} (f : World -> A) : Facts.keepsCalendar (gets f).
Proof. intros w. reflexivity. Qed.

Lemma keeps_bind {A B} (m : M A) (k : A -> M B) :
  Facts.keepsCalendar m -> (forall a, Facts.keepsCalendar (k a)) ->
  Facts.keepsCalendar (bind m k).
Proof.
  intros Hm Hk w. unfold bind. specialize (Hm w).
  destruct (m w) as [a w1]. simpl in Hm. now rewrite Hk.
Qed.

Lemma keeps_set_travelTimeCache (k : string) (v : Z * TravelData) :
  Facts.keepsCalendar (set_travelTimeCache k v).
Proof. intros w. reflexivity. Qed.

Lemma keeps_set_travelBufferCache (k : string) (v : Z * Z) :
  Facts.keepsCalendar (set_travelBufferCache k v).
Proof. intros w. reflexivity. Qed.

Lemma keeps_set_geocodeCache (k : string) (v : LatLng) :
  Facts.keepsCalendar (set_geocodeCache k v).
Proof. intros w. reflexivity. Qed.

Lemma keeps_log_route (r : RouteRequest) : Facts.keepsCalendar (log_route r).
Proof. intros w. reflexivity. Qed.

Create HintDb keeps.

#[local] Hint Resolve keeps_ret keeps_gets keeps_set_travelTimeCache
  keeps_set_travelBufferCache keeps_set_geocodeCache keeps_log_route : keeps.

(** Goes through binds, conditionals and matches, and closes the leaves
    with the lemmas of the database. *)
Ltac keeps :=
  repeat first
    [ solve [auto with keeps]
    | apply keeps_bind; [|intros ?]
    | match goal with
      | |- Facts.keepsCalendar (if ?b then _ else _) => destruct b
      | |- Facts.keepsCalendar (match ?x with _ => _ end) => destruct x
      | |- Facts.keepsCalendar (let '(_, _) := ?x in _) => destruct x
      end ].

Lemma keeps_addressToLatLng (e : Env) (address : string) :
  Facts.keepsCalendar (MapsService.addressToLatLng e address).
Proof. unfold MapsService.addressToLatLng. keeps. Qed.

Lemma keeps_travelTimeFallback (e : Env) (address : string) (t : option Z) :
  Facts.keepsCalendar (MapsService.travelTimeFallback e address t).
Proof. unfold MapsService.travelTimeFallback. keeps. Qed.

#[local] Hint Resolve keeps_addressToLatLng keeps_travelTimeFallback : keeps.

Lemma keeps_requestRoute (e : Env) (address : string) (t : option Z) (key : string) :
  Facts.keepsCalendar (MapsService.requestRoute e address t key).
Proof. unfold MapsService.requestRoute. keeps. Qed.

#[local] Hint Resolve keeps_requestRoute : keeps.

Lemma keeps_calculateTravelTime (e : Env) (address : string) (t : option Z) :
  Facts.keepsCalendar (MapsService.calculateTravelTime e address t).
Proof. unfold MapsService.calculateTravelTime. keeps. Qed.

#[local] Hint Resolve keeps_calculateTravelTime : keeps.

Lemma keeps_calculateTravelTimeBuffer (e : Env) (address : string) (t : option Z) :
  Facts.keepsCalendar (MapsService.calculateTravelTimeBuffer e address t).
Proof. unfold MapsService.calculateTravelTimeBuffer. keeps. Qed.

#[local] Hint Resolve keeps_calculateTravelTimeBuffer : keeps.

Lemma keeps_getTravelEventDetails (e : Env) (address : string) (t : Z) (to : bool) :
  Facts.keepsCalendar (MapsService.getTravelEventDetails e address t to).
Proof. unfold MapsService.getTravelEventDetails. keeps. Qed.

#[local] Hint Resolve keeps_getTravelEventDetails : keeps.

Lemma keeps_returning {A} (m : M A) :
  Facts.keepsCalendar m -> Facts.keepsCalendar (returning m).
Proof. intros H. unfold returning. keeps. Qed.

Lemma quiet_mapsService (e : Env) : Facts.quiet (mapsService e).
Proof.
  repeat split; intros; simpl; apply keeps_returning; auto with keeps.
Qed.

Section QuietListing.

Variable e : Env.
Variable maps : MapsServiceModule.
Hypothesis quiet_maps : Facts.quiet maps.

Lemma keeps_buffer_of_maps (address : string) (t : option Z) :
  Facts.keepsCalendar (calculateTravelTimeBuffer maps address t).
Proof using quiet_maps. apply quiet_maps. Qed.

Hint Resolve keeps_buffer_of_maps : keeps.

Lemma keeps_calculateDuration (squareFootage propertyPrice propertyAddress : option string)
  (bookingDateTime : option Z) :
  Facts.keepsCalendar
    (MsAvailability.calculateDurationFromSquareFootage
       maps squareFootage propertyPrice propertyAddress bookingDateTime).
Proof using quiet_maps.
  unfold MsAvailability.calculateDurationFromSquareFootage. cbv zeta. keeps.
Qed.

Hint Resolve keeps_calculateDuration : keeps.

Lemma keeps_requestDuration (q : MsAvailability.Query) :
  Facts.keepsCalendar (MsAvailability.requestDuration maps q).
Proof using quiet_maps. unfold MsAvailability.requestDuration. keeps. Qed.

Lemma keeps_requestTravelBuffer (q : MsAvailability.Query) :
  Facts.keepsCalendar (MsAvailability.requestTravelBuffer maps q).
Proof using quiet_maps. unfold MsAvailability.requestTravelBuffer. keeps. Qed.

Hint Resolve keeps_requestDuration keeps_requestTravelBuffer : keeps.

Section Candidate.

Variable q : MsAvailability.Query.
Variable d : CivilDate.
Variable m : gmap string (list Event).
Variables openMinutes closeMinutes durationMinutes travelTimeBuffer : Z.

Lemma keeps_recalculatedEnd (slotStart : Z) :
  Facts.keepsCalendar
    (MsAvailability.recalculatedEnd e maps q d closeMinutes durationMinutes
                                    travelTimeBuffer slotStart).
Proof using quiet_maps. unfold MsAvailability.recalculatedEnd. cbv zeta. keeps. Qed.

Lemma keeps_hasSufficientTravelTime (slotStart : Z) (email : string) (slotEndDate : Z) :
  Facts.keepsCalendar
    (MsAvailability.hasSufficientTravelTime e maps q d m slotStart email slotEndDate).
Proof using quiet_maps.
  unfold MsAvailability.hasSufficientTravelTime, MsAvailability.sufficientTravelBefore,
    MsAvailability.sufficientTravelAfter.
  cbv zeta. keeps.
Qed.

Hint Resolve keeps_recalculatedEnd keeps_hasSufficientTravelTime : keeps.

Lemma keeps_photographerPasses (slotStart slotEndDate : Z) (email : string) :
  Facts.keepsCalendar
    (MsAvailability.photographerPasses e maps q d m openMinutes closeMinutes
                                       durationMinutes travelTimeBuffer slotStart
                                       slotEndDate email).
Proof using quiet_maps. unfold MsAvailability.photographerPasses. keeps. Qed.

Hint Resolve keeps_photographerPasses : keeps.

Lemma keeps_availablePhotographers (slotStart slotEndDate : Z) (emails : list string) :
  Facts.keepsCalendar
    (MsAvailability.availablePhotographers e maps q d m openMinutes closeMinutes
                                           durationMinutes travelTimeBuffer slotStart
                                           slotEndDate emails).
Proof using quiet_maps.
  induction emails as [|email rest IH]; cbn [MsAvailability.availablePhotographers]; keeps.
Qed.

Hint Resolve keeps_availablePhotographers : keeps.

Lemma keeps_candidate (slotStart : Z) :
  Facts.keepsCalendar
    (MsAvailability.candidate e maps q d m openMinutes closeMinutes durationMinutes
                              travelTimeBuffer slotStart).
Proof using quiet_maps. unfold MsAvailability.candidate. cbv zeta. keeps. Qed.

Hint Resolve keeps_candidate : keeps.

Lemma keeps_slotsFrom (bound : nat) (slotStart : Z) :
  Facts.keepsCalendar
    (MsAvailability.slotsFrom e maps q d m openMinutes closeMinutes durationMinutes
                              travelTimeBuffer bound slotStart).
Proof using quiet_maps.
  revert slotStart.
  induction bound as [|bound IH]; intros slotStart; cbn [MsAvailability.slotsFrom]; keeps.
Qed.

End Candidate.

Hint Resolve keeps_slotsFrom : keeps.

Lemma keeps_slotsForDate (q : MsAvailability.Query) (d : CivilDate) :
  Facts.keepsCalendar (MsAvailability.slotsForDate e maps q d).
Proof using quiet_maps.
  unfold MsAvailability.slotsForDate, MsAvailability.availableTimeSlots. cbv zeta. keeps.
Qed.

Lemma keeps_availability (q : MsAvailability.Query) :
  Facts.keepsCalendar (MsAvailability.availability e maps q).
Proof using quiet_maps.
  pose proof keeps_slotsForDate.
  unfold MsAvailability.availability. keeps.
Qed.

Lemma keeps_withTravel (fullAddress : string) (startDateTime endDateTime : Z) :
  Facts.keepsCalendar (Bookings.withTravel maps fullAddress startDateTime endDateTime).
Proof using quiet_maps.
  pose proof (proj1 quiet_maps).
  unfold Bookings.withTravel. cbv zeta. keeps.
Qed.

(** A booking that is refused, for whatever reason, leaves the calendar
    as it was: the three events are written only after every check has
    passed. *)
Lemma refused_booking_keeps_calendar (body : Bookings.Body) (w : World)
  (code : Z) (message : string) :
  fst (Bookings.createBooking e maps body w) = Bookings.Status code message ->
  calendarLog (snd (Bookings.createBooking e maps body w)) = calendarLog w.
Proof using quiet_maps.
  unfold Bookings.createBooking.
  destruct (Bookings.booking_date body); [|reflexivity].
  destruct (Bookings.start_time body); [|reflexivity].
  destruct (Bookings.end_time body); [|reflexivity].
  destruct (_ || _); [reflexivity|].
  destruct (photographers e); [reflexivity|].
  destruct (_ && _); [reflexivity|].
  unfold bind.
  pose proof (keeps_withTravel
                (Bookings.fullAddress body)
                (localDateTime (serverZone e) c t) (localDateTime (serverZone e) c t0) w)
    as Htravel.
  destruct (Bookings.withTravel _ _ _ _ w) as [span w1]. simpl in Htravel.
  destruct (MsGraphService.getPhotographersAvailability _ _ _ _ _); [exact (fun _ => Htravel)|].
  destruct (queryOperatingHours _ _) as [?|[|row rest]]; try exact (fun _ => Htravel).
  destruct (_ || _); [exact (fun _ => Htravel)|].
  destruct (Bookings.hasConflict _ _ _); [exact (fun _ => Htravel)|].
  destruct (Bookings.createEvents _ _ _ _ w1) as [[[travelTo appointment] travelFrom] w2].
  discriminate.
Qed.

End QuietListing.

(** The slot listing reads the calendars and never writes to them:
    whatever the request and the state, the trace of calendar writes is the
    same after the handler as before. *)
Theorem listing_never_writes_the_calendar (e : Env) (q : MsAvailability.Query) (w : World) :
  calendarLog (snd (MsAvailability.availability e (mapsService e) q w)) = calendarLog w.
Proof. apply keeps_availability, quiet_mapsService. Qed.

(** A refused booking changes nothing in the calendar: when the handler
    answers with an error status, no event has been written. *)
Theorem refused_booking_writes_nothing (e : Env) (body : Bookings.Body) (w : World)
  (code : Z) (message : string) :
  fst (Bookings.createBooking e (mapsService e) body w) = Bookings.Status code message ->
  calendarLog (snd (Bookings.createBooking e (mapsService e) body w)) = calendarLog w.
Proof. apply refused_booking_keeps_calendar, quiet_mapsService. Qed.

Lemma refused_booking_writes_nothing_witness :
  calendarLog (snd (Bookings.createBooking Scenario.mondayTaken
                                           (mapsService Scenario.mondayTaken)
                                           Scenario.mondayTen emptyWorld))
  = [].
Proof.
  apply (refused_booking_writes_nothing
           Scenario.mondayTaken Scenario.mondayTen emptyWorld
           409 "This time slot is no longer available").
  vm_compute. reflexivity.
Defined.

(** * Further properties of the duration policy *)

Lemma duration_without_address (maps : MapsServiceModule)
  (squareFootage propertyPrice propertyAddress : option string)
  (bookingDateTime : option Z) (w : World) :
  Js.truthy propertyAddress = false ->
  MsAvailability.calculateDurationFromSquareFootage
    maps squareFootage propertyPrice propertyAddress bookingDateTime w
  = (Spec.baseMinutes (squareFootage ≫= Js.parseInt)
     + Spec.priceSurchargeMinutes (Spec.priceOf propertyPrice), w).
Proof.
  intros Haddress. unfold MsAvailability.calculateDurationFromSquareFootage.
  cbv zeta. rewrite base_duration_refines, price_addition_refines, Haddress.
  reflexivity.
Qed.

Lemma baseMinutes_monotone (n n' : Z) :
  n <= n' -> Spec.baseMinutes (Some n) <= Spec.baseMinutes (Some n').
Proof.
  intros Hle. unfold Spec.baseMinutes.
  destruct (Z.ltb_spec n 3000), (Z.ltb_spec n' 3000),
           (Z.leb_spec n 3999), (Z.leb_spec n' 3999); lia.
Qed.

Lemma priceSurcharge_monotone (p p' : Z) :
  p <= p' -> Spec.priceSurchargeMinutes (Some p) <= Spec.priceSurchargeMinutes (Some p').
Proof.
  intros Hle. unfold Spec.priceSurchargeMinutes.
  destruct (Z.leb_spec 5000000 p), (Z.leb_spec 5000000 p'),
           (Z.leb_spec 1000000 p), (Z.leb_spec 1000000 p'),
           (Z.ltb_spec p 5000000), (Z.ltb_spec p' 5000000); simpl; lia.
Qed.

(** Without an address the duration never goes down when the property
    gets larger or dearer: for two requests whose square footages and
    prices are readable numbers in the same order, the durations are in
    that order too. *)
Theorem duration_grows_with_size_and_price (maps : MapsServiceModule)
  (squareFootage squareFootage' propertyPrice propertyPrice' : string)
  (sqft sqft' price price' : Z) (w w' : World) :
  Js.parseInt squareFootage = Some sqft ->
  Js.parseInt squareFootage' = Some sqft' ->
  propertyPrice <> "" -> propertyPrice' <> "" ->
  Js.parseInt (Js.removeCommas propertyPrice) = Some price ->
  Js.parseInt (Js.removeCommas propertyPrice') = Some price' ->
  sqft <= sqft' -> price <= price' ->
  fst (MsAvailability.calculateDurationFromSquareFootage
         maps (Some squareFootage) (Some propertyPrice) None None w)
  <= fst (MsAvailability.calculateDurationFromSquareFootage
            maps (Some squareFootage') (Some propertyPrice') None None w').
Proof.
  intros Hsqft Hsqft' Hgiven Hgiven' Hprice Hprice' Hsize Hcost.
  rewrite !duration_without_address by reflexivity. simpl.
  unfold Spec.priceOf, Js.truthy, Js.orEmpty.
  destruct (String.eqb_spec propertyPrice ""); [contradiction|].
  destruct (String.eqb_spec propertyPrice' ""); [contradiction|].
  cbn [negb].
  rewrite Hsqft, Hsqft', Hprice, Hprice'.
  pose proof (baseMinutes_monotone sqft sqft' Hsize).
  pose proof (priceSurcharge_monotone price price' Hcost). lia.
Qed.

Lemma duration_grows_with_size_and_price_witness :
  fst (MsAvailability.calculateDurationFromSquareFootage
         (mapsService Scenario.thursday) (Some "2999") (Some "999,999") None None
         emptyWorld)
  <= fst (MsAvailability.calculateDurationFromSquareFootage
            (mapsService Scenario.thursday) (Some "3000") (Some "1,000,000") None None
            emptyWorld).
Proof.
  apply (duration_grows_with_size_and_price
           (mapsService Scenario.thursday) "2999" "3000" "999,999" "1,000,000"
           2999 3000 999999 1000000); try reflexivity; try discriminate; lia.
Defined.

Lemma baseMinutes_half_hours (sqft : option Z) : Spec.baseMinutes sqft mod 30 = 0.
Proof.
  unfold Spec.baseMinutes. destruct sqft as [n|]; [|reflexivity].
  destruct (n <? 3000); [reflexivity|]. destruct (n <=? 3999); reflexivity.
Qed.

Lemma priceSurcharge_half_hours (price : option Z) :
  Spec.priceSurchargeMinutes price mod 30 = 0.
Proof.
  unfold Spec.priceSurchargeMinutes. destruct price as [p|]; [|reflexivity].
  destruct (5000000 <=? p); [reflexivity|]. destruct (_ && _); reflexivity.
Qed.

Lemma sum_half_hours (a b : Z) : a mod 30 = 0 -> b mod 30 = 0 -> (a + b) mod 30 = 0.
Proof.
  intros Ha Hb. rewrite Z.add_mod by lia. now rewrite Ha, Hb.
Qed.

Lemma calculateDuration_half_hours (e : Env)
  (squareFootage propertyPrice propertyAddress : option string)
  (bookingDateTime : option Z) (w : World) :
  buffersRounded w ->
  fst (MsAvailability.calculateDurationFromSquareFootage
         (mapsService e) squareFootage propertyPrice propertyAddress bookingDateTime w)
    mod 30 = 0
  /\ buffersRounded
       (snd (MsAvailability.calculateDurationFromSquareFootage
               (mapsService e) squareFootage propertyPrice propertyAddress
               bookingDateTime w)).
Proof.
  intros Hw. unfold MsAvailability.calculateDurationFromSquareFootage.
  cbv zeta. rewrite base_duration_refines, price_addition_refines.
  pose proof (sum_half_hours _ _ (baseMinutes_half_hours (squareFootage ≫= Js.parseInt))
                             (priceSurcharge_half_hours (Spec.priceOf propertyPrice)))
    as Hbase.
  destruct (Js.truthy propertyAddress); [|split; [exact Hbase|exact Hw]].
  unfold bind, ret, mapsService, returning, bind, ret.
  cbn [calculateTravelTimeBuffer].
  destruct (calculateTravelTimeBuffer_rounded e (Js.orEmpty propertyAddress)
                                              bookingDateTime w Hw) as [Hbuffer Hw1].
  destruct (MapsService.calculateTravelTimeBuffer e _ bookingDateTime w) as [buffer w1].
  simpl in *. split; [|exact Hw1].
  apply sum_half_hours; [exact Hbase|].
  rewrite Z.mul_comm, Z.mul_mod, Hbuffer by lia. reflexivity.
Qed.

(** In every state whose cached buffers are multiples of thirty (the
    empty cache is one) the duration chosen for a request is a whole number
    of half hours, and the state is again such a state; so every
    appointment ends on the grid it starts on. *)
Theorem request_duration_is_whole_half_hours (e : Env) (q : MsAvailability.Query)
  (w : World) :
  buffersRounded w ->
  fst (MsAvailability.requestDuration (mapsService e) q w) mod 30 = 0
  /\ buffersRounded (snd (MsAvailability.requestDuration (mapsService e) q w)).
Proof.
  intros Hw. unfold MsAvailability.requestDuration.
  destruct (Js.truthy (MsAvailability.square_footage q));
    [now apply calculateDuration_half_hours|].
  destruct (Js.truthy (MsAvailability.service_type q)); [|split; [reflexivity|exact Hw]].
  destruct (String.eqb _ "standard"); [split; [reflexivity|exact Hw]|].
  destruct (String.eqb _ "extended"); split; try reflexivity; exact Hw.
Qed.

Lemma request_duration_is_whole_half_hours_witness :
  fst (MsAvailability.requestDuration
         (mapsService Scenario.thursday)
         (MsAvailability.mkQuery (Some Scenario.monday) None (Some "3500")
                                 (Some "1,200,000") (Some Scenario.jupiterHome))
         emptyWorld) mod 30 = 0.
Proof.
  apply (request_duration_is_whole_half_hours Scenario.thursday).
  intros key timestamp buffer H.
  change (travelBufferCache emptyWorld) with (∅ : gmap string (Z * Z)) in H.
  rewrite lookup_empty in H. discriminate.
Defined.

(** * Further properties of the booking handler *)


Lemma getTravelEventDetails_touches (e : Env) (address : string) (t : Z)
  (isTravelTo : bool) (w : World) :
  let details := fst (MapsService.getTravelEventDetails e address t isTravelTo w) in
  (if isTravelTo then endTime details else startTime details) = t
  /\ endTime details - startTime details
     = fst (MapsService.calculateTravelTimeBuffer e address (Some t) w) * msPerMinute.
Proof.
  unfold MapsService.getTravelEventDetails, bind, ret.
  destruct (MapsService.calculateTravelTimeBuffer e address (Some t) w) as [buffer w1].
  destruct isTravelTo; simpl; unfold msPerMinute; split; lia.
Qed.

Lemma createCalendarEvent_logs (e : Env) (user : string) (details : EventDetails)
  (w : World) :
  useMockMode e = false ->
  (exists created, createEvent e user details = Some created) ->
  exists created,
    MsGraphService.createCalendarEvent e user details w
    = (inr created,
       mkWorld (travelTimeCache w) (travelBufferCache w) (geocodeCache w) (routeLog w)
               (calendarLog w ++ [(user, details)])).
Proof.
  intros Hlive [created Hcreated]. exists created.
  unfold MsGraphService.createCalendarEvent. now rewrite Hlive, Hcreated.
Qed.

(** When the calendar accepts every write, a booking adds exactly three
    events to the calendar of the selected photographer, in this order:
    the travel to the property, the appointment, the travel back.  The
    first ends when the appointment starts and is as long as the travel
    buffer of the property at that time; the last starts when the
    appointment ends. *)
Theorem three_events_are_written_in_order (e : Env) (selected : string)
  (bookingData : BookingData) (w : World) :
  useMockMode e = false ->
  (forall details, exists created, createEvent e selected details = Some created) ->
  exists travelTo travelFrom,
    calendarLog (snd (Bookings.createEvents e (mapsService e) selected bookingData w))
    = (calendarLog w
       ++ [(selected, travelTo);
           (selected, MsGraphService.formatClientCalendarEvent bookingData);
           (selected, travelFrom)])%list
    /\ ed_end travelTo = startDateTime bookingData
    /\ ed_start travelFrom = endDateTime bookingData
    /\ ed_end travelTo - ed_start travelTo
       = fst (MapsService.calculateTravelTimeBuffer
                e (location bookingData) (Some (startDateTime bookingData)) w)
         * msPerMinute
    /\ ed_start (MsGraphService.formatClientCalendarEvent bookingData)
       = startDateTime bookingData
    /\ ed_end (MsGraphService.formatClientCalendarEvent bookingData)
       = endDateTime bookingData.
Proof.
  intros Hlive Haccepts.
  unfold Bookings.createEvents, bind, ret.
  cbn [getTravelEventDetails mapsService]. unfold returning, bind, ret.
  pose proof (keeps_getTravelEventDetails e (location bookingData)
                (startDateTime bookingData) true w) as Hquiet1.
  pose proof (getTravelEventDetails_touches e (location bookingData)
                (startDateTime bookingData) true w) as [Hend1 Hlength1].
  destruct (MapsService.getTravelEventDetails e (location bookingData)
              (startDateTime bookingData) true w) as [toData w1].
  cbn [fst snd] in *.
  destruct (createCalendarEvent_logs
              e selected
              (MsGraphService.formatTravelCalendarEvent toData bookingData true) w1
              Hlive (Haccepts _)) as [c1 ->].
  destruct (createCalendarEvent_logs
              e selected (MsGraphService.formatClientCalendarEvent bookingData)
              (mkWorld (travelTimeCache w1) (travelBufferCache w1) (geocodeCache w1)
                       (routeLog w1)
                       (calendarLog w1
                        ++ [(selected,
                             MsGraphService.formatTravelCalendarEvent toData bookingData
                                                                      true)]))
              Hlive (Haccepts _)) as [c2 ->].
  match goal with
  | |- context [MapsService.getTravelEventDetails e ?a ?t false ?w0] =>
      pose proof (keeps_getTravelEventDetails e a t false w0) as Hquiet2;
      pose proof (getTravelEventDetails_touches e a t false w0) as [Hstart2 _];
      destruct (MapsService.getTravelEventDetails e a t false w0) as [fromData w2]
  end.
  cbn [fst snd calendarLog] in *.
  destruct (createCalendarEvent_logs
              e selected
              (MsGraphService.formatTravelCalendarEvent fromData bookingData false) w2
              Hlive (Haccepts _)) as [c3 ->].
  exists (MsGraphService.formatTravelCalendarEvent toData bookingData true),
         (MsGraphService.formatTravelCalendarEvent fromData bookingData false).
  cbn [snd calendarLog]. rewrite Hquiet2, Hquiet1.
  split; [now rewrite <- !app_assoc|].
  split; [exact Hend1|]. split; [exact Hstart2|].
  split; [exact Hlength1|split; reflexivity].
Qed.

Lemma three_events_are_written_in_order_witness :
  let bookingData :=
    mkBookingData "Ann Lee" "ann@example.com" "" "Session" Scenario.jupiterHome
                  (Scenario.at_ Scenario.monday (mkTime 10 0))
                  (Scenario.at_ Scenario.monday (mkTime 11 0)) "" in
  exists travelTo travelFrom,
    calendarLog (snd (Bookings.createEvents Scenario.thursday
                        (mapsService Scenario.thursday) Scenario.cory bookingData
                        emptyWorld))
    = (calendarLog emptyWorld
       ++ [(Scenario.cory, travelTo);
           (Scenario.cory, MsGraphService.formatClientCalendarEvent bookingData);
           (Scenario.cory, travelFrom)])%list
    /\ ed_end travelTo = startDateTime bookingData
    /\ ed_start travelFrom = endDateTime bookingData
    /\ ed_end travelTo - ed_start travelTo
       = fst (MapsService.calculateTravelTimeBuffer
                Scenario.thursday (location bookingData)
                (Some (startDateTime bookingData)) emptyWorld)
         * msPerMinute
    /\ ed_start (MsGraphService.formatClientCalendarEvent bookingData)
       = startDateTime bookingData
    /\ ed_end (MsGraphService.formatClientCalendarEvent bookingData)
       = endDateTime bookingData.
Proof.
  intro bookingData.
  apply (three_events_are_written_in_order Scenario.thursday Scenario.cory bookingData
                                           emptyWorld).
  - reflexivity.
  - intro details. eexists. reflexivity.
Defined.

(** * The dates of a range *)

Lemma daysFromCivil_civilFromDays (z : Z) : daysFromCivil (civilFromDays z) = z.
Proof.
  unfold civilFromDays, daysFromCivil. cbn [year month day].
  set (era := (z + 719468) / 146097).
  set (doe := z + 719468 - era * 146097).
  assert (Hdoe : 0 <= doe < 146097)
    by (unfold doe, era; Z.to_euclidean_division_equations; lia).
  assert (Hyoe : 0 <= yearOfEra doe < 400)
    by (unfold yearOfEra; Z.to_euclidean_division_equations; lia).
  assert (Hdoy : 0 <= dayOfYear doe < 366)
    by (unfold dayOfYear, yearOfEra; Z.to_euclidean_division_equations; lia).
  unfold dayOfYear in *.
  set (yoe := yearOfEra doe) in *.
  set (doy := doe - (365 * yoe + yoe / 4 - yoe / 100)) in *.
  set (mp := (5 * doy + 2) / 153).
  assert (Hmp : 0 <= mp < 12) by (unfold mp; Z.to_euclidean_division_equations; lia).
  set (m := if mp <? 10 then mp + 3 else mp - 9).
  assert (Hm : (m + 9) mod 12 = mp)
    by (unfold m; destruct (Z.ltb_spec mp 10); Z.to_euclidean_division_equations; lia).
  assert (Hy : (if m <=? 2
                then (if m <=? 2 then yoe + era * 400 + 1 else yoe + era * 400) - 1
                else (if m <=? 2 then yoe + era * 400 + 1 else yoe + era * 400))
               = yoe + era * 400)
    by (destruct (m <=? 2); lia).
  rewrite Hy, Hm.
  assert (Hera : (yoe + era * 400) / 400 = era)
    by (Z.to_euclidean_division_equations; lia).
  rewrite Hera.
  replace (yoe + era * 400 - era * 400) with yoe by lia.
  unfold doy, doe. lia.
Qed.

Lemma datesFrom_days (bound : nat) (first last : Z) :
  bound = Z.to_nat (last - first + 1) ->
  map (fun date => daysFromCivil (isoDate date))
      (MsAvailabilityDates.datesFrom bound (first * msPerDay) (last * msPerDay))
  = seqZ first (last - first + 1).
Proof.
  revert first. induction bound as [|bound IH]; intros first Hbound.
  - simpl. rewrite seqZ_nil; [reflexivity|lia].
  - cbn [MsAvailabilityDates.datesFrom].
    destruct (Z.leb_spec (first * msPerDay) (last * msPerDay)) as [Hle|Hgt];
      unfold msPerDay in *; [|lia].
    rewrite seqZ_cons by lia. cbn [map]. f_equal.
    + unfold isoDate, msPerDay. rewrite Z.div_mul by lia.
      apply daysFromCivil_civilFromDays.
    + replace (first * 86400000 + 86400000) with ((first + 1) * 86400000) by lia.
      fold msPerDay. rewrite IH by lia.
      f_equal; lia.
Qed.

Lemma getDatesInRange_days (startDate endDate : CivilDate) :
  map (fun date => daysFromCivil (isoDate date))
      (MsAvailabilityDates.getDatesInRange startDate endDate)
  = seqZ (daysFromCivil startDate) (daysFromCivil endDate - daysFromCivil startDate + 1).
Proof.
  unfold MsAvailabilityDates.getDatesInRange, utcDateTime, localDateTime, localMidnight.
  cbn [hours minutes].
  replace (daysFromCivil startDate * msPerDay - 0 * msPerMinute + 0 * msPerHour
           + 0 * msPerMinute) with (daysFromCivil startDate * msPerDay) by lia.
  replace (daysFromCivil endDate * msPerDay - 0 * msPerMinute + 0 * msPerHour
           + 0 * msPerMinute) with (daysFromCivil endDate * msPerDay) by lia.
  apply datesFrom_days.
  replace (daysFromCivil endDate * msPerDay - daysFromCivil startDate * msPerDay)
    with ((daysFromCivil endDate - daysFromCivil startDate) * msPerDay) by lia.
  rewrite Z.div_mul by (unfold msPerDay; lia). reflexivity.
Qed.

(** The dates examined for a range are the days from the start date to
    the end date, both included, one after the other; there is none when
    the end date precedes the start date. *)
Theorem range_runs_day_by_day (startDate endDate : CivilDate) :
  map (fun date => daysFromCivil (isoDate date))
      (MsAvailabilityDates.getDatesInRange startDate endDate)
  = seqZ (daysFromCivil startDate) (daysFromCivil endDate - daysFromCivil startDate + 1)
  /\ (daysFromCivil endDate < daysFromCivil startDate ->
      MsAvailabilityDates.getDatesInRange startDate endDate = []).
Proof.
  split; [apply getDatesInRange_days|].
  intros Hbefore. pose proof (getDatesInRange_days startDate endDate) as Hdays.
  rewrite seqZ_nil in Hdays by lia.
  now destruct (MsAvailabilityDates.getDatesInRange startDate endDate).
Qed.

(** ** The dates listed *)



Lemma availableDatesOf_listed (e : Env) (duration : Z) (dates : list Z)
  (listed : list CivilDate) (d : CivilDate) :
  MsAvailabilityDates.availableDatesOf e duration dates = inr listed ->
  In d listed ->
  MsAvailabilityDates.dateIsAvailable e duration d = inr true.
Proof.
  revert listed. induction dates as [|date rest IH]; simpl; intros listed.
  - intros [= <-] [].
  - destruct (MsAvailabilityDates.dateIsAvailable e duration (isoDate date))
      as [err|pushed] eqn:Hdate; [discriminate|].
    destruct (MsAvailabilityDates.availableDatesOf e duration rest)
      as [err|others]; [discriminate|].
    intros [= <-]. specialize (IH others eq_refl).
    destruct pushed; [|exact IH].
    intros [<-|Hin]; [exact Hdate|auto].
Qed.

Lemma availableDatesOf_complete (e : Env) (duration : Z) (dates : list Z)
  (listed : list CivilDate) (date : Z) :
  MsAvailabilityDates.availableDatesOf e duration dates = inr listed ->
  In date dates ->
  MsAvailabilityDates.dateIsAvailable e duration (isoDate date) = inr true ->
  In (isoDate date) listed.
Proof.
  revert listed. induction dates as [|first rest IH]; simpl; intros listed;
    [intros _ []|].
  destruct (MsAvailabilityDates.dateIsAvailable e duration (isoDate first))
    as [err|pushed] eqn:Hfirst; [discriminate|].
  destruct (MsAvailabilityDates.availableDatesOf e duration rest)
    as [err|others]; [discriminate|].
  intros [= <-] [->|Hin] Havailable.
  - rewrite Havailable in Hfirst. injection Hfirst as <-. now left.
  - specialize (IH others eq_refl Hin Havailable).
    destruct pushed; [now right|exact IH].
Qed.

Lemma availableDates_json (e : Env) (maps : MapsServiceModule)
  (q : MsAvailabilityDates.Query) (w : World) (listed : list CivilDate) :
  fst (MsAvailabilityDates.availableDates e maps q w) = MsAvailabilityDates.Json listed ->
  exists startDate endDate,
    MsAvailabilityDates.start_date q = Some startDate
    /\ MsAvailabilityDates.end_date q = Some endDate
    /\ MsAvailabilityDates.availableDatesOf
         e (fst (MsAvailabilityDates.requestDuration maps q w))
         (MsAvailabilityDates.getDatesInRange startDate endDate)
       = inr listed.
Proof.
  unfold MsAvailabilityDates.availableDates, bind, ret.
  destruct (MsAvailabilityDates.start_date q) as [startDate|]; [|discriminate].
  destruct (MsAvailabilityDates.end_date q) as [endDate|]; [|discriminate].
  destruct (MsAvailabilityDates.requestDuration maps q w) as [duration w1].
  cbn [fst].
  destruct (photographers e); [discriminate|].
  destruct (MsAvailabilityDates.availableDatesOf _ _ _) as [err|dates] eqn:Hdates;
    [discriminate|].
  intros [= <-]. eauto.
Qed.



Section DatesDay.

Variable e : Env.
Variable formattedDate : CivilDate.
Variable msAvailability : gmap string (list Event).
Variables closeMinutes durationMinutes : Z.

Lemma filter_nonempty (slotStart : Z) :
  (0 <? Z.of_nat (length (List.filter
                            (MsAvailabilityDates.isPhotographerAvailable
                               e formattedDate msAvailability durationMinutes slotStart)
                            (photographers e)))) = true
  <-> exists photographer,
        In photographer (photographers e)
        /\ MsAvailabilityDates.isPhotographerAvailable
             e formattedDate msAvailability durationMinutes slotStart photographer
           = true.
Proof.
  split.
  - destruct (List.filter _ _) as [|photographer others] eqn:Hfilter;
      [discriminate|].
    intros _. exists photographer. apply filter_In. rewrite Hfilter. now left.
  - intros (photographer & Hin).
    apply filter_In in Hin.
    destruct (List.filter _ _); [destruct Hin|]. reflexivity.
Qed.

Lemma hasAvailableSlotFrom_sound (bound : nat) (openMinutes : Z) :
  MsAvailabilityDates.hasAvailableSlotFrom
    e formattedDate msAvailability closeMinutes durationMinutes bound openMinutes = true ->
  exists k photographer,
    DateFacts.freeStart e formattedDate msAvailability openMinutes closeMinutes
                        durationMinutes k photographer.
Proof.
  revert openMinutes. induction bound as [|bound IH]; intros openMinutes;
    cbn [MsAvailabilityDates.hasAvailableSlotFrom]; [discriminate|].
  destruct (Z.leb_spec (openMinutes + durationMinutes) closeMinutes) as [Hfits|];
    [|discriminate].
  cbv zeta.
  destruct (0 <? Z.of_nat (length _)) eqn:Hfree.
  - intros _. apply filter_nonempty in Hfree as (photographer & Hin & Hfree).
    exists 0, photographer. unfold DateFacts.freeStart.
    replace (openMinutes + 30 * 0) with openMinutes by lia.
    repeat split; auto; lia.
  - intros Hlater. destruct (IH _ Hlater) as (k & photographer & Hk & Hend & Hin & Hfree').
    unfold MsAvailability.slotInterval in *.
    exists (k + 1), photographer. unfold DateFacts.freeStart.
    replace (openMinutes + 30 * (k + 1)) with (openMinutes + 30 + 30 * k) by lia.
    repeat split; auto; lia.
Qed.

Lemma hasAvailableSlotFrom_complete (bound : nat) (openMinutes k : Z)
  (photographer : string) :
  DateFacts.freeStart e formattedDate msAvailability openMinutes closeMinutes
                      durationMinutes k photographer ->
  (Z.to_nat k < bound)%nat ->
  MsAvailabilityDates.hasAvailableSlotFrom
    e formattedDate msAvailability closeMinutes durationMinutes bound openMinutes = true.
Proof.
  revert openMinutes k. induction bound as [|bound IH];
    intros openMinutes k (Hk & Hend & Hin & Hfree) Hbound; [lia|].
  cbn [MsAvailabilityDates.hasAvailableSlotFrom].
  destruct (Z.leb_spec (openMinutes + durationMinutes) closeMinutes) as [Hfits|]; [|lia].
  cbv zeta.
  destruct (0 <? Z.of_nat (length _)) eqn:Hnone; [reflexivity|].
  destruct (Z.eq_dec k 0) as [->|Hpositive].
  - replace (openMinutes + 30 * 0) with openMinutes in Hfree by lia.
    assert (Hsome : (0 <? Z.of_nat (length (List.filter
                       (MsAvailabilityDates.isPhotographerAvailable
                          e formattedDate msAvailability durationMinutes openMinutes)
                       (photographers e)))) = true)
      by (apply filter_nonempty; eauto).
    rewrite Hsome in Hnone. discriminate.
  - apply (IH _ (k - 1)); [|lia].
    unfold DateFacts.freeStart, MsAvailability.slotInterval.
    replace (openMinutes + 30 + 30 * (k - 1)) with (openMinutes + 30 * k) by lia.
    repeat split; auto; lia.
Qed.

Lemma hasAvailableSlot_complete (openMinutes k : Z) (photographer : string) :
  DateFacts.freeStart e formattedDate msAvailability openMinutes closeMinutes
                      durationMinutes k photographer ->
  MsAvailabilityDates.hasAvailableSlot
    e formattedDate msAvailability closeMinutes durationMinutes openMinutes = true.
Proof.
  intros Hfree. unfold MsAvailabilityDates.hasAvailableSlot.
  apply (hasAvailableSlotFrom_complete _ _ k photographer Hfree).
  destruct Hfree as (Hk & Hend & _).
  unfold MsAvailabilityDates.iterations, MsAvailability.slotInterval.
  assert (k <= (closeMinutes - durationMinutes - openMinutes) / 30)
    by (apply Z.div_le_lower_bound; lia).
  lia.
Qed.

(** The availability check of the slot listing on a span widened by the
    travel buffer is the check of the date listing on that span. *)
Lemma isPhotographerAvailable_agrees (travelTimeBuffer slotStart : Z) (email : string) :
  MsAvailability.isPhotographerAvailable e formattedDate msAvailability durationMinutes
                                         travelTimeBuffer slotStart email
  = MsAvailabilityDates.isPhotographerAvailable
      e formattedDate msAvailability durationMinutes (slotStart - travelTimeBuffer) email.
Proof.
  unfold MsAvailability.isPhotographerAvailable,
    MsAvailabilityDates.isPhotographerAvailable,
    MsAvailability.fullSlotStartMinutes, MsAvailability.fullSlotEndMinutes,
    MsAvailability.slotEnd, MsAvailability.actualAppointmentDuration,
    MsAvailability.eventsOf.
  cbv zeta.
  replace (slotStart + (durationMinutes - travelTimeBuffer * 2) + travelTimeBuffer)
    with (slotStart - travelTimeBuffer + durationMinutes) by lia.
  f_equal.
  induction (default [] (msAvailability !! email)) as [|event events IH];
    [reflexivity|].
  simpl. rewrite IH. now rewrite Z.gtb_ltb.
Qed.

End DatesDay.

(** The holiday check of the handlers lets a date through in two ways:
    the query answers with no row, or the query fails. *)
Lemma holiday_check_passed (e : Env) (d : CivilDate) :
  match queryHolidays (db e) d with
  | inl _ => false
  | inr rows => 0 <? Z.of_nat (length rows)
  end = false ->
  queryHolidays (db e) d = inr [] \/ exists err, queryHolidays (db e) d = inl err.
Proof.
  destruct (queryHolidays (db e) d) as [err|[|row rows]]; [eauto|now left|discriminate].
Qed.

Lemma holiday_check_passed_by_answer (e : Env) (d : CivilDate) :
  holidays_unreachable (db e) = false ->
  match queryHolidays (db e) d with
  | inl _ => false
  | inr rows => 0 <? Z.of_nat (length rows)
  end = false ->
  queryHolidays (db e) d = inr [].
Proof.
  intros Hup Hcheck.
  destruct (holiday_check_passed e d Hcheck) as [Hnone|[err Hfailed]]; [exact Hnone|].
  unfold queryHolidays in Hfailed. rewrite Hup in Hfailed. discriminate.
Qed.

Lemma no_row_no_active_holiday (e : Env) (d : CivilDate) :
  queryHolidays (db e) d = inr [] -> DateFacts.noActiveHoliday e d.
Proof.
  unfold queryHolidays. destruct (holidays_unreachable (db e)); [discriminate|].
  intros [= Hnone] h Hin Hactive Hdate.
  destruct (filter_keeps (fun h => civil_eqb (holiday_date h) d && holiday_is_active h)
                         h (holidays (db e)) Hin) as (y & r & Hsome).
  { now rewrite Hdate, civil_eqb_refl, Hactive. }
  congruence.
Qed.

Lemma dateIsAvailable_true (e : Env) (duration : Z) (d : CivilDate) :
  holidays_unreachable (db e) = false ->
  MsAvailabilityDates.dateIsAvailable e duration d = inr true ->
  DateFacts.bookableDay e duration d.
Proof.
  intros Hup.
  unfold MsAvailabilityDates.dateIsAvailable, DateFacts.bookableDay.
  destruct (MsAvailability.isDateInPast e d) eqn:Hpast; [discriminate|].
  destruct (MsAvailability.isDateToday e d) eqn:Htoday; [discriminate|].
  destruct (MsAvailability.isDateTomorrow e d
            && negb (MsAvailability.isBeforeCutoffTime e)) eqn:Htomorrow;
    [discriminate|].
  destruct (match queryHolidays (db e) d with
            | inl _ => false
            | inr rows => 0 <? Z.of_nat (length rows)
            end) eqn:Hholiday; [discriminate|].
  destruct (queryOperatingHours (db e) (MsAvailability.getCorrectDayOfWeek e d))
    as [err|[|row rest]]; [discriminate|discriminate|].
  destruct (MsGraphService.getPhotographersAvailability _ _ _ _ _)
    as [err|msAvailability]; [discriminate|].
  cbv zeta. intros [= Hslot].
  pose proof (holiday_check_passed_by_answer e d Hup Hholiday) as Hnone.
  split; [|split; [|split; [exact Hnone|split]]].
  - unfold MsAvailability.isDateInPast, MsAvailability.isDateToday in *.
    rewrite localMidnight_is_start_of_day in Htoday. lia.
  - intros Hnext. rewrite Hnext in Htomorrow.
    now destruct (MsAvailability.isBeforeCutoffTime e).
  - now apply no_row_no_active_holiday.
  - apply hasAvailableSlotFrom_sound in Hslot as (k & photographer & Hfree).
    exists row, rest, msAvailability, k, photographer. auto.
Qed.

(** When the query on the holidays table works, every date of an answer
    starts after the current day of the server, is the next day only while
    the cut-off has not passed, has no active holiday row, has operating
    hours, and has a start on the half-hour grid from the opening time at
    which the appointment, with the duration of the request, ends by the
    closing time and a configured photographer has no blocking event.
    (When the query fails the handler goes on without the check, see
    [holiday_among_the_dates_when_the_query_fails].) *)
Theorem listed_dates_are_bookable (e : Env) (maps : MapsServiceModule)
  (q : MsAvailabilityDates.Query) (w : World) (listed : list CivilDate)
  (d : CivilDate) :
  holidays_unreachable (db e) = false ->
  fst (MsAvailabilityDates.availableDates e maps q w) = MsAvailabilityDates.Json listed ->
  In d listed ->
  DateFacts.bookableDay e (fst (MsAvailabilityDates.requestDuration maps q w)) d.
Proof.
  intros Hup Hanswer Hin.
  destruct (availableDates_json _ _ _ _ _ Hanswer) as (? & ? & _ & _ & Hlisted).
  apply dateIsAvailable_true; [exact Hup|].
  exact (availableDatesOf_listed _ _ _ _ _ Hlisted Hin).
Qed.

(** With the query on the holidays failing, the Monday that has an active
    holiday row is among the dates of the first week of May. *)
Example holiday_among_the_dates_when_the_query_fails :
  fst (MsAvailabilityDates.availableDates Cases.holidaysDown
                                          (mapsService Cases.holidaysDown)
                                          DateCases.firstWeekOfMay emptyWorld)
  = MsAvailabilityDates.Json [Scenario.monday].
Proof. vm_compute. reflexivity. Qed.

Lemma listed_dates_are_bookable_witness :
  DateFacts.bookableDay
    Scenario.thursday
    (fst (MsAvailabilityDates.requestDuration (mapsService Scenario.thursday)
                                              DateCases.firstWeekOfMay emptyWorld))
    Scenario.monday.
Proof.
  apply (listed_dates_are_bookable
           Scenario.thursday (mapsService Scenario.thursday) DateCases.firstWeekOfMay
           emptyWorld [Scenario.monday] Scenario.monday).
  - reflexivity.
  - vm_compute. reflexivity.
  - left. reflexivity.
Defined.

(** Both handlers choose the duration of a request in the same way. *)
Lemma requestDuration_forDate (maps : MapsServiceModule)
  (q : MsAvailabilityDates.Query) (d : CivilDate) :
  MsAvailability.requestDuration maps (MsAvailabilityDates.forDate q d)
  = MsAvailabilityDates.requestDuration maps q.
Proof. reflexivity. Qed.

(** A day of the range on which the slot listing offers a slot for the
    same service parameters is among the dates listed, whenever the date
    listing answers. *)
Theorem offered_date_is_listed (e : Env) (maps : MapsServiceModule)
  (q : MsAvailabilityDates.Query) (w : World) (startDate endDate : CivilDate)
  (date : Z) (slot : MsAvailability.Slot) (slots : list MsAvailability.Slot)
  (listed : list CivilDate) :
  MsAvailabilityDates.start_date q = Some startDate ->
  MsAvailabilityDates.end_date q = Some endDate ->
  In date (MsAvailabilityDates.getDatesInRange startDate endDate) ->
  fst (MsAvailability.availability
         e maps (MsAvailabilityDates.forDate q (isoDate date)) w)
  = MsAvailability.Json (slot :: slots) ->
  fst (MsAvailabilityDates.availableDates e maps q w) = MsAvailabilityDates.Json listed ->
  In (isoDate date) listed.
Proof.
  intros Hstart Hend Hin Hslots Hanswer.
  destruct (availableDates_json _ _ _ _ _ Hanswer)
    as (startDate' & endDate' & Hstart' & Hend' & Hlisted).
  rewrite Hstart in Hstart'. rewrite Hend in Hend'.
  injection Hstart' as <-. injection Hend' as <-.
  apply (availableDatesOf_complete _ _ _ _ _ Hlisted Hin).
  clear Hlisted Hanswer Hin Hstart Hend listed.
  set (d := isoDate date) in *.
  unfold MsAvailability.availability in Hslots.
  cbn [MsAvailability.date MsAvailabilityDates.forDate] in Hslots.
  unfold MsAvailabilityDates.dateIsAvailable.
  destruct (MsAvailability.isDateInPast e d); [discriminate|].
  destruct (MsAvailability.isDateToday e d); [discriminate|].
  destruct (MsAvailability.isDateTomorrow e d
            && negb (MsAvailability.isBeforeCutoffTime e)); [discriminate|].
  unfold MsAvailability.slotsForDate in Hslots.
  destruct (match queryHolidays (db e) d with
            | inl _ => false
            | inr rows => 0 <? Z.of_nat (length rows)
            end); [discriminate|].
  destruct (queryOperatingHours (db e) (MsAvailability.getCorrectDayOfWeek e d))
    as [err|[|row rest]]; [discriminate|discriminate|].
  unfold bind, ret in Hslots.
  rewrite requestDuration_forDate in Hslots.
  destruct (MsAvailabilityDates.requestDuration maps q w) as [duration w1].
  cbn [fst].
  destruct (photographers e) as [|primary others] eqn:Hconfigured;
    [cbv beta iota in Hslots; discriminate|].
  rewrite <- Hconfigured in *.
  destruct (MsGraphService.getPhotographersAvailability _ _ _ _ _)
    as [err|msAvailability]; [discriminate|].
  destruct (MsAvailability.requestTravelBuffer _ _ w1) as [travelTimeBuffer w2].
  cbv zeta in Hslots. cbv zeta.
  set (openMinutes := MsAvailability.timeToMinutes (open_time row)) in *.
  set (closeMinutes := MsAvailability.timeToMinutes (close_time row)) in *.
  f_equal.
  unfold MsAvailability.availableTimeSlots in Hslots.
  destruct (slotsFrom_trace e maps (MsAvailabilityDates.forDate q d) d msAvailability
              openMinutes closeMinutes duration
              travelTimeBuffer
              (MsAvailability.iterations closeMinutes duration travelTimeBuffer
                                         (openMinutes + travelTimeBuffer))
              (openMinutes + travelTimeBuffer) w2) as (starts & Hsub & Hall).
  destruct (MsAvailability.slotsFrom _ _ _ _ _ _ _ _ _ _ _ w2) as [offered w3].
  cbn [fst] in Hslots, Hall. injection Hslots as ->.
  inversion Hall as [|s slot' starts' slots' Hoffered _ Hstarts]; subst.
  assert (Hgrid : In s (Spec.startTimes (openMinutes + travelTimeBuffer)
                          (MsAvailability.iterations closeMinutes duration
                             travelTimeBuffer (openMinutes + travelTimeBuffer))))
    by (apply (sublist_in _ _ _ Hsub); now left).
  apply startTimes_in in Hgrid as (k & Hk & ->).
  destruct Hoffered as (_ & _ & Hphotographer & (Hopen & Hclose) & Hfree & _).
  apply (hasAvailableSlot_complete _ _ _ _ _ _ k (MsAvailability.photographer slot)).
  unfold MsAvailability.fullSlotEndMinutes, MsAvailability.slotEnd,
    MsAvailability.actualAppointmentDuration in Hclose.
  rewrite isPhotographerAvailable_agrees in Hfree.
  replace (openMinutes + travelTimeBuffer + 30 * k - travelTimeBuffer)
    with (openMinutes + 30 * k) in Hfree by lia.
  unfold DateFacts.freeStart. repeat split; auto; lia.
Qed.

Lemma offered_date_is_listed_witness :
  In (isoDate (utcDateTime Scenario.monday (mkTime 0 0))) [Scenario.monday].
Proof.
  eapply (offered_date_is_listed
            Scenario.thursday (mapsService Scenario.thursday) DateCases.firstWeekOfMay
            emptyWorld (mkDate 2025 5 1) (mkDate 2025 5 7)
            (utcDateTime Scenario.monday (mkTime 0 0))).
  - reflexivity.
  - reflexivity.
  - vm_compute. do 4 right. left. reflexivity.
  - vm_compute. reflexivity.
  - vm_compute. reflexivity.
Defined.

(** The date listing reads the calendars and never writes to them. *)
Theorem date_listing_never_writes_the_calendar (e : Env)
  (q : MsAvailabilityDates.Query) (w : World) :
  calendarLog (snd (MsAvailabilityDates.availableDates e (mapsService e) q w))
  = calendarLog w.
Proof.
  unfold MsAvailabilityDates.availableDates.
  destruct (MsAvailabilityDates.start_date q); [|reflexivity].
  destruct (MsAvailabilityDates.end_date q); [|reflexivity].
  unfold bind.
  pose proof (keeps_requestDuration (mapsService e) (quiet_mapsService e)
                (MsAvailabilityDates.forDate q (mkDate 0 0 0)) w) as Hquiet.
  rewrite requestDuration_forDate in Hquiet.
  destruct (MsAvailabilityDates.requestDuration (mapsService e) q w) as [duration w1].
  simpl in Hquiet.
  destruct (photographers e); [exact Hquiet|].
  destruct (MsAvailabilityDates.availableDatesOf _ _ _); exact Hquiet.
Qed.

(** * The start times of a range *)

(** ** Requests without an address leave the state alone *)

Lemma keepsState_ret {A} (a : A) : AllTimesFacts.keepsState (ret a).
Proof. intros w. reflexivity. Qed.

Lemma keepsState_bind {A B} (m : M A) (k : A -> M B) :
  AllTimesFacts.keepsState m -> (forall a, AllTimesFacts.keepsState (k a)) ->
  AllTimesFacts.keepsState (bind m k).
Proof.
  intros Hm Hk w. unfold bind. specialize (Hm w).
  destruct (m w) as [a w1]. simpl in Hm. subst w1. apply Hk.
Qed.

Section NoAddress.

Variable e : Env.
Variable maps : MapsServiceModule.
Variable q : MsAvailability.Query.
Hypothesis no_address : Js.truthy (MsAvailability.property_address q) = false.

Lemma pure_requestDuration :
  AllTimesFacts.keepsState (MsAvailability.requestDuration maps q).
Proof using no_address.
  unfold MsAvailability.requestDuration, MsAvailability.calculateDurationFromSquareFootage.
  rewrite no_address. cbv zeta.
  repeat match goal with
         | |- AllTimesFacts.keepsState (if ?b then _ else _) => destruct b
         | |- AllTimesFacts.keepsState (match ?x with _ => _ end) => destruct x
         end; apply keepsState_ret.
Qed.

Lemma pure_requestTravelBuffer (w : World) :
  MsAvailability.requestTravelBuffer maps q w = (0, w).
Proof using no_address.
  unfold MsAvailability.requestTravelBuffer. now rewrite no_address.
Qed.

Section Day.

Variable d : CivilDate.
Variable m : gmap string (list Event).
Variables openMinutes closeMinutes durationMinutes travelTimeBuffer : Z.

Lemma pure_photographerPasses (slotStart slotEndDate : Z) (email : string) :
  AllTimesFacts.keepsState
    (MsAvailability.photographerPasses e maps q d m openMinutes closeMinutes
                                       durationMinutes travelTimeBuffer slotStart
                                       slotEndDate email).
Proof using no_address.
  unfold MsAvailability.photographerPasses. rewrite no_address. cbn [andb].
  destruct (_ || _); apply keepsState_ret.
Qed.

Lemma pure_availablePhotographers (slotStart slotEndDate : Z) (emails : list string) :
  AllTimesFacts.keepsState
    (MsAvailability.availablePhotographers e maps q d m openMinutes closeMinutes
                                           durationMinutes travelTimeBuffer slotStart
                                           slotEndDate emails).
Proof using no_address.
  induction emails as [|email rest IH]; cbn [MsAvailability.availablePhotographers].
  - apply keepsState_ret.
  - apply keepsState_bind; [apply pure_photographerPasses|intros pass].
    apply keepsState_bind; [exact IH|intros others]. apply keepsState_ret.
Qed.

Lemma pure_recalculatedEnd (slotStart : Z) (w : World) :
  MsAvailability.recalculatedEnd e maps q d closeMinutes durationMinutes travelTimeBuffer
                                 slotStart w
  = (Some (MsAvailability.atMinutes
             e (localMidnight (serverZone e) d)
             (MsAvailability.slotEnd durationMinutes travelTimeBuffer slotStart)), w).
Proof using no_address.
  unfold MsAvailability.recalculatedEnd. rewrite no_address, andb_false_r. reflexivity.
Qed.

Lemma pure_candidate (slotStart : Z) :
  AllTimesFacts.keepsState
    (MsAvailability.candidate e maps q d m openMinutes closeMinutes durationMinutes
                              travelTimeBuffer slotStart).
Proof using no_address.
  intros w. unfold MsAvailability.candidate, bind. rewrite pure_recalculatedEnd.
  pose proof (pure_availablePhotographers
                slotStart
                (MsAvailability.atMinutes
                   e (localMidnight (serverZone e) d)
                   (MsAvailability.slotEnd durationMinutes travelTimeBuffer slotStart))
                (photographers e) w) as Hpure.
  destruct (MsAvailability.availablePhotographers _ _ _ _ _ _ _ _ _ _ _ _ w)
    as [[|first others] w1]; exact Hpure.
Qed.

Lemma pure_slotsFrom (bound : nat) (slotStart : Z) :
  AllTimesFacts.keepsState
    (MsAvailability.slotsFrom e maps q d m openMinutes closeMinutes durationMinutes
                              travelTimeBuffer bound slotStart).
Proof using no_address.
  revert slotStart.
  induction bound as [|bound IH]; intros slotStart; cbn [MsAvailability.slotsFrom].
  - apply keepsState_ret.
  - destruct (_ <=? closeMinutes); [|apply keepsState_ret].
    apply keepsState_bind; [apply pure_candidate|intros offered].
    apply keepsState_bind; [apply IH|intros rest]. apply keepsState_ret.
Qed.

End Day.

End NoAddress.

(** ** The entries of a date are its slots *)

Section WithoutAddress.

Variable e : Env.
Variable maps : MapsServiceModule.
Variable q : MsAvailabilityDates.Query.
Hypothesis no_address : Js.truthy (MsAvailabilityDates.property_address q) = false.

Lemma forDate_no_address (d : CivilDate) :
  Js.truthy (MsAvailability.property_address (MsAvailabilityDates.forDate q d)) = false.
Proof using no_address. exact no_address. Qed.

Lemma pure_travelTimeBufferOf (w : World) :
  MsAvailabilityAllTimes.travelTimeBufferOf maps q w = (0, w).
Proof using no_address.
  unfold MsAvailabilityAllTimes.travelTimeBufferOf. now rewrite no_address.
Qed.

Section Day.

Variable d : CivilDate.
Variable m : gmap string (list Event).
Variables openMinutes closeMinutes durationMinutes travelTimeBuffer : Z.

Lemma offerSlot_as_candidate (slotStart : Z)
  (bySlot : list (string * list MsAvailabilityAllTimes.DateEntry)) (w : World) :
  MsAvailabilityAllTimes.offerSlot e maps q d m openMinutes closeMinutes durationMinutes
                                   travelTimeBuffer slotStart bySlot w
  = (match fst (MsAvailability.candidate
                  e maps (MsAvailabilityDates.forDate q d) d m openMinutes closeMinutes
                  durationMinutes travelTimeBuffer slotStart w) with
     | Some slot =>
         MsAvailabilityAllTimes.pushAt (MsAvailability.start_time slot)
                                       (AllTimesFacts.entryOf e d slot) bySlot
     | None => bySlot
     end, w).
Proof using no_address.
  unfold MsAvailabilityAllTimes.offerSlot, MsAvailability.candidate, bind.
  rewrite (pure_recalculatedEnd e maps _ (forDate_no_address d)).
  cbv zeta.
  pose proof (pure_availablePhotographers
                e maps _ (forDate_no_address d) d m openMinutes closeMinutes
                durationMinutes travelTimeBuffer slotStart
                (MsAvailability.atMinutes
                   e (localMidnight (serverZone e) d)
                   (MsAvailability.slotEnd durationMinutes travelTimeBuffer slotStart))
                (photographers e) w) as Hpure.
  destruct (MsAvailability.availablePhotographers _ _ _ _ _ _ _ _ _ _ _ _ w)
    as [[|first others] w1]; simpl in Hpure; subst w1; reflexivity.
Qed.

Lemma slotsFrom_as_listing (bound : nat) (slotStart : Z)
  (bySlot : list (string * list MsAvailabilityAllTimes.DateEntry)) (w : World) :
  MsAvailabilityAllTimes.slotsFrom e maps q d m openMinutes closeMinutes durationMinutes
                                   travelTimeBuffer bound slotStart bySlot w
  = (AllTimesFacts.pushAll
       e d
       (fst (MsAvailability.slotsFrom
               e maps (MsAvailabilityDates.forDate q d) d m openMinutes closeMinutes
               durationMinutes travelTimeBuffer bound slotStart w))
       bySlot, w).
Proof using no_address.
  revert slotStart bySlot.
  induction bound as [|bound IH]; intros slotStart bySlot;
    cbn [MsAvailabilityAllTimes.slotsFrom MsAvailability.slotsFrom]; [reflexivity|].
  destruct (_ <=? closeMinutes); [|reflexivity].
  unfold bind. rewrite offerSlot_as_candidate.
  pose proof (pure_candidate e maps _ (forDate_no_address d) d m openMinutes closeMinutes
                durationMinutes travelTimeBuffer slotStart w) as Hpure.
  destruct (MsAvailability.candidate _ _ _ _ _ _ _ _ _ slotStart w) as [offered w1].
  simpl in Hpure. subst w1. cbn [fst]. rewrite IH.
  destruct (MsAvailability.slotsFrom _ _ _ _ _ _ _ _ _ bound _ w) as [rest w2].
  destruct offered; reflexivity.
Qed.

End Day.

Lemma addDate_as_listing (d : CivilDate)
  (bySlot : list (string * list MsAvailabilityAllTimes.DateEntry)) (w : World) :
  photographers e <> [] ->
  exists outcome,
    MsAvailabilityAllTimes.addDate
      e maps q (fst (MsAvailabilityDates.requestDuration maps q w)) d bySlot w
    = (outcome, w)
    /\ forall bySlot',
         outcome = inr bySlot' ->
         bySlot'
         = AllTimesFacts.pushAll
             e d
             (AllTimesFacts.slotsOf
                (fst (MsAvailability.availability
                        e maps (MsAvailabilityDates.forDate q d) w)))
             bySlot.
Proof using no_address.
  intros Hconfigured.
  unfold MsAvailabilityAllTimes.addDate, MsAvailability.availability.
  cbn [MsAvailability.date MsAvailabilityDates.forDate].
  fold (MsAvailabilityDates.forDate q d).
  destruct (MsAvailability.isDateInPast e d);
    [eexists; split; [reflexivity|now intros ? [= <-]]|].
  destruct (MsAvailability.isDateToday e d);
    [eexists; split; [reflexivity|now intros ? [= <-]]|].
  destruct (MsAvailability.isDateTomorrow e d
            && negb (MsAvailability.isBeforeCutoffTime e));
    [eexists; split; [reflexivity|now intros ? [= <-]]|].
  unfold MsAvailability.slotsForDate.
  destruct (match queryHolidays (db e) d with
            | inl _ => false
            | inr rows => 0 <? Z.of_nat (length rows)
            end);
    [eexists; split; [reflexivity|now intros ? [= <-]]|].
  destruct (queryOperatingHours (db e) (MsAvailability.getCorrectDayOfWeek e d))
    as [err|[|row rest]];
    [eexists; split; [reflexivity|now intros ? [= <-]]..|].
  unfold bind. rewrite requestDuration_forDate.
  pose proof (pure_requestDuration maps _ (forDate_no_address d) w) as Hpure.
  rewrite requestDuration_forDate in Hpure.
  destruct (MsAvailabilityDates.requestDuration maps q w) as [duration w1].
  simpl in Hpure. subst w1. cbn [fst].
  destruct (photographers e) as [|primary others] eqn:Hphotographers; [congruence|].
  rewrite <- Hphotographers.
  destruct (MsGraphService.getPhotographersAvailability _ _ _ _ _)
    as [err|msAvailability];
    [eexists; split; [reflexivity|intros ? [=]]|].
  cbv zeta.
  rewrite pure_travelTimeBufferOf.
  rewrite (pure_requestTravelBuffer maps _ (forDate_no_address d)).
  rewrite slotsFrom_as_listing.
  unfold MsAvailability.availableTimeSlots.
  eexists. split; [reflexivity|]. intros bySlot' [= <-].
  destruct (MsAvailability.slotsFrom _ _ _ _ _ _ _ _ _ _ _ w) as [slots w2].
  reflexivity.
Qed.

Lemma addDates_as_listing (dates : list Z)
  (bySlot result : list (string * list MsAvailabilityAllTimes.DateEntry))
  (w w' : World) :
  photographers e <> [] ->
  MsAvailabilityAllTimes.addDates
    e maps q (fst (MsAvailabilityDates.requestDuration maps q w)) dates bySlot w
  = (inr result, w') ->
  result
  = fold_left
      (fun bySlot date =>
         AllTimesFacts.pushAll
           e (isoDate date)
           (AllTimesFacts.slotsOf
              (fst (MsAvailability.availability
                      e maps (MsAvailabilityDates.forDate q (isoDate date)) w)))
           bySlot)
      dates bySlot.
Proof using no_address.
  intros Hconfigured. revert bySlot.
  induction dates as [|date rest IH]; intros bySlot;
    cbn [MsAvailabilityAllTimes.addDates fold_left].
  - now intros [= <- _].
  - unfold bind.
    destruct (addDate_as_listing (isoDate date) bySlot w Hconfigured)
      as (outcome & -> & Houtcome).
    destruct outcome as [err|bySlot']; [discriminate|].
    rewrite (Houtcome _ eq_refl). apply IH.
Qed.

End WithoutAddress.

(** ** What is listed at a start time *)

Lemma pushAt_listed (time : string) (entry : MsAvailabilityAllTimes.DateEntry)
  (bySlot : list (string * list MsAvailabilityAllTimes.DateEntry))
  (time' : string) (entry' : MsAvailabilityAllTimes.DateEntry) :
  AllTimesFacts.listedAt (MsAvailabilityAllTimes.pushAt time entry bySlot) time' entry'
  <-> AllTimesFacts.listedAt bySlot time' entry' \/ (time' = time /\ entry' = entry).
Proof.
  unfold AllTimesFacts.listedAt.
  induction bySlot as [|[key dates] rest IH]; cbn [MsAvailabilityAllTimes.pushAt].
  - split.
    + intros (dates' & [[= <- <-]|[]] & [<-|[]]). now right.
    + intros [(dates' & [] & _)|[-> ->]]. exists [entry]. split; now left.
  - destruct (String.eqb_spec key time) as [->|Hother].
    + split.
      * intros (dates' & [[= <- <-]|Hin] & Hentry).
        -- apply in_app_or in Hentry as [Hentry|[<-|[]]]; [|now right].
           left. exists dates. split; [now left|exact Hentry].
        -- left. exists dates'. split; [now right|exact Hentry].
      * intros [(dates' & [[= <- <-]|Hin] & Hentry)|[-> ->]].
        -- exists (dates ++ [entry])%list. split; [now left|].
           apply in_or_app. now left.
        -- exists dates'. split; [now right|exact Hentry].
        -- exists (dates ++ [entry])%list. split; [now left|].
           apply in_or_app. right. now left.
    + split.
      * intros (dates' & [[= <- <-]|Hin] & Hentry).
        -- left. exists dates. split; [now left|exact Hentry].
        -- destruct (proj1 IH) as [(dates'' & Hin' & Hentry')|Hnew]; [eauto| |].
           ++ left. exists dates''. split; [now right|exact Hentry'].
           ++ now right.
      * intros [(dates' & [[= <- <-]|Hin] & Hentry)|Hnew].
        -- exists dates. split; [now left|exact Hentry].
        -- destruct (proj2 IH) as (dates'' & Hin' & Hentry'); [left; eauto|].
           exists dates''. split; [now right|exact Hentry'].
        -- destruct (proj2 IH) as (dates'' & Hin' & Hentry'); [now right|].
           exists dates''. split; [now right|exact Hentry'].
Qed.

Lemma pushAll_listed (e : Env) (d : CivilDate) (slots : list MsAvailability.Slot)
  (bySlot : list (string * list MsAvailabilityAllTimes.DateEntry))
  (time : string) (entry : MsAvailabilityAllTimes.DateEntry) :
  AllTimesFacts.listedAt (AllTimesFacts.pushAll e d slots bySlot) time entry
  <-> AllTimesFacts.listedAt bySlot time entry
      \/ exists slot,
           In slot slots
           /\ time = MsAvailability.start_time slot
           /\ entry = AllTimesFacts.entryOf e d slot.
Proof.
  unfold AllTimesFacts.pushAll. revert bySlot.
  induction slots as [|slot rest IH]; intros bySlot; cbn [fold_left].
  - split; [now left|]. intros [H|(slot & [] & _)]. exact H.
  - rewrite IH, pushAt_listed. split.
    + intros [[H|[-> ->]]|(slot' & Hin & H)].
      * now left.
      * right. exists slot. split; [now left|auto].
      * right. exists slot'. split; [now right|exact H].
    + intros [H|(slot' & [<-|Hin] & H)].
      * left. now left.
      * left. now right.
      * right. exists slot'. split; [exact Hin|exact H].
Qed.

Lemma pushAll_dates_listed (e : Env)
  (slotsOn : CivilDate -> list MsAvailability.Slot) (dates : list Z)
  (bySlot : list (string * list MsAvailabilityAllTimes.DateEntry))
  (time : string) (entry : MsAvailabilityAllTimes.DateEntry) :
  AllTimesFacts.listedAt
    (fold_left (fun bySlot date =>
                  AllTimesFacts.pushAll e (isoDate date) (slotsOn (isoDate date)) bySlot)
               dates bySlot)
    time entry
  <-> AllTimesFacts.listedAt bySlot time entry
      \/ exists date slot,
           In date dates
           /\ In slot (slotsOn (isoDate date))
           /\ time = MsAvailability.start_time slot
           /\ entry = AllTimesFacts.entryOf e (isoDate date) slot.
Proof.
  revert bySlot. induction dates as [|date rest IH]; intros bySlot; cbn [fold_left].
  - split; [now left|]. intros [H|(date & slot & [] & _)]. exact H.
  - rewrite IH, pushAll_listed. split.
    + intros [[H|(slot & Hin & H)]|(date' & slot & Hin & H)].
      * now left.
      * right. exists date, slot. split; [now left|]. split; [exact Hin|exact H].
      * right. exists date', slot. split; [now right|exact H].
    + intros [H|(date' & slot & [<-|Hin] & Hslot & H)].
      * left. now left.
      * left. right. exists slot. split; [exact Hslot|exact H].
      * right. exists date', slot. split; [exact Hin|]. split; [exact Hslot|exact H].
Qed.

Lemma allTimes_json (e : Env) (maps : MapsServiceModule) (q : MsAvailabilityDates.Query)
  (w : World) (result : list (string * list MsAvailabilityAllTimes.DateEntry)) :
  fst (MsAvailabilityAllTimes.allTimes e maps q w) = MsAvailabilityAllTimes.Json result ->
  photographers e <> []
  /\ fst (MsAvailabilityAllTimes.addDates
            e maps q (fst (MsAvailabilityDates.requestDuration maps q w))
            (MsAvailabilityDates.getDatesInRange (MsAvailabilityAllTimes.startDate e q)
                                                 (MsAvailabilityAllTimes.endDate e q))
            [] (snd (MsAvailabilityDates.requestDuration maps q w)))
     = inr result.
Proof.
  unfold MsAvailabilityAllTimes.allTimes, bind.
  destruct (MsAvailabilityDates.requestDuration maps q w) as [duration w1].
  cbn [fst snd].
  destruct (photographers e) as [|primary others]; [discriminate|].
  cbv zeta.
  destruct (MsAvailabilityAllTimes.addDates _ _ _ _ _ _ w1) as [[err|bySlot] w2];
    [discriminate|].
  intros [= <-]. split; [discriminate|reflexivity].
Qed.

(** For a request without a property address, the answer lists an entry
    at a start time exactly when the slot listing offers, on a day of the
    range, a slot with that start time of which it is the entry: the
    answer regroups by start time what the slot listing gives day by
    day. *)
Theorem times_of_range_are_the_slots_of_its_days (e : Env) (maps : MapsServiceModule)
  (q : MsAvailabilityDates.Query) (w : World)
  (result : list (string * list MsAvailabilityAllTimes.DateEntry))
  (time : string) (entry : MsAvailabilityAllTimes.DateEntry) :
  Js.truthy (MsAvailabilityDates.property_address q) = false ->
  fst (MsAvailabilityAllTimes.allTimes e maps q w) = MsAvailabilityAllTimes.Json result ->
  AllTimesFacts.listedAt result time entry
  <-> exists date slots slot,
        In date (MsAvailabilityDates.getDatesInRange
                   (MsAvailabilityAllTimes.startDate e q)
                   (MsAvailabilityAllTimes.endDate e q))
        /\ fst (MsAvailability.availability
                  e maps (MsAvailabilityDates.forDate q (isoDate date)) w)
           = MsAvailability.Json slots
        /\ In slot slots
        /\ time = MsAvailability.start_time slot
        /\ entry = AllTimesFacts.entryOf e (isoDate date) slot.
Proof.
  intros Hno Hanswer.
  destruct (allTimes_json _ _ _ _ _ Hanswer) as [Hconfigured Hdates].
  pose proof (pure_requestDuration maps _ (forDate_no_address q Hno (mkDate 0 0 0)) w)
    as Hpure.
  rewrite requestDuration_forDate in Hpure. rewrite Hpure in Hdates.
  destruct (MsAvailabilityAllTimes.addDates _ _ _ _ _ _ w) as [outcome w'] eqn:Hrun.
  cbn [fst] in Hdates. subst outcome.
  rewrite (addDates_as_listing e maps q Hno _ _ _ _ _ Hconfigured Hrun).
  rewrite (pushAll_dates_listed
             e (fun d => AllTimesFacts.slotsOf
                           (fst (MsAvailability.availability
                                   e maps (MsAvailabilityDates.forDate q d) w)))).
  split.
  - intros [(dates & [] & _)|(date & slot & Hin & Hslot & Hentry)].
    destruct (fst (MsAvailability.availability _ _ _ w)) as [slots|] eqn:Hlisting;
      [|destruct Hslot].
    exists date, slots, slot. auto.
  - intros (date & slots & slot & Hin & Hlisting & Hslot & Hentry).
    right. exists date, slot. rewrite Hlisting. auto.
Qed.

(** ** The entries of an answer, one by one *)

Lemma pushedAll_app (pushes more : list (string * MsAvailabilityAllTimes.DateEntry))
  (bySlot : list (string * list MsAvailabilityAllTimes.DateEntry)) :
  AllTimesTrace.pushedAll more (AllTimesTrace.pushedAll pushes bySlot)
  = AllTimesTrace.pushedAll (pushes ++ more) bySlot.
Proof. unfold AllTimesTrace.pushedAll. now rewrite fold_left_app. Qed.

Lemma pushedAll_listed (pushes : list (string * MsAvailabilityAllTimes.DateEntry))
  (bySlot : list (string * list MsAvailabilityAllTimes.DateEntry))
  (time : string) (entry : MsAvailabilityAllTimes.DateEntry) :
  AllTimesFacts.listedAt (AllTimesTrace.pushedAll pushes bySlot) time entry
  <-> AllTimesFacts.listedAt bySlot time entry \/ In (time, entry) pushes.
Proof.
  unfold AllTimesTrace.pushedAll. revert bySlot.
  induction pushes as [|[time' entry'] rest IH]; intros bySlot; cbn [fold_left fst snd].
  - split; [now left|]. now intros [H|[]].
  - rewrite IH, pushAt_listed. split.
    + intros [[H|[-> ->]]|H]; [now left|right; now left|right; now right].
    + intros [H|[[= -> ->]|H]]; [left; now left|left; now right|now right].
Qed.

Lemma pushAt_keys (time : string) (entry : MsAvailabilityAllTimes.DateEntry)
  (bySlot : list (string * list MsAvailabilityAllTimes.DateEntry)) :
  NoDup (map fst bySlot) ->
  NoDup (map fst (MsAvailabilityAllTimes.pushAt time entry bySlot))
  /\ forall key, key ∈ map fst (MsAvailabilityAllTimes.pushAt time entry bySlot) ->
                 key = time \/ key ∈ map fst bySlot.
Proof.
  induction bySlot as [|[key dates] rest IH]; cbn [MsAvailabilityAllTimes.pushAt map fst].
  - intros _. split.
    + apply NoDup_singleton.
    + intros key ->%list_elem_of_singleton. now left.
  - intros [Hfresh Hrest]%NoDup_cons.
    destruct (String.eqb_spec key time) as [->|Hother]; cbn [map fst].
    + split; [now apply NoDup_cons|]. intros key' Hin. now right.
    + destruct (IH Hrest) as [Hnodup Hsub].
      split.
      * apply NoDup_cons. split; [|exact Hnodup].
        intros Hin. destruct (Hsub _ Hin) as [->|Hin']; [congruence|contradiction].
      * intros key' [->|Hin]%elem_of_cons; [right; now left|].
        destruct (Hsub _ Hin) as [->|Hin']; [now left|right; now right].
Qed.

Lemma pushedAll_keys (pushes : list (string * MsAvailabilityAllTimes.DateEntry))
  (bySlot : list (string * list MsAvailabilityAllTimes.DateEntry)) :
  NoDup (map fst bySlot) -> NoDup (map fst (AllTimesTrace.pushedAll pushes bySlot)).
Proof.
  unfold AllTimesTrace.pushedAll. revert bySlot.
  induction pushes as [|push rest IH]; intros bySlot Hkeys; cbn [fold_left];
    [exact Hkeys|].
  apply IH. now apply pushAt_keys.
Qed.

Section Trace.

Variable e : Env.
Variable maps : MapsServiceModule.
Variable q : MsAvailabilityDates.Query.

Section Day.

Variable d : CivilDate.
Variable m : gmap string (list Event).
Variables openMinutes closeMinutes durationMinutes travelTimeBuffer : Z.

Lemma offerSlot_trace (slotStart : Z)
  (bySlot : list (string * list MsAvailabilityAllTimes.DateEntry)) (w : World) :
  exists pushes,
    fst (MsAvailabilityAllTimes.offerSlot e maps q d m openMinutes closeMinutes
                                          durationMinutes travelTimeBuffer slotStart
                                          bySlot w)
    = AllTimesTrace.pushedAll pushes bySlot
    /\ Forall (AllTimesTrace.entryAt e d m openMinutes closeMinutes durationMinutes
                                     travelTimeBuffer slotStart) pushes.
Proof.
  unfold MsAvailabilityAllTimes.offerSlot, bind, ret. cbv zeta.
  set (slotEndDate := MsAvailability.atMinutes _ _ _).
  pose proof (availablePhotographers_sound
                e maps (MsAvailabilityDates.forDate q d) d m openMinutes closeMinutes
                durationMinutes travelTimeBuffer slotStart slotEndDate (photographers e) w)
    as Hsound.
  destruct (MsAvailability.availablePhotographers _ _ _ _ _ _ _ _ _ _ _ _ w)
    as [[|first others] w1].
  { exists []. split; [reflexivity|constructor]. }
  cbn [fst] in Hsound. cbn [fst].
  eexists [(_, _)]. split; [reflexivity|].
  constructor; [|constructor].
  destruct (photographers e) as [|primary configured] eqn:Hconfigured.
  { destruct (Hsound first (or_introl eq_refl)) as [[] _]. }
  destruct (existsb (String.eqb primary) (first :: others)) eqn:Hprimary.
  - apply existsb_exists in Hprimary as (x & Hx & ->%String.eqb_eq).
    destruct (Hsound x Hx) as (Hin & Hfits & Hfree).
    exists (MsAvailability.mkSlot
              (MsAvailability.minutesToTime slotStart)
              (MsAvailability.minutesToTime
                 (MsAvailability.slotEnd durationMinutes travelTimeBuffer slotStart))
              x true).
    split; [|reflexivity].
    unfold Facts.offeredAt.
    cbn [MsAvailability.start_time MsAvailability.end_time MsAvailability.photographer
         MsAvailability.is_primary head].
    rewrite Hconfigured. repeat split; auto; apply Hfits.
  - destruct (Hsound first (or_introl eq_refl)) as (Hin & Hfits & Hfree).
    exists (MsAvailability.mkSlot
              (MsAvailability.minutesToTime slotStart)
              (MsAvailability.minutesToTime
                 (MsAvailability.slotEnd durationMinutes travelTimeBuffer slotStart))
              first false).
    split; [|reflexivity].
    unfold Facts.offeredAt.
    cbn [MsAvailability.start_time MsAvailability.end_time MsAvailability.photographer
         MsAvailability.is_primary head].
    rewrite Hconfigured. repeat split; auto; try apply Hfits; try discriminate.
    intros [= ->]. simpl in Hprimary. rewrite String.eqb_refl in Hprimary. discriminate.
Qed.

Lemma slotsFrom_pushes (bound : nat) (first : Z) :
  forall (slotStart : Z) (k : Z)
         (bySlot : list (string * list MsAvailabilityAllTimes.DateEntry)) (w : World),
    0 <= k -> slotStart = first + 30 * k ->
    exists pushes,
      fst (MsAvailabilityAllTimes.slotsFrom e maps q d m openMinutes closeMinutes
                                            durationMinutes travelTimeBuffer bound
                                            slotStart bySlot w)
      = AllTimesTrace.pushedAll pushes bySlot
      /\ Forall (fun push =>
                   exists k', 0 <= k'
                     /\ AllTimesTrace.entryAt e d m openMinutes closeMinutes
                                              durationMinutes travelTimeBuffer
                                              (first + 30 * k') push)
                pushes.
Proof.
  induction bound as [|bound IH]; intros slotStart k bySlot w Hk Hstart;
    cbn [MsAvailabilityAllTimes.slotsFrom].
  - exists []. split; [reflexivity|constructor].
  - destruct (_ <=? closeMinutes); [|exists []; split; [reflexivity|constructor]].
    unfold bind.
    destruct (offerSlot_trace slotStart bySlot w) as (pushes & Hpushes & Hall).
    destruct (MsAvailabilityAllTimes.offerSlot _ _ _ _ _ _ _ _ _ slotStart bySlot w)
      as [bySlot1 w1].
    cbn [fst] in Hpushes. subst bySlot1.
    destruct (IH (slotStart + MsAvailability.slotInterval) (k + 1)
                 (AllTimesTrace.pushedAll pushes bySlot) w1)
      as (more & Hmore & Hall');
      [lia|unfold MsAvailability.slotInterval; lia|].
    exists (pushes ++ more)%list. split.
    + rewrite Hmore. apply pushedAll_app.
    + apply Forall_app. split; [|exact Hall'].
      eapply Forall_impl; [exact Hall|].
      intros push Hpush. exists k. split; [exact Hk|]. now rewrite <- Hstart.
Qed.

End Day.

Lemma addDate_pushes (duration : Z) (d : CivilDate)
  (bySlot bySlot' : list (string * list MsAvailabilityAllTimes.DateEntry)) (w : World) :
  fst (MsAvailabilityAllTimes.addDate e maps q duration d bySlot w) = inr bySlot' ->
  exists pushes,
    bySlot' = AllTimesTrace.pushedAll pushes bySlot
    /\ Forall (AllTimesTrace.addedOn e duration d) pushes.
Proof.
  unfold MsAvailabilityAllTimes.addDate.
  destruct (MsAvailability.isDateInPast e d) eqn:Hpast;
    [intros [= <-]; exists []; split; [reflexivity|constructor]|].
  destruct (MsAvailability.isDateToday e d) eqn:Htoday;
    [intros [= <-]; exists []; split; [reflexivity|constructor]|].
  destruct (MsAvailability.isDateTomorrow e d
            && negb (MsAvailability.isBeforeCutoffTime e)) eqn:Htomorrow;
    [intros [= <-]; exists []; split; [reflexivity|constructor]|].
  destruct (match queryHolidays (db e) d with
            | inl _ => false
            | inr rows => 0 <? Z.of_nat (length rows)
            end) eqn:Hholiday;
    [intros [= <-]; exists []; split; [reflexivity|constructor]|].
  destruct (queryOperatingHours (db e) (MsAvailability.getCorrectDayOfWeek e d))
    as [err|[|row rest]] eqn:Hhours;
    [intros [= <-]; exists []; split; [reflexivity|constructor]..|].
  destruct (MsGraphService.getPhotographersAvailability _ _ _ _ _)
    as [err|msAvailability] eqn:Hcalendars; [discriminate|].
  cbv zeta. unfold bind.
  destruct (MsAvailabilityAllTimes.travelTimeBufferOf maps q w) as [travelTimeBuffer w1].
  set (openMinutes := MsAvailability.timeToMinutes (open_time row)).
  set (closeMinutes := MsAvailability.timeToMinutes (close_time row)).
  destruct (slotsFrom_pushes d msAvailability openMinutes closeMinutes duration
              travelTimeBuffer
              (MsAvailability.iterations closeMinutes duration travelTimeBuffer
                                         (openMinutes + travelTimeBuffer))
              (openMinutes + travelTimeBuffer) (openMinutes + travelTimeBuffer) 0
              bySlot w1)
    as (pushes & Hpushes & Hall); [lia|lia|].
  destruct (MsAvailabilityAllTimes.slotsFrom _ _ _ _ _ _ _ _ _ _ _ bySlot w1)
    as [bySlot1 w2].
  cbn [fst] in Hpushes. intros [= <-].
  exists pushes. split; [exact Hpushes|].
  eapply Forall_impl; [exact Hall|].
  intros push (k & Hk & Hentry).
  unfold AllTimesTrace.addedOn.
  split; [|split; [|split]].
  - unfold MsAvailability.isDateInPast, MsAvailability.isDateToday in *.
    rewrite localMidnight_is_start_of_day in Htoday. lia.
  - intros Hnext. rewrite Hnext in Htomorrow.
    now destruct (MsAvailability.isBeforeCutoffTime e).
  - now apply holiday_check_passed.
  - exists row, rest, msAvailability, travelTimeBuffer, k. auto.
Qed.

Lemma addDates_pushes (duration : Z) (dates : list Z) :
  forall (bySlot result : list (string * list MsAvailabilityAllTimes.DateEntry))
         (w : World),
    fst (MsAvailabilityAllTimes.addDates e maps q duration dates bySlot w) = inr result ->
    exists pushes,
      result = AllTimesTrace.pushedAll pushes bySlot
      /\ Forall (fun push =>
                   exists date, In date dates
                     /\ AllTimesTrace.addedOn e duration (isoDate date) push)
                pushes.
Proof.
  induction dates as [|date rest IH]; intros bySlot result w;
    cbn [MsAvailabilityAllTimes.addDates].
  - intros [= <-]. exists []. split; [reflexivity|constructor].
  - unfold bind.
    destruct (MsAvailabilityAllTimes.addDate e maps q duration (isoDate date) bySlot w)
      as [[err|bySlot1] w1] eqn:Hrun; [discriminate|].
    destruct (addDate_pushes duration (isoDate date) bySlot bySlot1 w)
      as (pushes & -> & Hall); [now rewrite Hrun|].
    intros Hrest. destruct (IH _ _ _ Hrest) as (more & -> & Hall').
    exists (pushes ++ more)%list. split; [apply pushedAll_app|].
    apply Forall_app. split.
    + eapply Forall_impl; [exact Hall|]. intros push Hpush. exists date.
      split; [now left|exact Hpush].
    + eapply Forall_impl; [exact Hall'|]. intros push (date' & Hin & Hpush).
      exists date'. split; [now right|exact Hpush].
Qed.

End Trace.

Lemma allTimes_pushes (e : Env) (maps : MapsServiceModule)
  (q : MsAvailabilityDates.Query) (w : World)
  (result : list (string * list MsAvailabilityAllTimes.DateEntry)) :
  fst (MsAvailabilityAllTimes.allTimes e maps q w) = MsAvailabilityAllTimes.Json result ->
  exists pushes,
    result = AllTimesTrace.pushedAll pushes []
    /\ Forall (fun push =>
                 exists date,
                   In date (MsAvailabilityDates.getDatesInRange
                              (MsAvailabilityAllTimes.startDate e q)
                              (MsAvailabilityAllTimes.endDate e q))
                   /\ AllTimesTrace.addedOn
                        e (fst (MsAvailabilityDates.requestDuration maps q w))
                        (isoDate date) push)
              pushes.
Proof.
  intros Hanswer. destruct (allTimes_json _ _ _ _ _ Hanswer) as [_ Hdates].
  exact (addDates_pushes _ _ _ _ _ _ _ _ Hdates).
Qed.

(** Every start time appears once in an answer. *)
Theorem start_times_are_listed_once (e : Env) (maps : MapsServiceModule)
  (q : MsAvailabilityDates.Query) (w : World)
  (result : list (string * list MsAvailabilityAllTimes.DateEntry)) :
  fst (MsAvailabilityAllTimes.allTimes e maps q w) = MsAvailabilityAllTimes.Json result ->
  NoDup (map fst result).
Proof.
  intros Hanswer. destruct (allTimes_pushes _ _ _ _ _ Hanswer) as (pushes & -> & _).
  apply pushedAll_keys. constructor.
Qed.

(** When the query on the holidays table works, every entry of an answer
    is for a day of the range that passes the rules on dates (after today,
    the next day only before the cut-off, no active holiday row, operating
    hours), and is the entry of a slot offered on that day: it starts on
    the half-hour grid from the opening time plus a travel buffer, its span
    widened by the buffer fits the operating hours, and its photographer is
    a configured one with no blocking event in the widened span.  (When the
    query fails the handler goes on without the holiday check, see
    [holiday_among_the_times_when_the_query_fails].) *)
Theorem listed_times_are_offered_slots (e : Env) (maps : MapsServiceModule)
  (q : MsAvailabilityDates.Query) (w : World)
  (result : list (string * list MsAvailabilityAllTimes.DateEntry))
  (time : string) (entry : MsAvailabilityAllTimes.DateEntry) :
  holidays_unreachable (db e) = false ->
  fst (MsAvailabilityAllTimes.allTimes e maps q w) = MsAvailabilityAllTimes.Json result ->
  AllTimesFacts.listedAt result time entry ->
  exists date,
    In date (MsAvailabilityDates.getDatesInRange (MsAvailabilityAllTimes.startDate e q)
                                                 (MsAvailabilityAllTimes.endDate e q))
    /\ AllTimesTrace.offeredOn e (fst (MsAvailabilityDates.requestDuration maps q w))
                               (isoDate date) (time, entry).
Proof.
  intros Hup Hanswer Hlisted.
  destruct (allTimes_pushes _ _ _ _ _ Hanswer) as (pushes & -> & Hall).
  apply pushedAll_listed in Hlisted as [(dates & [] & _)|Hin].
  rewrite Forall_forall in Hall. apply list_elem_of_In, Hall in Hin.
  destruct Hin as (date & Hrange & Hafter & Hnext & Hholiday & Hslot).
  exists date. split; [exact Hrange|].
  assert (Hnone : queryHolidays (db e) (isoDate date) = inr []).
  { destruct Hholiday as [Hnone|[err Hfailed]]; [exact Hnone|].
    unfold queryHolidays in Hfailed. rewrite Hup in Hfailed. discriminate. }
  unfold AllTimesTrace.offeredOn.
  split; [exact Hafter|]. split; [exact Hnext|]. split; [exact Hnone|].
  split; [now apply no_row_no_active_holiday|exact Hslot].
Qed.

(** With the query on the holidays failing, the Monday that has an active
    holiday row has an entry at nine o'clock. *)
Example holiday_among_the_times_when_the_query_fails :
  exists result,
    fst (MsAvailabilityAllTimes.allTimes Cases.holidaysDown
                                         (mapsService Cases.holidaysDown)
                                         DateCases.firstWeekOfMay emptyWorld)
    = MsAvailabilityAllTimes.Json result
    /\ AllTimesFacts.listedAt
         result "9:00 AM"
         (AllTimesFacts.entryOf Cases.holidaysDown Scenario.monday
            (MsAvailability.mkSlot "9:00 AM" "10:00 AM" Scenario.cory true)).
Proof.
  eexists. split; [vm_compute; reflexivity|].
  eexists. split; [vm_compute; left; reflexivity|].
  vm_compute. left. reflexivity.
Qed.

Lemma getDate_reading (e : Env) (n : Z) :
  MsAvailabilityAllTimes.getDate e (civilFromDays n)
  = day (civilFromDays ((n * msPerDay + serverZone e * msPerMinute) / msPerDay))
  /\ MsAvailabilityAllTimes.dayName e (civilFromDays n)
     = AllTimesTrace.weekdayOf ((n * msPerDay + serverZone e * msPerMinute) / msPerDay)
  /\ MsAvailabilityAllTimes.monthName e (civilFromDays n)
     = AllTimesTrace.monthOf
         (civilFromDays ((n * msPerDay + serverZone e * msPerMinute) / msPerDay)).
Proof.
  unfold MsAvailabilityAllTimes.getDate, MsAvailabilityAllTimes.dayName,
    MsAvailabilityAllTimes.monthName, MsAvailabilityAllTimes.localDate,
    AllTimesTrace.weekdayOf, AllTimesTrace.monthOf, getDay, wallClock,
    utcDateTime, localDateTime, localMidnight.
  cbn [hours minutes]. rewrite daysFromCivil_civilFromDays.
  replace (n * msPerDay - 0 * msPerMinute + 0 * msPerHour + 0 * msPerMinute)
    with (n * msPerDay) by lia.
  auto.
Qed.

(** The weekday, the month and the day of the month of an entry are read
    in the zone of the server from midnight UTC of its date: they are
    those of the date when the server is on UTC or east of it, and those of
    the day before when the server is west of UTC. *)
Theorem entries_read_the_day_in_the_server_zone (e : Env) (maps : MapsServiceModule)
  (q : MsAvailabilityDates.Query) (w : World)
  (result : list (string * list MsAvailabilityAllTimes.DateEntry))
  (time : string) (entry : MsAvailabilityAllTimes.DateEntry) :
  fst (MsAvailabilityAllTimes.allTimes e maps q w) = MsAvailabilityAllTimes.Json result ->
  AllTimesFacts.listedAt result time entry ->
  let formattedDate := MsAvailabilityAllTimes.date entry in
  (0 <= serverZone e < 24 * 60 ->
   MsAvailabilityAllTimes.day entry = day formattedDate
   /\ MsAvailabilityAllTimes.day_name entry
      = AllTimesTrace.weekdayOf (daysFromCivil formattedDate)
   /\ MsAvailabilityAllTimes.month_name entry = AllTimesTrace.monthOf formattedDate)
  /\ (- (24 * 60) <= serverZone e < 0 ->
      MsAvailabilityAllTimes.day entry = day (AllTimesTrace.dayBefore formattedDate)
      /\ MsAvailabilityAllTimes.day_name entry
         = AllTimesTrace.weekdayOf (daysFromCivil formattedDate - 1)
      /\ MsAvailabilityAllTimes.month_name entry
         = AllTimesTrace.monthOf (AllTimesTrace.dayBefore formattedDate)).
Proof.
  intros Hanswer Hlisted.
  destruct (allTimes_pushes _ _ _ _ _ Hanswer) as (pushes & -> & Hall).
  apply pushedAll_listed in Hlisted as [(dates & [] & _)|Hin].
  rewrite Forall_forall in Hall. apply list_elem_of_In, Hall in Hin.
  destruct Hin as (date & _ & _ & _ & _ & row & rest & m & buffer & k & _ & _ & _
                   & slot & _ & [= -> ->]).
  unfold AllTimesFacts.entryOf.
  cbn [MsAvailabilityAllTimes.date MsAvailabilityAllTimes.day
       MsAvailabilityAllTimes.day_name MsAvailabilityAllTimes.month_name].
  unfold isoDate, AllTimesTrace.dayBefore.
  set (n := date / msPerDay).
  destruct (getDate_reading e n) as (-> & -> & ->).
  rewrite daysFromCivil_civilFromDays.
  split; intros Hzone.
  - replace ((n * msPerDay + serverZone e * msPerMinute) / msPerDay) with n; [auto|].
    unfold msPerDay, msPerMinute. Z.to_euclidean_division_equations; lia.
  - replace ((n * msPerDay + serverZone e * msPerMinute) / msPerDay) with (n - 1);
      [auto|].
    unfold msPerDay, msPerMinute. Z.to_euclidean_division_equations; lia.
Qed.

Lemma mayTimes_is_the_answer :
  fst (MsAvailabilityAllTimes.allTimes Scenario.thursday (mapsService Scenario.thursday)
                                       DateCases.firstWeekOfMay emptyWorld)
  = MsAvailabilityAllTimes.Json TimeCases.mayTimes.
Proof. vm_compute. reflexivity. Qed.

Lemma mondayAtNine_is_listed :
  AllTimesFacts.listedAt TimeCases.mayTimes "9:00 AM" TimeCases.mondayAtNine.
Proof. exists [TimeCases.mondayAtNine]. split; vm_compute; left; reflexivity. Qed.

Lemma times_of_range_are_the_slots_of_its_days_witness :
  AllTimesFacts.listedAt TimeCases.mayTimes "9:00 AM" TimeCases.mondayAtNine
  <-> exists date slots slot,
        In date (MsAvailabilityDates.getDatesInRange
                   (MsAvailabilityAllTimes.startDate Scenario.thursday
                                                     DateCases.firstWeekOfMay)
                   (MsAvailabilityAllTimes.endDate Scenario.thursday
                                                   DateCases.firstWeekOfMay))
        /\ fst (MsAvailability.availability
                  Scenario.thursday (mapsService Scenario.thursday)
                  (MsAvailabilityDates.forDate DateCases.firstWeekOfMay (isoDate date))
                  emptyWorld)
           = MsAvailability.Json slots
        /\ In slot slots
        /\ "9:00 AM" = MsAvailability.start_time slot
        /\ TimeCases.mondayAtNine
           = AllTimesFacts.entryOf Scenario.thursday (isoDate date) slot.
Proof.
  apply (times_of_range_are_the_slots_of_its_days
           Scenario.thursday (mapsService Scenario.thursday) DateCases.firstWeekOfMay
           emptyWorld TimeCases.mayTimes "9:00 AM" TimeCases.mondayAtNine).
  - reflexivity.
  - vm_compute. reflexivity.
Defined.

Lemma start_times_are_listed_once_witness : NoDup (map fst TimeCases.mayTimes).
Proof.
  apply (start_times_are_listed_once
           Scenario.thursday (mapsService Scenario.thursday) DateCases.firstWeekOfMay
           emptyWorld TimeCases.mayTimes).
  vm_compute. reflexivity.
Defined.

Lemma listed_times_are_offered_slots_witness :
  exists date,
    In date (MsAvailabilityDates.getDatesInRange
               (MsAvailabilityAllTimes.startDate Scenario.thursday
                                                 DateCases.firstWeekOfMay)
               (MsAvailabilityAllTimes.endDate Scenario.thursday
                                               DateCases.firstWeekOfMay))
    /\ AllTimesTrace.offeredOn
         Scenario.thursday
         (fst (MsAvailabilityDates.requestDuration (mapsService Scenario.thursday)
                                                   DateCases.firstWeekOfMay emptyWorld))
         (isoDate date) ("9:00 AM", TimeCases.mondayAtNine).
Proof.
  apply (listed_times_are_offered_slots
           Scenario.thursday (mapsService Scenario.thursday) DateCases.firstWeekOfMay
           emptyWorld TimeCases.mayTimes "9:00 AM" TimeCases.mondayAtNine).
  - reflexivity.
  - vm_compute. reflexivity.
  - exists [TimeCases.mondayAtNine]. split; vm_compute; left; reflexivity.
Defined.

(** On a server four hours west of UTC the entry of Monday 5 May 2025 is
    labelled Sunday the 4th. *)
Lemma entries_read_the_day_in_the_server_zone_witness :
  MsAvailabilityAllTimes.date TimeCases.mondayAtNine = mkDate 2025 5 5
  /\ MsAvailabilityAllTimes.day TimeCases.mondayAtNine = 4
  /\ MsAvailabilityAllTimes.day_name TimeCases.mondayAtNine = "Sunday"
  /\ MsAvailabilityAllTimes.month_name TimeCases.mondayAtNine = "May".
Proof.
  split; [reflexivity|].
  refine (proj2 (entries_read_the_day_in_the_server_zone
                   Scenario.thursday (mapsService Scenario.thursday)
                   DateCases.firstWeekOfMay emptyWorld TimeCases.mayTimes "9:00 AM"
                   TimeCases.mondayAtNine _ _) _).
  - vm_compute. reflexivity.
  - exists [TimeCases.mondayAtNine]. split; vm_compute; left; reflexivity.
  - vm_compute. split; [discriminate|reflexivity].
Defined.

(** ** The calendar is not written *)

Section QuietTimes.

Variable e : Env.
Variable maps : MapsServiceModule.
Hypothesis quiet_maps : Facts.quiet maps.

Lemma keeps_travelTimeBufferOf (q : MsAvailabilityDates.Query) :
  Facts.keepsCalendar (MsAvailabilityAllTimes.travelTimeBufferOf maps q).
Proof using quiet_maps.
  pose proof (keeps_buffer_of_maps maps quiet_maps).
  unfold MsAvailabilityAllTimes.travelTimeBufferOf. keeps.
Qed.

Lemma keeps_offerSlot (q : MsAvailabilityDates.Query) (d : CivilDate)
  (m : gmap string (list Event))
  (openMinutes closeMinutes durationMinutes travelTimeBuffer slotStart : Z)
  (bySlot : list (string * list MsAvailabilityAllTimes.DateEntry)) :
  Facts.keepsCalendar
    (MsAvailabilityAllTimes.offerSlot e maps q d m openMinutes closeMinutes
                                      durationMinutes travelTimeBuffer slotStart bySlot).
Proof using quiet_maps.
  pose proof (keeps_availablePhotographers e maps quiet_maps).
  unfold MsAvailabilityAllTimes.offerSlot. cbv zeta. keeps.
Qed.

Lemma keeps_timesFrom (q : MsAvailabilityDates.Query) (d : CivilDate)
  (m : gmap string (list Event))
  (openMinutes closeMinutes durationMinutes travelTimeBuffer : Z) (bound : nat) :
  forall (slotStart : Z) (bySlot : list (string * list MsAvailabilityAllTimes.DateEntry)),
    Facts.keepsCalendar
      (MsAvailabilityAllTimes.slotsFrom e maps q d m openMinutes closeMinutes
                                        durationMinutes travelTimeBuffer bound slotStart
                                        bySlot).
Proof using quiet_maps.
  pose proof keeps_offerSlot.
  induction bound as [|bound IH]; intros slotStart bySlot;
    cbn [MsAvailabilityAllTimes.slotsFrom]; keeps.
Qed.

Lemma keeps_addDate (q : MsAvailabilityDates.Query) (duration : Z) (d : CivilDate)
  (bySlot : list (string * list MsAvailabilityAllTimes.DateEntry)) :
  Facts.keepsCalendar (MsAvailabilityAllTimes.addDate e maps q duration d bySlot).
Proof using quiet_maps.
  pose proof keeps_travelTimeBufferOf. pose proof keeps_timesFrom.
  unfold MsAvailabilityAllTimes.addDate. cbv zeta. keeps.
Qed.

Lemma keeps_addDates (q : MsAvailabilityDates.Query) (duration : Z) (dates : list Z) :
  forall bySlot : list (string * list MsAvailabilityAllTimes.DateEntry),
    Facts.keepsCalendar (MsAvailabilityAllTimes.addDates e maps q duration dates bySlot).
Proof using quiet_maps.
  pose proof keeps_addDate.
  induction dates as [|date rest IH]; intros bySlot;
    cbn [MsAvailabilityAllTimes.addDates]; keeps.
Qed.

Lemma keeps_allTimes (q : MsAvailabilityDates.Query) :
  Facts.keepsCalendar (MsAvailabilityAllTimes.allTimes e maps q).
Proof using quiet_maps.
  pose proof keeps_addDates.
  pose proof (keeps_requestDuration maps quiet_maps
                (MsAvailabilityDates.forDate q (mkDate 0 0 0))) as Hduration.
  rewrite requestDuration_forDate in Hduration.
  unfold MsAvailabilityAllTimes.allTimes. cbv zeta. keeps.
Qed.

End QuietTimes.

(** The listing of the start times of a range reads the calendars and
    never writes to them. *)
Theorem time_listing_never_writes_the_calendar (e : Env)
  (q : MsAvailabilityDates.Query) (w : World) :
  calendarLog (snd (MsAvailabilityAllTimes.allTimes e (mapsService e) q w))
  = calendarLog w.
Proof. apply keeps_allTimes, quiet_mapsService. Qed.

(** * When no route can be had *)

Lemma addressToLatLng_keeps_estimates (e : Env) (address : string) (w : World) :
  travelTimeCache (snd (MapsService.addressToLatLng e address w)) = travelTimeCache w.
Proof.
  unfold MapsService.addressToLatLng, bind, gets, ret.
  destruct (String.eqb address ""); [reflexivity|].
  cbv zeta. cbn [fst snd].
  destruct (geocodeCache w !! _); [reflexivity|].
  destruct (MapsService.geocodeLookup e _); [reflexivity|].
  destruct (_ || _); reflexivity.
Qed.

(** Without an address, without an API key, or when the route service
    gives nothing for a request that is not in the cache, the travel
    estimate is the default one (25 miles, 30 minutes, 35 minutes in
    traffic), which rounds to a travel buffer of an hour; and this default
    is stored in the cache under the key of the request, with the current
    time. *)
Theorem failed_estimate_is_the_default_and_is_cached (e : Env) (address : string)
  (arrivalTime : option Z) (w : World) :
  address = ""
  \/ Js.truthy (apiKey e) = false
  \/ (MapsService.validEntry e (travelTimeCache w)
                             (MapsService.getCacheKey e address arrivalTime) = None
      /\ forall request, computeRouteMatrix e request = None) ->
  let outcome := MapsService.calculateTravelTime e address arrivalTime w in
  fst outcome = MapsService.defaultResult
  /\ MapsService.roundedTravelTime (fst outcome) = 60
  /\ travelTimeCache (snd outcome)
     = <[MapsService.getCacheKey e address arrivalTime
         := (now e, MapsService.defaultResult)]> (travelTimeCache w).
Proof.
  intros Hfailure. cbv zeta.
  assert (Hfallback :
            forall w0, travelTimeCache w0 = travelTimeCache w ->
              let outcome := MapsService.travelTimeFallback e address arrivalTime w0 in
              fst outcome = MapsService.defaultResult
              /\ MapsService.roundedTravelTime (fst outcome) = 60
              /\ travelTimeCache (snd outcome)
                 = <[MapsService.getCacheKey e address arrivalTime
                     := (now e, MapsService.defaultResult)]> (travelTimeCache w)).
  { intros w0 Hsame. cbv zeta.
    unfold MapsService.travelTimeFallback, bind, ret, set_travelTimeCache, modify.
    cbn [fst snd travelTimeCache]. rewrite Hsame. repeat split. }
  unfold MapsService.calculateTravelTime.
  destruct (String.eqb_spec address "") as [->|Hpresent]; [now apply Hfallback|].
  destruct (Js.truthy (apiKey e)) eqn:Hkey; cbn [negb]; [|now apply Hfallback].
  destruct Hfailure as [->|[?|[Hmiss Hroutes]]]; [congruence|discriminate|].
  unfold bind, gets. cbn [fst snd]. rewrite Hmiss.
  unfold MapsService.requestRoute, bind.
  pose proof (addressToLatLng_keeps_estimates e address w) as Hkept.
  destruct (MapsService.addressToLatLng e address w) as [[err|destination] w1].
  - now apply Hfallback.
  - cbv zeta. unfold log_route, modify. cbn [fst snd] in *.
    rewrite Hroutes. now apply Hfallback.
Qed.

Lemma failed_estimate_is_the_default_and_is_cached_witness :
  let outcome :=
    MapsService.calculateTravelTime Cases.unreachableRoutes Scenario.jupiterHome None
                                    emptyWorld in
  fst outcome = MapsService.defaultResult
  /\ MapsService.roundedTravelTime (fst outcome) = 60
  /\ travelTimeCache (snd outcome)
     = <[MapsService.getCacheKey Cases.unreachableRoutes Scenario.jupiterHome None
         := (now Cases.unreachableRoutes, MapsService.defaultResult)]>
         (travelTimeCache emptyWorld).
Proof.
  apply (failed_estimate_is_the_default_and_is_cached
           Cases.unreachableRoutes Scenario.jupiterHome None emptyWorld).
  right. right. split; reflexivity.
Defined.
